(** * Merlin_DSE: the result database and the exploration flow

    A shallow embedding of [autodse/database.py] (the [Database] base class
    with its [RedisDatabase] and [PickleDatabase] variants) and of the parts
    of [autodse/__main__.py] that drive it: the path tests at the start of
    [main], the supervising loop of [launch_exploration], the end of [main]
    that backs the database up, and the loop that creates the numbered
    outputs.

    Python objects are first-order values; a method is a state transformer
    that returns the new state and either a value or a raised exception.
    The libraries the code calls (the clock, [pickle], [jsonpickle], the
    Redis client, [pickledb], [queue.PriorityQueue], the file system) are
    modelled by their contracts; the serializers, the clock and the
    comparisons that the heap of the queue makes are parameters. *)

From Stdlib Require Import ZArith List Lia Ascii String.
From stdpp Require Import base option list gmap sets strings sorting pretty.

Open Scope string_scope.
Open Scope list_scope.
Open Scope Z_scope.

(* ===================================================================== *)
(** * Python values *)
(* ===================================================================== *)

Definition bytes := list Byte.byte.

(** The classes imported from [.result]. *)
Inductive ResultClass := Result_cls | HLSResult_cls | MerlinResult_cls.

(** Modelled from the spec: [Result.RetCode] is declared in [result.py],
    which is not part of the sources; the spec lists its outcome
    classification as success, timeout, evaluator error and invalid point. *)
Inductive RetCode := Success | Timeout | EvaluatorError | InvalidPoint.

(** Modelled from the spec: the fields of a [Result] ([result.py] is not
    part of the sources): [point], [quality], [valid], [retCode], [path],
    and [codeHash] on the toolchain-specific variant.  [quality] is a Python
    float that the code only compares; it is modelled as an integer. *)
Record Result := mkResult {
  cls : ResultClass;
  point : option string;
  quality : Z;
  valid : bool;
  ret_code : RetCode;
  path : option string;
  code_hash : option string
}.

(** What can be handed to [commit] (typed [Any]) and what the stores hold. *)
Inductive pyobj :=
| PyNone
| PyBool (b : bool)
| PyStr (s : string)
| PyResult (r : Result).

(** [isinstance(v, Result)]: every class of [.result] derives from [Result]. *)
Definition isinstance_Result (v : pyobj) : option Result :=
  match v with PyResult r => Some r | _ => None end.

(** [isinstance(v, HLSResult)] *)
Definition isinstance_HLSResult (v : pyobj) : option Result :=
  match v with
  | PyResult r => match cls r with HLSResult_cls => Some r | _ => None end
  | _ => None
  end.

(** [isinstance(v, MerlinResult)] *)
Definition isinstance_MerlinResult (v : pyobj) : option Result :=
  match v with
  | PyResult r => match cls r with MerlinResult_cls => Some r | _ => None end
  | _ => None
  end.

(** [isinstance(v, bool)] *)
Definition isinstance_bool (v : pyobj) : bool :=
  match v with PyBool _ => true | _ => false end.

(** [v is not None] *)
Definition is_not_None (v : pyobj) : bool :=
  match v with PyNone => false | _ => true end.

(* ===================================================================== *)
(** * Exceptions and outcomes *)
(* ===================================================================== *)

(** The exceptions the code raises or meets.  [DataError] is the one of
    the Redis client, [FileNotFoundError] the one of [open].  [Blocks] is
    not one of them: it stands for a call that does not return, a [get()]
    without timeout on an empty queue, which waits for a [put]; no handler
    catches it, and the model follows the thread no further. *)
Inductive exn :=
| RuntimeError
| NotImplementedError
| ValueError
| TypeError
| AssertionError
| KeyboardInterrupt
| UnpicklingError
| EOFError
| AttributeError (name : string)
| DataError
| FileNotFoundError
| Blocks.

Inductive outcome (A : Type) :=
| Return (a : A)
| Raise (e : exn).
Arguments Return {A} a.
Arguments Raise {A} e.

Definition is_ValueError (e : exn) : bool :=
  match e with ValueError => true | _ => false end.

Definition is_KeyboardInterrupt (e : exn) : bool :=
  match e with KeyboardInterrupt => true | _ => false end.

(** What [except Exception] catches: [KeyboardInterrupt] does not derive
    from [Exception]. *)
Definition is_Exception (e : exn) : bool :=
  match e with KeyboardInterrupt | Blocks => false | _ => true end.

(** A logging call: the level, the format string and its arguments. *)
Inductive log_level := INFO | WARNING | ERROR.
Record log_record := mkLog {
  level : log_level;
  fmt : string;
  args : list string
}.

(* ===================================================================== *)
(** * The library parameters *)
(* ===================================================================== *)

(** [time_at n] is what the [n]-th call of [time()] returns, a float that
    the code compares and truncates: it is counted in ticks, a tick being a
    fraction of a second fine enough to tell the readings apart, of which
    there are [ticks_per_second] in a second.
    [pickle_loads] and [jsonpickle_decode] return the object or raise.
    [heap_meets e q] tells whether, when the tuple [e] is pushed on the heap
    of a [PriorityQueue] that holds the tuples [q], the heap compares [e]
    with a tuple of the same quality and timestamp that holds another result
    object.  That depends on the layout of the heap and on the identity of
    the objects, neither of which the model keeps. *)
Class Runtime := {
  time_at : nat → Z;
  ticks_per_second : positive;
  pickle_dumps : pyobj → bytes;
  pickle_loads : bytes → outcome pyobj;
  jsonpickle_encode : pyobj → string;
  jsonpickle_decode : string → outcome pyobj;
  heap_meets : Z * Z * Result → list (Z * Z * Result) → bool
}.

(* ===================================================================== *)
(** * queue.PriorityQueue *)
(* ===================================================================== *)

(** The contract of [queue.PriorityQueue] on the tuples the database puts
    in it: [put] adds a tuple and [get] removes and returns the least one.
    The list holds the queued tuples in the order in which [get] returns
    them.  Python compares [(quality, timestamp, result)] tuples field by
    field; the quality and the timestamp are floats that the code only
    compares, and integers here.  When two tuples agree on both, Python
    goes on to compare the two result objects, which have no order
    ([result.py] is not part of the sources, and a class has none unless it
    defines one): the comparison raises [TypeError].  [put] appends the
    tuple to the heap and then sifts it up, so that the tuple is in the
    queue also when a comparison on its way raises.  The list keeps tuples
    that agree on quality and timestamp in the order in which they were
    put, and [get] takes them in that order: the comparisons that [get]
    makes among such tuples are not followed. *)
Module PriorityQueue.

Definition entry := (Z * Z * Result)%type.

Definition entry_quality (e : entry) : Z := e.1.1.
Definition entry_time (e : entry) : Z := e.1.2.
Definition entry_result (e : entry) : Result := e.2.

(** [a < b] on tuples *)
Definition entry_ltb (a b : entry) : bool :=
  (entry_quality a <? entry_quality b) ||
  ((entry_quality a =? entry_quality b) && (entry_time a <? entry_time b)).

Definition entry_le (a b : entry) : Prop :=
  entry_quality a < entry_quality b ∨
  (entry_quality a = entry_quality b ∧ entry_time a ≤ entry_time b).

Abbreviation t := (list entry).

Definition new : t := [].

(** Where a tuple goes in the queue. *)
Fixpoint insert (e : entry) (q : t) : t :=
  match q with
  | [] => [e]
  | x :: q' => if entry_ltb e x then e :: x :: q' else x :: insert e q'
  end.

(** Two tuples that agree on quality and timestamp. *)
Definition ties (a b : entry) : bool :=
  (entry_quality a =? entry_quality b) && (entry_time a =? entry_time b).

(** Whether the heap compares the tuple it is given with one of the queue
    that ties with it. *)
Definition meets_tie `{Runtime} (e : entry) (q : t) : bool :=
  existsb (ties e) q && heap_meets e q.

(** [put(e)] on a queue with no bound: the queue with the tuple in it, and
    whether the call returned. *)
Definition put `{Runtime} (e : entry) (q : t) : t * outcome unit :=
  (insert e q, if meets_tie e q then Raise TypeError else Return tt).

(** [get()] on a queue that holds something; on an empty queue the Python
    call blocks, which is [None] here. *)
Definition get (q : t) : option (entry * t) :=
  match q with
  | [] => None
  | e :: q' => Some (e, q')
  end.

Definition qsize (q : t) : Z := Z.of_nat (length q).


End PriorityQueue.

(* ===================================================================== *)
(** * The world outside the process, and a database object *)
(* ===================================================================== *)

(** What is at a path.  A file holds the pickle of a dictionary of pickled
    values (written by [RedisDatabase.persist]), the JSON text of a
    dictionary of strings (written by [pickledb]'s [dump]), or bytes on
    which reading raises.  [MissingDirectory] stands for a path whose
    directory does not exist: there is no file there, and none can be
    created.  A path at which there is nothing else has no entry in
    [files]: a file can be created there. *)
Inductive file_content :=
| PickleFile (data : gmap string bytes)
| JsonFile (data : gmap string string)
| BrokenFile (e : exn)
| MissingDirectory.

Record World := mkWorld {
  files : gmap string file_content;
  redis : gmap string (gmap string bytes);
  cwd : string;
  clock_reads : nat
}.

(** The attributes set by [Database.__init__]; [database] is the handle of
    the variant, [env] the world the object lives in. *)
Record Database (B : Type) := mkDatabase {
  db_id : string;
  db_file_path : string;
  best_cache_size : Z;
  best_cache : PriorityQueue.t;
  code_hash_set : gset string;
  database : B;
  log : list log_record;
  env : World
}.
Arguments mkDatabase {B}.
Arguments db_id {B}.
Arguments db_file_path {B}.
Arguments best_cache_size {B}.
Arguments best_cache {B}.
Arguments code_hash_set {B}.
Arguments database {B}.
Arguments log {B}.
Arguments env {B}.

Definition set_best_cache {B} (q : PriorityQueue.t) (db : Database B) : Database B :=
  mkDatabase (db_id db) (db_file_path db) (best_cache_size db) q
             (code_hash_set db) (database db) (log db) (env db).

Definition set_code_hash_set {B} (s : gset string) (db : Database B) : Database B :=
  mkDatabase (db_id db) (db_file_path db) (best_cache_size db) (best_cache db)
             s (database db) (log db) (env db).

Definition set_database {B} (d : B) (db : Database B) : Database B :=
  mkDatabase (db_id db) (db_file_path db) (best_cache_size db) (best_cache db)
             (code_hash_set db) d (log db) (env db).

Definition set_log {B} (l : list log_record) (db : Database B) : Database B :=
  mkDatabase (db_id db) (db_file_path db) (best_cache_size db) (best_cache db)
             (code_hash_set db) (database db) l (env db).

Definition set_env {B} (w : World) (db : Database B) : Database B :=
  mkDatabase (db_id db) (db_file_path db) (best_cache_size db) (best_cache db)
             (code_hash_set db) (database db) (log db) w.

Definition set_files (f : gmap string file_content) (w : World) : World :=
  mkWorld f (redis w) (cwd w) (clock_reads w).

Definition set_redis (r : gmap string (gmap string bytes)) (w : World) : World :=
  mkWorld (files w) r (cwd w) (clock_reads w).

(** A method of a database object. *)
Definition M (B A : Type) : Type := Database B → Database B * outcome A.

Definition ret {B A} (a : A) : M B A := λ db, (db, Return a).

Definition raise {B A} (e : exn) : M B A := λ db, (db, Raise e).

Definition bind {B A C} (m : M B A) (k : A → M B C) : M B C :=
  λ db, match m db with
        | (db', Return a) => k a db'
        | (db', Raise e) => (db', Raise e)
        end.

Notation "'let*' x ':=' m 'in' k" := (bind m (λ x, k))
  (at level 10, x pattern, m at level 100, k at level 200, only parsing).
Notation "m ';;' k" := (bind m (λ _, k))
  (at level 100, k at level 200, right associativity, only parsing).

(** [for x in l: body(x)] *)
Fixpoint for_each {B X} (l : list X) (body : X → M B unit) : M B unit :=
  match l with
  | [] => ret tt
  | x :: l' => body x ;; for_each l' body
  end.

(** [self.log.error(...)], [self.log.info(...)], [self.log.warning(...)] *)
Definition log_call {B} (lv : log_level) (f : string) (a : list string) : M B unit :=
  λ db, (set_log (log db ++ [mkLog lv f a]) db, Return tt).

(** [time()] *)
Definition time `{Runtime} {B} : M B Z :=
  λ db, let w := env db in
        (set_env (mkWorld (files w) (redis w) (cwd w) (S (clock_reads w))) db,
         Return (time_at (clock_reads w))).

(* ===================================================================== *)
(** * class Database *)
(* ===================================================================== *)

(** The methods that [Database] declares and a variant implements. *)
Class Backend (B : Type) := {
  query : string → M B pyobj;
  batch_query : list string → M B (list pyobj);
  query_keys : M B (list string);
  commit_impl : string → pyobj → M B bool;
  batch_commit_impl : list (string * pyobj) → M B Z;
  count : M B Z
}.

(** The base class itself: every one of them raises. *)
Definition abstract_backend : Backend unit := {|
  query := λ _, raise NotImplementedError;
  batch_query := λ _, raise NotImplementedError;
  query_keys := raise NotImplementedError;
  commit_impl := λ _ _, raise NotImplementedError;
  batch_commit_impl := λ _, raise NotImplementedError;
  count := raise NotImplementedError
|}.

(** [int(x)] of a float counted in ticks: the seconds, the fraction
    dropped. *)
Definition int `{Runtime} (x : Z) : Z := Z.quot x (Z.pos ticks_per_second).

(** [Database.__init__] *)
Definition Database__init__ `{Runtime} {B} (name : string) (cache_size : Z)
    (file_path : option string) (handle : B) (w : World) : Database B :=
  let id := name +:+ "-" +:+ pretty (int (time_at (clock_reads w))) in
  let w' := mkWorld (files w) (redis w) (cwd w) (S (clock_reads w)) in
  match file_path with
  | None =>
      let p := cwd w +:+ "/" +:+ name +:+ ".db" in
      mkDatabase id p cache_size PriorityQueue.new ∅ handle
        [mkLog WARNING
           "No file name was given for dumping the database, dumping to %s" [p]]
        w'
  | Some p =>
      mkDatabase id p cache_size PriorityQueue.new ∅ handle [] w'
  end.

(** [self.best_cache.put(e)] *)
Definition best_cache_put `{Runtime} {B} (e : PriorityQueue.entry) : M B unit :=
  λ db, (set_best_cache (PriorityQueue.put e (best_cache db)).1 db,
         (PriorityQueue.put e (best_cache db)).2).

Section DatabaseMethods.
Context `{Runtime} {B : Type} `{Backend B}.

Definition query_all : M B (list pyobj) :=
  let* keys := query_keys in
  let* values := batch_query keys in
  ret (List.filter is_not_None values).

Definition init_best_cache : M B unit :=
  let* n := count in
  if n =? 0 then ret tt
  else
    let* all := query_all in
    for_each (List.filter valid (omap isinstance_HLSResult all))
      (λ result,
         let* now := time in
         best_cache_put (quality result, now, result)).

Definition init_code_hash_set : M B unit :=
  let* n := count in
  if n =? 0 then ret tt
  else
    let* all := query_all in
    for_each (omap isinstance_MerlinResult all)
      (λ result,
         match code_hash result with
         | Some h => λ db, (set_code_hash_set ({[h]} ∪ code_hash_set db) db, Return tt)
         | None => ret tt
         end).

Definition add_code_hash (code_hash : string) : M B bool :=
  λ db,
    if decide (code_hash ∈ code_hash_set db) then (db, Return false)
    else (set_code_hash_set ({[code_hash]} ∪ code_hash_set db) db, Return true).

(** [update_best]: the handler catches what the [put] raises, logs it and
    raises [RuntimeError] in its place; the text of the exception, which is
    the argument of the message, is left out of the record. *)
Definition update_best (result : Result) : M B unit :=
  λ db,
    match (let* now := time in
           best_cache_put (quality result, now, result)) db with
    | (db', Raise err) =>
        if is_Exception err then
          (log_call ERROR "Failed to update best cache: %s" [] ;;
           raise RuntimeError) db'
        else (db', Raise err)
    | r => r
    end.

Definition commit (key : string) (result : pyobj) : M B unit :=
  let* ok := commit_impl key result in
  if negb ok then
    log_call ERROR "Failed to commit results to the database" [] ;;
    raise RuntimeError
  else
    match isinstance_Result result with
    | Some r => update_best r
    | None => ret tt
    end.

Definition batch_commit (pairs : list (string * pyobj)) : M B unit :=
  let* n := batch_commit_impl pairs in
  if negb (n =? Z.of_nat (length pairs)) then
    log_call ERROR "Failed to commit results to the database" [] ;;
    raise RuntimeError
  else
    for_each pairs
      (λ p, match isinstance_Result p.2 with
            | Some r => update_best r
            | None => ret tt
            end).

End DatabaseMethods.

(* ===================================================================== *)
(** * class RedisDatabase *)
(* ===================================================================== *)

Module RedisDatabase.

(** The handle [self.database]; the hashes themselves live in the server,
    which is part of the world. *)
Inductive client := StrictRedis (host : string) (port : Z).

(** The commands of the client, as what they read from and write to the
    hash stored under [name]; what the client does when the server is down
    is left out.  [hkeys] lists the fields in the order of the map: the
    order in which the server lists them is not modelled. *)
Definition hash_of (w : World) (name : string) : gmap string bytes :=
  default ∅ (redis w !! name).

Definition hexists (w : World) (name key : string) : bool :=
  bool_decide (is_Some (hash_of w name !! key)).

Definition hget (w : World) (name key : string) : option bytes :=
  hash_of w name !! key.

Definition hmget (w : World) (name : string) (keys : list string) : list (option bytes) :=
  map (λ k, hash_of w name !! k) keys.

Definition hkeys (w : World) (name : string) : list string :=
  (map_to_list (hash_of w name)).*1.

Definition hgetall (w : World) (name : string) : gmap string bytes :=
  hash_of w name.

Definition hset (name key : string) (v : bytes) (w : World) : World :=
  set_redis (<[name := <[key := v]> (hash_of w name)]> (redis w)) w.

(** The server after the fields of [data] are set in the hash [name]. *)
Definition merged (name : string) (data : gmap string bytes) (w : World) : World :=
  set_redis (<[name := data ∪ hash_of w name]> (redis w)) w.

(** [hmset] refuses a mapping that holds nothing: the client raises
    [DataError] and sends no command. *)
Definition hmset (name : string) (data : gmap string bytes) (w : World) : outcome World :=
  if decide (data = ∅) then Raise DataError else Return (merged name data w).

(** The command [DEL name] *)
Definition delete (name : string) (w : World) : World :=
  set_redis (base.delete name (redis w)) w.

(** [{key: f(value) for key, value in pairs}]: a later pair wins. *)
Definition dict_of {V} (pairs : list (string * V)) : gmap string V :=
  foldl (λ d p, <[p.1 := p.2]> d) ∅ pairs.

Section Methods.
Context `{Runtime}.

(** The connection probe of the constructor is taken to succeed. *)
Definition __init__ (name : string) (cache_size : Z) (file_path : option string)
    (w : World) : Database client :=
  Database__init__ name cache_size file_path (StrictRedis "localhost" 6379) w.

Definition query (key : string) : M client pyobj :=
  λ db,
    if negb (hexists (env db) (db_id db) key) then (db, Return PyNone)
    else
      match hget (env db) (db_id db) key with
      | Some (b :: bs) =>
          match pickle_loads (b :: bs) with
          | Return v => (db, Return v)
          | Raise e =>
              if is_ValueError e then
                (log_call ERROR "Failed to deserialize the result of %s: %s" [key] ;;
                 ret PyNone) db
              else (db, Raise e)
          end
      | _ => (db, Return PyNone)
      end.

(** The body of the [for] loop of [batch_query], [data] being the list
    built so far. *)
Fixpoint batch_query_loop (items : list (string * option bytes)) (data : list pyobj)
    : M client (list pyobj) :=
  match items with
  | [] => ret data
  | (key, pickled_obj) :: rest =>
      match pickled_obj with
      | Some (b :: bs) =>
          match pickle_loads (b :: bs) with
          | Return v => batch_query_loop rest (data ++ [v])
          | Raise e =>
              if is_ValueError e then
                log_call ERROR "Failed to deserialize the result of %s: %s" [key] ;;
                batch_query_loop rest (data ++ [PyNone])
              else raise e
          end
      | _ => batch_query_loop rest (data ++ [PyNone])
      end
  end.

Definition batch_query (keys : list string) : M client (list pyobj) :=
  match keys with
  | [] => ret []
  | _ => λ db, batch_query_loop (zip keys (hmget (env db) (db_id db) keys)) [] db
  end.

Definition query_keys : M client (list string) :=
  λ db, (db, Return (hkeys (env db) (db_id db))).

Definition commit_impl (key : string) (result : pyobj) : M client bool :=
  λ db,
    let pickled_result := pickle_dumps result in
    (set_env (hset (db_id db) key pickled_result (env db)) db, Return true).

Definition batch_commit_impl (pairs : list (string * pyobj)) : M client Z :=
  λ db,
    let data := dict_of (map (λ p, (p.1, pickle_dumps p.2)) pairs) in
    match hmset (db_id db) data (env db) with
    | Return w => (set_env w db, Return (Z.of_nat (size data)))
    | Raise e => (db, Raise e)
    end.

Definition count : M client Z :=
  λ db, (db, Return (Z.of_nat (length (hkeys (env db) (db_id db))))).

#[export] Instance backend : Backend client :=
  Build_Backend client query batch_query query_keys commit_impl batch_commit_impl count.

Definition persist : M client bool :=
  λ db,
    let dump_db := hgetall (env db) (db_id db) in
    match files (env db) !! db_file_path db with
    | Some MissingDirectory => (db, Raise FileNotFoundError)
    | _ =>
        (set_env (set_files (<[db_file_path db := PickleFile dump_db]> (files (env db)))
                            (env db)) db,
         Return true)
    end.

(** The first half of [load]: reading the dumped dictionary, if there is one. *)
Definition load_file : M client unit :=
  λ db,
    match files (env db) !! db_file_path db with
    | None => (db, Return tt)
    | Some MissingDirectory => (db, Return tt)
    | Some (PickleFile data) =>
        (log_call INFO "Load %d data from an existing database" [pretty (size data)] ;;
         λ db', match hmset (db_id db') data (env db') with
                | Return w => (set_env w db', Return tt)
                | Raise e => (db', Raise e)
                end) db
    | Some (JsonFile _) => (db, Raise UnpicklingError)
    | Some (BrokenFile e) =>
        if is_ValueError e then
          (log_call ERROR "Failed to initialize the database: %s" [] ;;
           raise RuntimeError) db
        else (db, Raise e)
    end.

Definition load : M client unit :=
  load_file ;;
  init_best_cache ;;
  init_code_hash_set.

(** [__del__]: the client object is truthy, so the hash of the object is
    deleted from the server. *)
Definition __del__ : M client unit :=
  λ db, (set_env (delete (db_id db) (env db)) db, Return tt).

End Methods.

End RedisDatabase.

#[global] Existing Instance RedisDatabase.backend.

(* ===================================================================== *)
(** * class PickleDatabase *)
(* ===================================================================== *)

Module PickleDatabase.

(** The handle [self.database] is the dictionary that [pickledb] keeps in
    memory.  The lock of the class brackets each access; one access at a
    time is what this sequential model runs. *)
Abbreviation handle := (gmap string pyobj).

(** [pickledb]'s [get]: the value, or [False] for a key it does not hold. *)
Definition get (d : handle) (key : string) : pyobj :=
  default (PyBool false) (d !! key).

(** [pickledb]'s [set] *)
Definition set (key : string) (value : pyobj) (d : handle) : handle :=
  <[key := value]> d.

(** [pickledb]'s [getall]: the keys, here in the order of the map; the
    order in which the dictionary of [pickledb] lists them, that of their
    first [set], is not modelled. *)
Definition getall (d : handle) : list string := (map_to_list d).*1.

Definition totalkeys (d : handle) : Z := Z.of_nat (size d).

Definition as_str (v : pyobj) : option string :=
  match v with PyStr s => Some s | _ => None end.

(** [pickledb.load(path, False)]: the dictionary read from the JSON file,
    an empty one when there is no file; any other file is not JSON. *)
Definition pickledb_load (w : World) (location : string) : outcome handle :=
  match files w !! location with
  | None => Return ∅
  | Some MissingDirectory => Return ∅
  | Some (JsonFile data) => Return (PyStr <$> data)
  | Some _ => Raise ValueError
  end.

(** [pickledb]'s [dump]: it opens the file and writes the dictionary as
    JSON text.  [persist] calls it on a dictionary of strings; a [Result]
    object is not JSON serializable. *)
Definition dump (location : string) (d : handle) (w : World) : World * outcome bool :=
  match files w !! location with
  | Some MissingDirectory => (w, Raise FileNotFoundError)
  | _ =>
      match mapM as_str (map_to_list d).*2 with
      | Some _ =>
          (set_files (<[location := JsonFile (omap as_str d)]> (files w)) w, Return true)
      | None => (w, Raise TypeError)
      end
  end.

Section Methods.
Context `{Runtime}.

Definition __init__ (name : string) (cache_size : Z) (file_path : option string)
    (w : World) : Database handle * outcome unit :=
  let db := Database__init__ name cache_size file_path (∅ : handle) w in
  match pickledb_load (env db) (db_file_path db) with
  | Return d => (set_database d db, Return tt)
  | Raise e =>
      if is_ValueError e then
        (log_call ERROR "Failed to initialize the database: %s" [] ;;
         raise RuntimeError) db
      else (db, Raise e)
  end.

Definition query (key : string) : M handle pyobj :=
  λ db,
    let value := get (database db) key in
    (db, Return (if isinstance_bool value then PyNone else value)).

Definition batch_query (keys : list string) : M handle (list pyobj) :=
  match keys with
  | [] => ret []
  | _ =>
      λ db,
        (db, Return (foldl (λ (values : list pyobj) key,
                              let value := get (database db) key in
                              (values ++ [if isinstance_bool value then PyNone else value])%list)
                           [] keys))
  end.

Definition query_keys : M handle (list string) :=
  λ db, (db, Return (getall (database db))).

Definition commit_impl (key : string) (result : pyobj) : M handle bool :=
  λ db, (set_database (set key result (database db)) db, Return true).

Definition batch_commit_impl (pairs : list (string * pyobj)) : M handle Z :=
  λ db,
    (set_database (foldl (λ d p, set p.1 p.2 d) (database db) pairs) db,
     Return (Z.of_nat (length pairs))).

Definition count : M handle Z :=
  λ db, (db, Return (totalkeys (database db))).

#[export] Instance backend : Backend handle :=
  Build_Backend handle query batch_query query_keys commit_impl batch_commit_impl count.

(** [jsonpickle.decode] of a stored value; it takes a string. *)
Definition decode_value (v : pyobj) : outcome pyobj :=
  match v with
  | PyStr s => jsonpickle_decode s
  | _ => Raise TypeError
  end.

(** The [for] loop of [load] over the keys that [getall] gave. *)
Fixpoint load_loop (keys : list string) : M handle unit :=
  match keys with
  | [] => ret tt
  | key :: rest =>
      λ db,
        match decode_value (get (database db) key) with
        | Return obj => load_loop rest (set_database (set key obj (database db)) db)
        | Raise e => (db, Raise e)
        end
  end.

Definition load : M handle unit :=
  (λ db,
     match (load_loop (getall (database db)) ;;
            let* n := count in
            log_call INFO "Load %d data from an existing database" [pretty n]) db with
     | (db', Raise e) =>
         if is_ValueError e then
           (log_call ERROR "Failed to load the data from the database: %s" [] ;;
            raise RuntimeError) db'
         else (db', Raise e)
     | r => r
     end) ;;
  init_best_cache ;;
  init_code_hash_set.

(** The [for] loop of [persist]. *)
Definition persist_loop (keys : list string) (d : handle) : handle :=
  foldl (λ d key, set key (PyStr (jsonpickle_encode (get d key))) d) d keys.

Definition persist : M handle bool :=
  λ db,
    let d := persist_loop (getall (database db)) (database db) in
    let db' := set_database d db in
    match dump (db_file_path db') d (env db') with
    | (w, r) => (set_env w db', r)
    end.

End Methods.

End PickleDatabase.

#[global] Existing Instance PickleDatabase.backend.

(* ===================================================================== *)
(** * __main__ *)
(* ===================================================================== *)

Module Main.

(** What an explorer thread does to the shared database. *)
Inductive worker_call :=
| Commit (key : string) (result : pyobj)
| BatchCommit (pairs : list (string * pyobj))
| AddCodeHash (code_hash : string).

(** The steps that act on the shared database while [launch_exploration]
    runs, in the order in which they take effect: a call made by one of the
    explorer threads; one turn of the inner [while] of the main thread (the
    test [qsize() > best_cache_size] and, when it holds, the [get()]); a
    [KeyboardInterrupt] delivered to the main thread, which leaves the loop,
    after which the [with] block of the executor waits for the explorer
    threads, whose calls go on.  A schedule that ends without one is one in
    which the main thread found every future done. *)
Inductive event :=
| Worker (c : worker_call)
| TrimTest
| Interrupt.

Section Flow.
Context `{Runtime} {B : Type} `{Backend B}.

Definition run_worker_call (c : worker_call) : M B unit :=
  match c with
  | Commit key result => commit key result
  | BatchCommit pairs => batch_commit pairs
  | AddCodeHash h => add_code_hash h ;; ret tt
  end.

(** An exception raised in an explorer thread is kept by its future, which
    the main thread never asks for. *)
Definition worker_step (c : worker_call) : M B unit :=
  λ db, ((run_worker_call c db).1, Return tt).

(** One turn of [while db.best_cache.qsize() > db.best_cache_size:
    db.best_cache.get()]; the value tells whether the test held. *)
Definition trim_test : M B bool :=
  λ db,
    if best_cache_size db <? PriorityQueue.qsize (best_cache db) then
      match PriorityQueue.get (best_cache db) with
      | Some (_, q') => (set_best_cache q' db, Return true)
      | None => (db, Raise Blocks)
      end
    else (db, Return false).



(** The calls of the explorer threads alone. *)
Fixpoint run_workers (schedule : list event) : M B unit :=
  match schedule with
  | [] => ret tt
  | Worker c :: rest => worker_step c ;; run_workers rest
  | _ :: rest => run_workers rest
  end.

Fixpoint launch_exploration (schedule : list event) : M B unit :=
  match schedule with
  | [] => ret tt
  | Worker c :: rest => worker_step c ;; launch_exploration rest
  | TrimTest :: rest => trim_test ;; launch_exploration rest
  | Interrupt :: rest => run_workers rest ;; raise KeyboardInterrupt
  end.

(** [try: launch_exploration(...) except KeyboardInterrupt: pass] *)
Definition try_launch_exploration (schedule : list event) : M B unit :=
  λ db,
    match launch_exploration schedule db with
    | (db', Raise e) =>
        if is_KeyboardInterrupt e then (db', Return tt) else (db', Raise e)
    | r => r
    end.

End Flow.

(** The loop of [main] that creates the outputs.  [create_job n] is what the
    [n]-th call of [merlin_eval.create_job()] returns: the path of the job,
    or [None].  [out_dir] maps the name of a slot to the design point applied
    to the job that was renamed to it.  The [match] on the queue is
    [PriorityQueue.get], written out for the recursion. *)
Section Outputs.
Variable create_job : nat → option string.



End Outputs.

(** ** The database object of [main]: a [RedisDatabase] *)

(** The names defined in the bodies of the two classes, and the attributes
    that the constructors set on the object. *)
Definition Database_names : list string :=
  ["__init__"; "init_best_cache"; "init_code_hash_set"; "add_code_hash";
   "update_best"; "commit"; "batch_commit"; "query_all"; "count_ret_code";
   "load"; "query"; "batch_query"; "query_keys"; "commit_impl";
   "batch_commit_impl"; "count"; "persist"].

Definition RedisDatabase_names : list string :=
  ["__init__"; "load"; "__del__"; "query"; "batch_query"; "query_keys";
   "commit_impl"; "batch_commit_impl"; "count"; "persist"].

Definition instance_names : list string :=
  ["db_id"; "log"; "db_file_path"; "best_cache_size"; "best_cache";
   "code_hash_set"; "database"].

(** Attribute lookup on the object: the instance, then the class, then its
    base class. *)
Definition hasattr (name : string) : bool :=
  bool_decide (name ∈ instance_names) ||
  bool_decide (name ∈ RedisDatabase_names) ||
  bool_decide (name ∈ Database_names).

Section MainFlow.
Context `{Runtime}.

(** The methods of the object that take no argument. *)
Definition methods0 : list (string * M RedisDatabase.client unit) :=
  [("load", RedisDatabase.load);
   ("persist", RedisDatabase.persist ;; ret tt);
   ("init_best_cache", init_best_cache);
   ("init_code_hash_set", init_code_hash_set);
   ("query_all", query_all ;; ret tt);
   ("query_keys", RedisDatabase.query_keys ;; ret tt);
   ("count", RedisDatabase.count ;; ret tt)].

Fixpoint assoc {V} (name : string) (l : list (string * V)) : option V :=
  match l with
  | [] => None
  | (n, v) :: l' => if decide (n = name) then Some v else assoc name l'
  end.

(** [db.name()] *)
Definition call0 (name : string) : M RedisDatabase.client unit :=
  if hasattr name then
    match assoc name methods0 with
    | Some m => m
    | None => raise TypeError
    end
  else raise (AttributeError name).

(** [main] from the launch of the exploration to the backup of the
    database.  The calls of the reporter do not touch the database. *)
Definition main_explore_and_backup (schedule : list event) : M RedisDatabase.client unit :=
  try_launch_exploration schedule ;;
  call0 "commit_best" ;;
  call0 "persist".

End MainFlow.

(** ** The start of [main]: the directories and the path of the database *)









End Main.

(* ===================================================================== *)
(** * Notions used to state the properties *)
(* ===================================================================== *)

(** A variant whose two [*_impl] methods leave the best cache and its bound
    alone, as those of both variants do. *)
Definition cache_frame (B : Type) `{Backend B} : Prop :=
  (∀ key result db,
     best_cache (commit_impl key result db).1 = best_cache db ∧
     best_cache_size (commit_impl key result db).1 = best_cache_size db) ∧
  (∀ pairs db,
     best_cache (batch_commit_impl pairs db).1 = best_cache db ∧
     best_cache_size (batch_commit_impl pairs db).1 = best_cache_size db).

(** Everything of a database object and its world but the best cache and
    the number of clock readings. *)
Definition outside_cache {B} (db : Database B) :=
  (db_id db, db_file_path db, best_cache_size db, code_hash_set db, database db,
   log db, files (env db), redis (env db), cwd (env db)).

(** The same without the log. *)
Definition outside_cache_log {B} (db : Database B) :=
  (db_id db, db_file_path db, best_cache_size db, code_hash_set db, database db,
   files (env db), redis (env db), cwd (env db)).

#[global] Instance entry_le_dec (a b : PriorityQueue.entry) :
  Decision (PriorityQueue.entry_le a b).
Proof. unfold PriorityQueue.entry_le. apply _. Defined.



(** The tuple that [update_best] builds for a result at a clock reading. *)
Definition entry_of (now : Z) (r : Result) : PriorityQueue.entry := (quality r, now, r).

(** The object after [update_best] has read the clock and put the tuple of
    [r]. *)
Definition after_put `{Runtime} {B} (r : Result) (db : Database B) : Database B :=
  mkDatabase (db_id db) (db_file_path db) (best_cache_size db)
    (PriorityQueue.insert (entry_of (time_at (clock_reads (env db))) r) (best_cache db))
    (code_hash_set db) (database db) (log db)
    (mkWorld (files (env db)) (redis (env db)) (cwd (env db)) (S (clock_reads (env db)))).

(** The tuples of the results [rs], stamped at the clock readings from the
    [n]-th on. *)
Fixpoint stamp `{Runtime} (n : nat) (rs : list Result) : list PriorityQueue.entry :=
  match rs with
  | [] => []
  | r :: rs' => entry_of (time_at n) r :: stamp (S n) rs'
  end.

(** A queue after the tuples [es] have been put in it, one after the other. *)
Definition put_each (es : list PriorityQueue.entry) (q : PriorityQueue.t) : PriorityQueue.t :=
  foldl (λ q e, PriorityQueue.insert e q) q es.

(** The tuples of a queue were stamped at clock readings before the [n]-th. *)
Definition stamped_before `{Runtime} (n : nat) (q : PriorityQueue.t) : Prop :=
  Forall (λ e, ∃ m, (m < n)%nat ∧ PriorityQueue.entry_time e = time_at m) q.

(** The record that [update_best] logs when the put raises. *)
Definition put_failed : log_record := mkLog ERROR "Failed to update best cache: %s" [].

(** How a [commit] of [v] ends once its write has succeeded: it returns,
    unless [v] is a [Result] and the put of its tuple raises.  The queue
    and the clock are those of the object before the write, which changes
    neither in the two variants. *)
Definition commit_end `{Runtime} {B} (v : pyobj) (db : Database B) : outcome unit :=
  match isinstance_Result v with
  | Some r =>
      if PriorityQueue.meets_tie (entry_of (time_at (clock_reads (env db))) r) (best_cache db)
      then Raise RuntimeError else Return ()
  | None => Return ()
  end.

(** Two states of a database object that differ at most in the best cache,
    the set of code hashes, the log and the number of clock readings. *)
Definition same_store {B} (db db' : Database B) : Prop :=
  db_id db' = db_id db ∧ db_file_path db' = db_file_path db ∧
  database db' = database db ∧
  files (env db') = files (env db) ∧ redis (env db') = redis (env db).

(** What the slot of a key holds when [RedisDatabase.batch_query] returns:
    the object unpickled from the bytes stored under the key, and [None]
    when there are no bytes or their unpickling raises. *)
Definition redis_slot `{Runtime} (db : Database RedisDatabase.client) (key : string) : pyobj :=
  match RedisDatabase.hget (env db) (db_id db) key with
  | Some (b :: bs) =>
      match pickle_loads (b :: bs) with
      | Return v => v
      | Raise _ => PyNone
      end
  | _ => PyNone
  end.

(** The same for a key paired with the bytes that [hmget] gave for it. *)
Definition item_slot `{Runtime} (item : string * option bytes) : pyobj :=
  match item.2 with
  | Some (b :: bs) =>
      match pickle_loads (b :: bs) with
      | Return v => v
      | Raise _ => PyNone
      end
  | _ => PyNone
  end.

(** What the slot of a key holds when [PickleDatabase.batch_query] returns. *)
Definition pickle_slot (db : Database PickleDatabase.handle) (key : string) : pyobj :=
  let value := PickleDatabase.get (database db) key in
  if isinstance_bool value then PyNone else value.


(** The [Result] objects that a call hands to the database. *)
Definition results_of (c : Main.worker_call) : list Result :=
  match c with
  | Main.Commit _ result => option_list (isinstance_Result result)
  | Main.BatchCommit pairs => omap isinstance_Result pairs.*2
  | Main.AddCodeHash _ => []
  end.

(** The results whose tuples a loop of [update_best] over [rs] puts: the
    loop ends with the first call that raises, whose tuple is in the queue
    all the same. *)
Fixpoint results_put `{Runtime} {B} (rs : list Result) (db : Database B) : list Result :=
  match rs with
  | [] => []
  | r :: rest =>
      match update_best r db with
      | (db', Return _) => r :: results_put rest db'
      | (_, Raise _) => [r]
      end
  end.

(** The [Result] objects of a call that reach the best cache: those of a
    [commit] whose write succeeded, and those of a [batch_commit] whose
    count was right, up to the one at which [update_best] raised, if it
    did. *)
Definition results_cached `{Runtime} {B} `{Backend B}
    (c : Main.worker_call) (db : Database B) : list Result :=
  match c with
  | Main.Commit key result =>
      match commit_impl key result db with
      | (_, Return true) => results_of c
      | _ => []
      end
  | Main.BatchCommit pairs =>
      match batch_commit_impl pairs db with
      | (db1, Return n) =>
          if n =? Z.of_nat (length pairs) then results_put (results_of c) db1 else []
      | _ => []
      end
  | Main.AddCodeHash _ => []
  end.

(** The [Result] objects that the calls of the explorers in a schedule
    committed and handed to the best cache, in the order of the calls. *)
Fixpoint committed_by_workers `{Runtime} {B} `{Backend B}
    (schedule : list Main.event) (db : Database B) : list Result :=
  match schedule with
  | [] => []
  | Main.Worker c :: rest =>
      results_cached c db ++ committed_by_workers rest (Main.run_worker_call c db).1
  | _ :: rest => committed_by_workers rest db
  end.

(** The same along [launch_exploration]. *)
Fixpoint committed_results `{Runtime} {B} `{Backend B}
    (schedule : list Main.event) (db : Database B) : list Result :=
  match schedule with
  | [] => []
  | Main.Worker c :: rest =>
      results_cached c db ++ committed_results rest (Main.run_worker_call c db).1
  | Main.TrimTest :: rest =>
      match Main.trim_test db with
      | (db', Return _) => committed_results rest db'
      | (_, Raise _) => []
      end
  | Main.Interrupt :: rest => committed_by_workers rest db
  end.

(** A sequence of [commit] calls; a call that raises ends it. *)
Definition commit_all `{Runtime} {B} `{Backend B} (pairs : list (string * pyobj)) : M B unit :=
  for_each pairs (λ p, commit p.1 p.2).

(** A sequence of [add_code_hash] calls, keeping the store. *)
Definition add_code_hashes {B} (hs : list string) (db : Database B) : Database B :=
  foldl (λ d h, (add_code_hash h d).1) db hs.

(** The value of the last pair with key [k]. *)
Definition last_for {V} (k : string) (pairs : list (string * V)) : option V :=
  RedisDatabase.dict_of pairs !! k.

(** ** The best cache as the spec words it

    "Those entries are exactly the [bestCacheSize] highest-quality valid
    results committed, with ties broken by earliest commit time": the valid
    ones among the committed results, ordered by quality, the higher first
    and the earlier first among equals, cut at the bound. *)
Fixpoint spec_rank_insert (r : Result) (ranked : list Result) : list Result :=
  match ranked with
  | [] => [r]
  | x :: rest =>
      if quality x <? quality r then r :: x :: rest
      else x :: spec_rank_insert r rest
  end.

Definition spec_ranked (committed : list Result) : list Result :=
  foldl (λ ranked r, spec_rank_insert r ranked) [] (List.filter valid committed).

Definition spec_best_cache (bestCacheSize : nat) (committed : list Result) : list Result :=
  take bestCacheSize (spec_ranked committed).

(* ===================================================================== *)
(** * A concrete runtime and a failing variant, for the examples *)
(* ===================================================================== *)

#[global] Instance ResultClass_eq_dec : EqDecision ResultClass.
Proof. solve_decision. Defined.

#[global] Instance RetCode_eq_dec : EqDecision RetCode.
Proof. solve_decision. Defined.

#[global] Instance Result_eq_dec : EqDecision Result.
Proof. solve_decision. Defined.

#[global] Instance pyobj_eq_dec : EqDecision pyobj.
Proof. solve_decision. Defined.

#[global] Instance ResultClass_countable : Countable ResultClass.
Proof.
  refine (inj_countable'
    (λ c, match c with Result_cls => 0 | HLSResult_cls => 1 | MerlinResult_cls => 2 end)%nat
    (λ n, match n with 0 => Result_cls | 1 => HLSResult_cls | _ => MerlinResult_cls end)%nat
    _).
  intros []; reflexivity.
Defined.

#[global] Instance RetCode_countable : Countable RetCode.
Proof.
  refine (inj_countable'
    (λ c, match c with Success => 0 | Timeout => 1 | EvaluatorError => 2
                     | InvalidPoint => 3 end)%nat
    (λ n, match n with 0 => Success | 1 => Timeout | 2 => EvaluatorError
                     | _ => InvalidPoint end)%nat
    _).
  intros []; reflexivity.
Defined.

#[global] Instance Result_countable : Countable Result.
Proof.
  refine (inj_countable'
    (λ r, (cls r, point r, quality r, valid r, ret_code r, path r, code_hash r))
    (λ t, match t with (c, p, q, v, rc, pa, h) => mkResult c p q v rc pa h end)
    _).
  intros []; reflexivity.
Defined.

#[global] Instance pyobj_countable : Countable pyobj.
Proof.
  refine (inj_countable'
    (λ v, match v with
          | PyNone => inl (inl ())
          | PyBool b => inl (inr b)
          | PyStr s => inr (inl s)
          | PyResult r => inr (inr r)
          end)
    (λ x, match x with
          | inl (inl _) => PyNone
          | inl (inr b) => PyBool b
          | inr (inl s) => PyStr s
          | inr (inr r) => PyResult r
          end)
    _).
  intros []; reflexivity.
Defined.

(** A number written bit by bit, as bytes and as text. *)
Fixpoint bytes_of_pos (p : positive) : bytes :=
  match p with
  | xH => [Byte.x2e]
  | xO p' => Byte.x30 :: bytes_of_pos p'
  | xI p' => Byte.x31 :: bytes_of_pos p'
  end.

Fixpoint pos_of_bytes (bs : bytes) : option positive :=
  match bs with
  | [Byte.x2e] => Some xH
  | Byte.x30 :: rest => xO <$> pos_of_bytes rest
  | Byte.x31 :: rest => xI <$> pos_of_bytes rest
  | _ => None
  end.

Fixpoint text_of_pos (p : positive) : string :=
  match p with
  | xH => "."
  | xO p' => String "0"%char (text_of_pos p')
  | xI p' => String "1"%char (text_of_pos p')
  end.

Fixpoint pos_of_text (s : string) : option positive :=
  match s with
  | "." => Some xH
  | String "0"%char rest => xO <$> pos_of_text rest
  | String "1"%char rest => xI <$> pos_of_text rest
  | _ => None
  end.

(** The clock goes on by one second at each reading, and the heap meets
    every tuple that ties with the one pushed; a value is serialized as its
    number.  On bytes that are no number [pickle.loads] raises as Python's
    does: [ValueError] after the protocol opcode [0x80] (an unsupported
    protocol), [UnpicklingError] otherwise (an invalid load key).  Text that
    is no number makes [jsonpickle.decode] raise a [ValueError]. *)
Definition test_runtime : Runtime := {|
  time_at := Z.of_nat;
  ticks_per_second := 1%positive;
  pickle_dumps := λ v, bytes_of_pos (encode v);
  pickle_loads := λ bs,
    match pos_of_bytes bs ≫= decode with
    | Some v => Return v
    | None =>
        match bs with
        | Byte.x80 :: _ => Raise ValueError
        | _ => Raise UnpicklingError
        end
    end;
  jsonpickle_encode := λ v, text_of_pos (encode v);
  jsonpickle_decode := λ s,
    match pos_of_text s ≫= decode with
    | Some v => Return v
    | None => Raise ValueError
    end;
  heap_meets := λ _ _, true
|}.

(** A clock of half a second, read three times in each period, the seconds
    counted in thousandths; otherwise as [test_runtime]. *)
Definition coarse_runtime : Runtime := {|
  time_at := λ n, 500 * Z.of_nat (n `div` 3);
  ticks_per_second := 1000%positive;
  pickle_dumps := @pickle_dumps test_runtime;
  pickle_loads := @pickle_loads test_runtime;
  jsonpickle_encode := @jsonpickle_encode test_runtime;
  jsonpickle_decode := @jsonpickle_decode test_runtime;
  heap_meets := λ _ _, true
|}.

(** A variant whose writes fail: [commit_impl] reports a failure and
    [batch_commit_impl] reports one pair less than it was given. *)
Definition failing_backend : Backend unit := {|
  query := λ _, ret PyNone;
  batch_query := λ keys, ret (map (λ _, PyNone) keys);
  query_keys := ret [];
  commit_impl := λ _ _, ret false;
  batch_commit_impl := λ pairs, ret (Z.of_nat (length pairs) - 1);
  count := ret 0
|}.

(** The worlds and objects of the examples. *)
Definition empty_world : World := mkWorld ∅ ∅ "/work" 0.

Definition result_of (c : ResultClass) (pt : string) (q : Z) (v : bool)
    (h : option string) : Result :=
  mkResult c (Some pt) q v Success None h.


(** A world in which an earlier run has dumped one result of the Merlin
    stage, whose generated code has the hash [h1]. *)
Definition dumped_result : Result :=
  result_of MerlinResult_cls "pt0" 7 true (Some "h1").

Definition dumped_world : World :=
  mkWorld {[ "/work/result.db" :=
               PickleFile {[ "k0" := pickle_dumps (Runtime := test_runtime)
                                       (PyResult dumped_result) ]} ]}
          ∅ "/work" 0.

(** A world in which the hash of the [RedisDatabase] [proj-0] holds, under
    [bad] and [worse], bytes that are no pickle: the first start with the
    protocol opcode, the second are the text "garbage". *)
Definition corrupt_redis_world : World :=
  mkWorld ∅
    {[ "proj-0" := {[ "bad" := [Byte.x80; Byte.x63];
                      "worse" := [Byte.x67; Byte.x61; Byte.x72; Byte.x62;
                                  Byte.x61; Byte.x67; Byte.x65] ]} ]}
    "/work" 0.

(** A world in which the file of a [PickleDatabase] holds, under the key
    [k], text that [jsonpickle] cannot decode. *)
Definition broken_record_world : World :=
  mkWorld {[ "/work/result.db" := JsonFile {[ "k" := "{broken" ]} ]} ∅ "/work" 0.

(* ===================================================================== *)
(** * [Database.count_ret_code] *)
(* ===================================================================== *)

Section CountRetCode.
Context `{Runtime} {B : Type} `{Backend B}.

(** The members of the enumeration are compared by [==]. *)
Definition count_ret_code (code : RetCode) : M B Z :=
  let* all := query_all in
  ret (Z.of_nat (length (List.filter (λ r, bool_decide (ret_code r = code))
                                     (omap isinstance_Result all)))).

End CountRetCode.

(* ===================================================================== *)
(** * More notions *)
(* ===================================================================== *)

(** A variant whose two [*_impl] methods leave the set of code hashes
    alone, as those of both variants do. *)
Definition hash_frame (B : Type) `{Backend B} : Prop :=
  (∀ key result db, code_hash_set (commit_impl key result db).1 = code_hash_set db) ∧
  (∀ pairs db, code_hash_set (batch_commit_impl pairs db).1 = code_hash_set db).

(** The hashes that the explorers hand to [add_code_hash] in a schedule. *)
Definition hashes_added (schedule : list Main.event) : list string :=
  omap (λ ev, match ev with
              | Main.Worker (Main.AddCodeHash h) => Some h
              | _ => None
              end) schedule.

(** The body of the loop of [batch_commit]. *)
Definition put_result `{Runtime} {B} (p : string * pyobj) : M B unit :=
  match isinstance_Result p.2 with
  | Some r => update_best r
  | None => ret ()
  end.

(** What [PickleDatabase.query] shows for a stored value. *)
Definition hide_bool (v : pyobj) : pyobj :=
  if isinstance_bool v then PyNone else v.

(** Whether a value is a [Result] with the given return code, as a number. *)
Definition counts (code : RetCode) (v : pyobj) : nat :=
  match isinstance_Result v with
  | Some r => if bool_decide (ret_code r = code) then 1 else 0
  | None => 0
  end.
(* ===================================================================== *)
(** * The queue keeps its tuples in order *)
(* ===================================================================== *)

Section QueueFacts.
Import PriorityQueue.


Lemma entry_le_trans (a b c : entry) : entry_le a b → entry_le b c → entry_le a c.
Proof. unfold entry_le. intros [?|[? ?]] [?|[? ?]]; [left; lia ..| right; lia]. Qed.


Lemma entry_ltb_true (a b : entry) : entry_ltb a b = true → entry_le a b.
Proof.
  unfold entry_ltb, entry_le. intros Hlt.
  apply orb_true_iff in Hlt as [Hq | Ht].
  - left. lia.
  - apply andb_true_iff in Ht as [Hq Ht]. right. lia.
Qed.

Lemma entry_ltb_false (a b : entry) : entry_ltb a b = false → entry_le b a.
Proof.
  unfold entry_ltb, entry_le. intros Hlt.
  apply orb_false_iff in Hlt as [Hq Ht].
  apply andb_false_iff in Ht as [Ht | Ht]; [left | destruct (Z.eq_dec (entry_quality a) (entry_quality b)); [right | left]]; lia.
Qed.

Lemma insert_perm (e : entry) (q : t) : insert e q ≡ₚ e :: q.
Proof.
  induction q as [|x q IH]; simpl; [done|].
  destruct (entry_ltb e x); [done|].
  rewrite IH. apply Permutation_swap.
Qed.

Lemma insert_length (e : entry) (q : t) : length (insert e q) = S (length q).
Proof. by rewrite (Permutation_length (insert_perm e q)). Qed.

Lemma insert_elem_of (e x : entry) (q : t) : x ∈ insert e q ↔ x = e ∨ x ∈ q.
Proof. rewrite (insert_perm e q). apply elem_of_cons. Qed.

Lemma insert_sorted (e : entry) (q : t) :
  StronglySorted entry_le q → StronglySorted entry_le (insert e q).
Proof.
  induction q as [|x q IH]; simpl; intros Hs.
  - repeat constructor.
  - apply StronglySorted_cons in Hs as [Hx Hq].
    destruct (entry_ltb e x) eqn:Hlt.
    + apply entry_ltb_true in Hlt.
      apply StronglySorted_cons. split.
      * constructor; [done|].
        eapply Forall_impl; [exact Hx|]. intros y Hy. by eapply entry_le_trans.
      * by apply StronglySorted_cons.
    + apply entry_ltb_false in Hlt.
      apply StronglySorted_cons. split; [|auto].
      apply Forall_forall. intros y Hy.
      apply insert_elem_of in Hy as [->|Hy]; [done|].
      rewrite Forall_forall in Hx. auto.
Qed.

(** [put] returns when no tuple of the queue ties with the new one. *)
Lemma put_no_tie `{Runtime} (e : entry) (q : t) :
  existsb (ties e) q = false → (put e q).2 = Return ().
Proof. intros Hq. unfold put, meets_tie. by rewrite Hq. Qed.

Lemma put_each_perm (es : list entry) (q : t) : put_each es q ≡ₚ es ++ q.
Proof.
  revert q. induction es as [|e es IH]; intros q; [done|].
  unfold put_each in *. cbn [foldl]. rewrite IH, insert_perm. simpl. by rewrite Permutation_middle.
Qed.

Lemma put_each_sorted (es : list entry) (q : t) :
  StronglySorted entry_le q → StronglySorted entry_le (put_each es q).
Proof.
  revert q. induction es as [|e es IH]; intros q Hq; [done|].
  unfold put_each in *. cbn [foldl]. by apply IH, insert_sorted.
Qed.

Lemma stamp_results `{Runtime} (n : nat) (rs : list Result) :
  map entry_result (stamp n rs) = rs.
Proof. revert n. induction rs as [|r rs IH]; intros n; simpl; [done|]. by rewrite IH. Qed.

Lemma stamp_quality `{Runtime} (n : nat) (rs : list Result) :
  Forall (λ e, entry_quality e = quality (entry_result e)) (stamp n rs).
Proof. revert n. induction rs as [|r rs IH]; intros n; simpl; by constructor. Qed.

(** When no two readings of the clock agree, a tuple stamped now ties with
    no tuple stamped before. *)
Lemma stamped_before_no_tie `{Runtime} (n : nat) (r : Result) (q : t) :
  Inj (=) (=) time_at → stamped_before n q →
  meets_tie (entry_of (time_at n) r) q = false.
Proof.
  intros Hinj Hq. unfold meets_tie.
  assert (existsb (ties (entry_of (time_at n) r)) q = false) as ->; [|done].
  induction Hq as [|e q (m & Hm & He) _ IH]; [done|].
  simpl. rewrite IH, orb_false_r. unfold ties, entry_of. simpl.
  apply andb_false_iff. right. apply Z.eqb_neq. rewrite He. intros Heq.
  apply Hinj in Heq. lia.
Qed.

Lemma stamped_before_insert `{Runtime} (n : nat) (r : Result) (q : t) :
  stamped_before n q → stamped_before (S n) (insert (entry_of (time_at n) r) q).
Proof.
  intros Hq. unfold stamped_before. rewrite insert_perm. constructor.
  - exists n. split; [lia|done].
  - eapply Forall_impl; [exact Hq|]. intros e (m & Hm & He). exists m. split; [lia|done].
Qed.

End QueueFacts.

(* ===================================================================== *)
(** * The set of code hashes *)
(* ===================================================================== *)

Lemma add_code_hash_elem_of {B} (h : string) (db : Database B) :
  h ∈ code_hash_set (add_code_hash h db).1.
Proof.
  unfold add_code_hash. destruct (decide (h ∈ code_hash_set db)); simpl; set_solver.
Qed.

Lemma add_code_hash_mono {B} (h h' : string) (db : Database B) :
  h ∈ code_hash_set db → h ∈ code_hash_set (add_code_hash h' db).1.
Proof.
  unfold add_code_hash. destruct (decide (h' ∈ code_hash_set db)); simpl; set_solver.
Qed.

Lemma add_code_hashes_mono {B} (h : string) (hs : list string) (db : Database B) :
  h ∈ code_hash_set db → h ∈ code_hash_set (add_code_hashes hs db).
Proof.
  revert db. induction hs as [|h' hs IH]; intros db Hin; simpl; [done|].
  apply IH. by apply add_code_hash_mono.
Qed.

Lemma add_code_hash_known {B} (h : string) (db : Database B) :
  h ∈ code_hash_set db → add_code_hash h db = (db, Return false).
Proof. intros Hin. unfold add_code_hash. by rewrite decide_True. Qed.

Section LoadedHash.
#[local] Existing Instance test_runtime.

(** C4, as stated, fails on a store that has loaded dumped data: [load]
    runs [init_code_hash_set], which puts the hash [h1] of the dumped result
    into the set, so the first call of [add_code_hash] with [h1] on this
    store returns [False]. *)
Lemma add_code_hash_first_call_on_loaded_hash :
  let fresh := RedisDatabase.__init__ "proj" 1 (Some "/work/result.db") dumped_world in
  let db := (RedisDatabase.load fresh).1 in
  code_hash_set fresh = ∅ ∧
  (RedisDatabase.load fresh).2 = Return () ∧
  add_code_hash "h1" db = (db, Return false) ∧
  (add_code_hash "h1" db).2 ≠ Return true.
Proof. vm_compute. repeat split; try reflexivity. discriminate. Qed.

End LoadedHash.

(** C4, amended: [add_code_hash h] returns [True] exactly when [h] is not
    yet in the set of code hashes, and then adds it; otherwise it returns
    [False] and leaves the store as it is.  The set is empty after
    [__init__], so that [h] is then new at its first call, and whatever
    calls of [add_code_hash] come in between, a later call with the same
    [h] returns [False] and changes nothing. *)
Theorem add_code_hash_new_iff_unseen `{Runtime} {B} (db : Database B) (h : string)
    (hs : list string) (name : string) (cache_size : Z) (file_path : option string)
    (handle : B) (w : World) :
  add_code_hash h db =
    (if decide (h ∈ code_hash_set db) then db
     else set_code_hash_set ({[h]} ∪ code_hash_set db) db,
     Return (bool_decide (h ∉ code_hash_set db))) ∧
  (add_code_hash h (Database__init__ name cache_size file_path handle w)).2 = Return true ∧
  (let later := add_code_hashes hs (add_code_hash h db).1 in
   add_code_hash h later = (later, Return false)).
Proof.
  split; [|split].
  - unfold add_code_hash. destruct (decide (h ∈ code_hash_set db)).
    + by rewrite bool_decide_false by (intros Hn; by apply Hn).
    + by rewrite bool_decide_true.
  - unfold add_code_hash, Database__init__.
    destruct file_path; simpl; rewrite decide_False; set_solver.
  - simpl. apply add_code_hash_known, add_code_hashes_mono, add_code_hash_elem_of.
Qed.

(* ===================================================================== *)
(** * Dictionaries built pair by pair *)
(* ===================================================================== *)

Section DictFacts.
Context {V : Type}.
Implicit Types (l : list (string * V)) (d : gmap string V).

Lemma dict_of_snoc l (k : string) (v : V) :
  RedisDatabase.dict_of (l ++ [(k, v)]) = <[k := v]> (RedisDatabase.dict_of l).
Proof. unfold RedisDatabase.dict_of. by rewrite foldl_app. Qed.

Lemma foldl_insert_union l d :
  foldl (λ d p, <[p.1 := p.2]> d) d l = RedisDatabase.dict_of l ∪ d.
Proof.
  induction l as [|[k v] l IH] using rev_ind.
  - unfold RedisDatabase.dict_of. simpl. by rewrite (left_id_L ∅ (∪)).
  - rewrite foldl_app, dict_of_snoc. simpl. rewrite IH. by rewrite insert_union_l.
Qed.

Lemma dict_of_dom l : dom (RedisDatabase.dict_of l) = list_to_set l.*1.
Proof.
  induction l as [|[k v] l IH] using rev_ind.
  - unfold RedisDatabase.dict_of. simpl. by rewrite dom_empty_L.
  - rewrite dict_of_snoc, dom_insert_L, IH, fmap_app, list_to_set_app_L. simpl.
    rewrite (right_id_L ∅ (∪)). apply (comm_L (∪)).
Qed.

Lemma dict_of_empty l : RedisDatabase.dict_of l = ∅ ↔ l = [].
Proof.
  split; [|by intros ->]. intros Hd. destruct l as [|[k v] l]; [done|].
  assert (k ∈ dom (RedisDatabase.dict_of ((k, v) :: l))) as Hk
    by (rewrite dict_of_dom; set_solver).
  rewrite Hd, dom_empty_L in Hk. set_solver.
Qed.

Lemma dict_of_size_le l : (size (RedisDatabase.dict_of l) ≤ length l)%nat.
Proof.
  induction l as [|[k v] l IH] using rev_ind; [done|].
  rewrite dict_of_snoc, length_app. simpl.
  destruct (RedisDatabase.dict_of l !! k) eqn:Hk.
  - rewrite map_size_insert_Some by done. lia.
  - rewrite map_size_insert_None by done. lia.
Qed.

Lemma dict_of_size_NoDup l :
  size (RedisDatabase.dict_of l) = length l → NoDup l.*1.
Proof.
  induction l as [|[k v] l IH] using rev_ind; [constructor|].
  rewrite dict_of_snoc, length_app, fmap_app. simpl. intros Hsize.
  pose proof (dict_of_size_le l) as Hle.
  destruct (RedisDatabase.dict_of l !! k) eqn:Hk.
  - rewrite map_size_insert_Some in Hsize by done. lia.
  - rewrite map_size_insert_None in Hsize by done.
    apply NoDup_app. split; [apply IH; lia|]. split; [|apply NoDup_singleton].
    intros x Hx Hx'. apply list_elem_of_singleton in Hx' as ->.
    apply not_elem_of_dom in Hk. apply Hk. rewrite dict_of_dom. by apply elem_of_list_to_set.
Qed.

Lemma dict_of_NoDup_size l :
  NoDup l.*1 → size (RedisDatabase.dict_of l) = length l.
Proof.
  induction l as [|[k v] l IH] using rev_ind; [done|].
  rewrite dict_of_snoc, length_app, fmap_app. simpl. intros Hnd.
  apply NoDup_app in Hnd as (Hl & Hk & _).
  rewrite map_size_insert_None; [rewrite IH by done; lia|].
  apply not_elem_of_dom. rewrite dict_of_dom. intros Hin.
  apply elem_of_list_to_set in Hin. eapply Hk; [done|]. by apply list_elem_of_singleton.
Qed.

(** The last pair with a key is the one that stays. *)
Lemma dict_of_last l1 l2 (k : string) (v : V) :
  k ∉ l2.*1 → RedisDatabase.dict_of (l1 ++ (k, v) :: l2) !! k = Some v.
Proof.
  induction l2 as [|[k' v'] l2 IH] using rev_ind; intros Hk.
  - by rewrite dict_of_snoc, lookup_insert_eq.
  - rewrite fmap_app in Hk. simpl in Hk.
    apply not_elem_of_app in Hk as [Hk Hk'].
    rewrite app_comm_cons, (assoc_L (++)), dict_of_snoc.
    rewrite lookup_insert_ne; [by apply IH|].
    intros ->. apply Hk'. by apply list_elem_of_singleton.
Qed.

Lemma dict_of_NoDup_lookup l (k : string) (v : V) :
  NoDup l.*1 → (k, v) ∈ l → RedisDatabase.dict_of l !! k = Some v.
Proof.
  intros Hnd Hin. apply list_elem_of_split in Hin as (l1 & l2 & ->).
  apply dict_of_last.
  rewrite fmap_app in Hnd. simpl in Hnd.
  apply NoDup_app in Hnd as (_ & _ & Hnd). by apply NoDup_cons in Hnd as [? _].
Qed.

Lemma dict_of_lookup_elem_of l (k : string) (v : V) :
  RedisDatabase.dict_of l !! k = Some v → (k, v) ∈ l.
Proof.
  induction l as [|[k' v'] l IH] using rev_ind; [done|].
  rewrite dict_of_snoc. destruct (decide (k' = k)) as [->|Hne].
  - rewrite lookup_insert_eq. intros [= ->]. apply elem_of_app. right. by apply list_elem_of_singleton.
  - rewrite lookup_insert_ne by done. intros Hl. apply elem_of_app. left. auto.
Qed.

End DictFacts.

Lemma dict_of_fmap {V W} (f : V → W) (l : list (string * V)) :
  RedisDatabase.dict_of (map (λ p, (p.1, f p.2)) l) = f <$> RedisDatabase.dict_of l.
Proof.
  induction l as [|[k v] l IH] using rev_ind.
  - unfold RedisDatabase.dict_of. simpl. by rewrite fmap_empty.
  - rewrite map_app. simpl. rewrite !dict_of_snoc, IH. by rewrite fmap_insert.
Qed.

(* ===================================================================== *)
(** * commit and batch_commit *)
(* ===================================================================== *)

Lemma outside_cache_eq {B} (db db' : Database B) :
  outside_cache db' = outside_cache db →
  db_id db' = db_id db ∧ db_file_path db' = db_file_path db ∧
  best_cache_size db' = best_cache_size db ∧ code_hash_set db' = code_hash_set db ∧
  database db' = database db ∧ log db' = log db ∧
  files (env db') = files (env db) ∧ redis (env db') = redis (env db) ∧
  cwd (env db') = cwd (env db).
Proof. unfold outside_cache. intros [= ? ? ? ? ? ? ? ? ?]. done. Qed.

Lemma outside_cache_log_eq {B} (db db' : Database B) :
  outside_cache_log db' = outside_cache_log db →
  db_id db' = db_id db ∧ db_file_path db' = db_file_path db ∧
  best_cache_size db' = best_cache_size db ∧ code_hash_set db' = code_hash_set db ∧
  database db' = database db ∧
  files (env db') = files (env db) ∧ redis (env db') = redis (env db) ∧
  cwd (env db') = cwd (env db).
Proof. unfold outside_cache_log. intros [= ? ? ? ? ? ? ? ?]. done. Qed.

(** [update_best] puts the tuple; when the put raises, it logs the failure
    and raises [RuntimeError]. *)
Lemma update_best_eq `{Runtime} {B} (r : Result) (db : Database B) :
  update_best r db =
    if PriorityQueue.meets_tie (entry_of (time_at (clock_reads (env db))) r) (best_cache db)
    then (set_log (log db ++ [put_failed]) (after_put r db), Raise RuntimeError)
    else (after_put r db, Return ()).
Proof.
  unfold update_best, bind, time, best_cache_put, PriorityQueue.put, entry_of. simpl.
  by destruct (PriorityQueue.meets_tie _ _).
Qed.

Lemma update_best_outcome `{Runtime} {B} (r : Result) (db : Database B) :
  (update_best r db).2 = Return () ∨ (update_best r db).2 = Raise RuntimeError.
Proof. rewrite update_best_eq. destruct (PriorityQueue.meets_tie _ _); auto. Qed.

Lemma update_best_cache `{Runtime} {B} (r : Result) (db : Database B) :
  best_cache (update_best r db).1 =
    PriorityQueue.insert (entry_of (time_at (clock_reads (env db))) r) (best_cache db).
Proof. rewrite update_best_eq. by destruct (PriorityQueue.meets_tie _ _). Qed.

Lemma update_best_outside `{Runtime} {B} (r : Result) (db : Database B) :
  outside_cache_log (update_best r db).1 = outside_cache_log db.
Proof. rewrite update_best_eq. by destruct (PriorityQueue.meets_tie _ _). Qed.

(** The loop of [batch_commit] puts one tuple per [Result] of the batch, up
    to the one whose put raises, and touches nothing else but the log. *)
Lemma update_best_loop `{Runtime} {B} (pairs : list (string * pyobj)) (db : Database B) :
  ∃ db2 es o,
    for_each pairs
      (λ p, match isinstance_Result p.2 with
            | Some r => update_best r
            | None => ret ()
            end) db = (db2, o) ∧
    best_cache db2 ≡ₚ es ++ best_cache db ∧
    map PriorityQueue.entry_result es = results_put (omap isinstance_Result pairs.*2) db ∧
    Forall (λ e, PriorityQueue.entry_quality e = quality (PriorityQueue.entry_result e)) es ∧
    (StronglySorted PriorityQueue.entry_le (best_cache db) →
     StronglySorted PriorityQueue.entry_le (best_cache db2)) ∧
    outside_cache_log db2 = outside_cache_log db ∧
    ((o = Return () ∧ log db2 = log db ∧
      results_put (omap isinstance_Result pairs.*2) db = omap isinstance_Result pairs.*2) ∨
     (o = Raise RuntimeError ∧ log db2 = log db ++ [put_failed])).
Proof.
  revert db. induction pairs as [|[k v] pairs IH]; intros db.
  - exists db, [], (Return ()). simpl. repeat split; auto.
  - cbn [for_each]. unfold bind at 1. cbn [snd fmap list_fmap].
    destruct (isinstance_Result v) as [r|] eqn:Hv.
    + change (omap isinstance_Result (v :: pairs.*2))
        with (from_option (λ y, y :: omap isinstance_Result pairs.*2)
                (omap isinstance_Result pairs.*2) (isinstance_Result v)).
      rewrite Hv. cbn [from_option results_put].
      rewrite update_best_eq.
      destruct (PriorityQueue.meets_tie _ _).
      * eexists _, [entry_of (time_at (clock_reads (env db))) r], _.
        split; [reflexivity|]. simpl. repeat split.
        -- apply insert_perm.
        -- by constructor.
        -- intros Hs. by apply insert_sorted.
        -- by right.
      * destruct (IH (after_put r db))
          as (db2 & es & o & Hrun & Hperm & Hres & Hq & Hsort & Hout & Ho).
        exists db2, (entry_of (time_at (clock_reads (env db))) r :: es), o.
        rewrite Hrun. split; [done|]. simpl in *. repeat split.
        -- rewrite Hperm, insert_perm. by rewrite Permutation_middle.
        -- by rewrite Hres.
        -- by constructor.
        -- intros Hs. by apply Hsort, insert_sorted.
        -- done.
        -- destruct Ho as [(-> & Hlog & Hall)|[-> Hlog]]; [left|right]; repeat split; try done.
           by rewrite Hall.
    + change (omap isinstance_Result (v :: pairs.*2))
        with (from_option (λ y, y :: omap isinstance_Result pairs.*2)
                (omap isinstance_Result pairs.*2) (isinstance_Result v)).
      rewrite Hv. cbn [from_option]. unfold ret at 1.
      destruct (IH db) as (db2 & es & o & Hrun & Hperm & Hres & Hq & Hsort & Hout & Ho).
      exists db2, es, o. by rewrite Hrun.
Qed.

Lemma redis_batch_commit_impl_eq `{Runtime} (pairs : list (string * pyobj))
    (db : Database RedisDatabase.client) :
  RedisDatabase.batch_commit_impl pairs db =
    match pairs with
    | [] => (db, Raise DataError)
    | _ =>
        (set_env (RedisDatabase.merged (db_id db)
                    (pickle_dumps <$> RedisDatabase.dict_of pairs) (env db)) db,
         Return (Z.of_nat (size (RedisDatabase.dict_of pairs))))
    end.
Proof.
  unfold RedisDatabase.batch_commit_impl, RedisDatabase.hmset.
  rewrite dict_of_fmap, map_size_fmap.
  destruct (decide (pickle_dumps <$> RedisDatabase.dict_of pairs = ∅)) as [He|Hne].
  - apply fmap_empty_inv, dict_of_empty in He. by subst.
  - destruct pairs; [|done]. exfalso. apply Hne. apply fmap_empty.
Qed.

Lemma redis_cache_frame `{Runtime} : cache_frame RedisDatabase.client.
Proof.
  split; intros; [split; reflexivity|].
  change (batch_commit_impl pairs db) with (RedisDatabase.batch_commit_impl pairs db).
  rewrite redis_batch_commit_impl_eq. by destruct pairs.
Qed.

Lemma pickle_cache_frame : cache_frame PickleDatabase.handle.
Proof. split; intros; split; reflexivity. Qed.

Lemma failing_cache_frame : @cache_frame unit failing_backend.
Proof. split; intros; split; reflexivity. Qed.

(** C7: when [commit_impl] reports a failure, [commit] logs an error and
    raises [RuntimeError] with the best cache as it was.  When it reports
    success, the best cache has gained the tuple of [result] exactly when
    [result] is an instance of [Result], and [commit] returns, unless the
    put of the tuple raised: then [commit] logs that and raises
    [RuntimeError], with the tuple in the cache.  An exception of
    [commit_impl] goes through. *)
Theorem commit_fatal_or_cached `{Runtime} {B} `{Backend B}
    (key : string) (result : pyobj) (db : Database B) :
  cache_frame B →
  match commit_impl key result db with
  | (db1, Return false) =>
      ∃ db2, commit key result db = (db2, Raise RuntimeError) ∧
             best_cache db2 = best_cache db ∧
             log db2 = log db1 ++ [mkLog ERROR "Failed to commit results to the database" []]
  | (db1, Return true) =>
      ∃ db2 o,
        commit key result db = (db2, o) ∧
        match isinstance_Result result with
        | Some r =>
            let e := entry_of (time_at (clock_reads (env db1))) r in
            best_cache db2 = PriorityQueue.insert e (best_cache db) ∧
            e ∈ best_cache db2 ∧
            length (best_cache db2) = S (length (best_cache db)) ∧
            if PriorityQueue.meets_tie e (best_cache db)
            then o = Raise RuntimeError ∧ log db2 = log db1 ++ [put_failed]
            else o = Return () ∧ log db2 = log db1
        | None => o = Return () ∧ best_cache db2 = best_cache db
        end
  | (db1, Raise e) => commit key result db = (db1, Raise e)
  end.
Proof.
  intros [Hframe _]. specialize (Hframe key result db) as [Hcache _].
  unfold commit, bind.
  destruct (commit_impl key result db) as [db1 [[|]|e]]; simpl in *.
  - destruct (isinstance_Result result) as [r|].
    + rewrite update_best_eq, Hcache.
      destruct (PriorityQueue.meets_tie _ _); eexists _, _; (split; [reflexivity|]);
        simpl; rewrite Hcache;
        (split; [done|]); (split; [apply insert_elem_of; by left|]);
        (split; [apply insert_length|done]).
    + by exists db1, (Return ()).
  - eexists. split; [reflexivity|]. by simpl.
  - done.
Qed.

(** The failure branch at the variant whose writes fail; the success branch
    at a [RedisDatabase]; and a second result of the same quality, committed
    within the same reading of a coarse clock. *)
Lemma commit_fatal_or_cached_witness :
  let r := result_of HLSResult_cls "pt" 3 true None in
  let r' := result_of HLSResult_cls "pt2" 3 true None in
  let db := @Database__init__ test_runtime unit "proj" 1 (Some "/work/result.db") () empty_world in
  let rdb := @RedisDatabase.__init__ test_runtime "proj" 1 (Some "/work/result.db") empty_world in
  let cdb := (@commit coarse_runtime _ (@RedisDatabase.backend coarse_runtime) "k" (PyResult r)
                (@RedisDatabase.__init__ coarse_runtime "proj" 1 (Some "/work/result.db")
                   empty_world)).1 in
  (∃ db2, @commit test_runtime unit failing_backend "k" (PyResult r) db = (db2, Raise RuntimeError) ∧
          best_cache db2 = best_cache db ∧
          log db2 = log db ++ [mkLog ERROR "Failed to commit results to the database" []]) ∧
  (∃ db2 o, @commit test_runtime _ (@RedisDatabase.backend test_runtime) "k" (PyResult r) rdb
              = (db2, o) ∧
            best_cache db2 = [entry_of 1 r] ∧
            entry_of 1 r ∈ best_cache db2 ∧
            length (best_cache db2) = 1%nat ∧
            o = Return () ∧ log db2 = []) ∧
  (∃ db2 o, @commit coarse_runtime _ (@RedisDatabase.backend coarse_runtime) "k2" (PyResult r') cdb
              = (db2, o) ∧
            best_cache db2 = [entry_of 0 r; entry_of 0 r'] ∧
            entry_of 0 r' ∈ best_cache db2 ∧
            length (best_cache db2) = 2%nat ∧
            o = Raise RuntimeError ∧ log db2 = [put_failed]).
Proof.
  intros r r' db rdb cdb. split; [|split].
  - exact (@commit_fatal_or_cached test_runtime unit failing_backend "k" (PyResult r) db
             failing_cache_frame).
  - exact (@commit_fatal_or_cached test_runtime _ (@RedisDatabase.backend test_runtime) "k"
             (PyResult r) rdb (@redis_cache_frame test_runtime)).
  - exact (@commit_fatal_or_cached coarse_runtime _ (@RedisDatabase.backend coarse_runtime) "k2"
             (PyResult r') cdb (@redis_cache_frame coarse_runtime)).
Defined.

(** What [batch_commit] does is decided by the count that
    [batch_commit_impl] reports. *)
Lemma batch_commit_by_count `{Runtime} {B} `{Backend B}
    (pairs : list (string * pyobj)) (db : Database B) :
  cache_frame B →
  match batch_commit_impl pairs db with
  | (db1, Return n) =>
      if n =? Z.of_nat (length pairs) then
        ∃ db2 es o,
          batch_commit pairs db = (db2, o) ∧
          best_cache db2 ≡ₚ es ++ best_cache db ∧
          map PriorityQueue.entry_result es
            = results_put (omap isinstance_Result pairs.*2) db1 ∧
          outside_cache_log db2 = outside_cache_log db1 ∧
          ((o = Return () ∧ log db2 = log db1 ∧
            map PriorityQueue.entry_result es = omap isinstance_Result pairs.*2) ∨
           (o = Raise RuntimeError ∧ log db2 = log db1 ++ [put_failed]))
      else
        ∃ db2,
          batch_commit pairs db = (db2, Raise RuntimeError) ∧
          best_cache db2 = best_cache db ∧
          log db2 = log db1 ++ [mkLog ERROR "Failed to commit results to the database" []]
  | (db1, Raise e) => batch_commit pairs db = (db1, Raise e)
  end.
Proof.
  intros [_ Hframe]. specialize (Hframe pairs db) as [Hcache _].
  unfold batch_commit, bind.
  destruct (batch_commit_impl pairs db) as [db1 [n|e]]; simpl in *; [|done].
  destruct (n =? Z.of_nat (length pairs)); simpl.
  - destruct (update_best_loop pairs db1)
      as (db2 & es & o & Hrun & Hperm & Hres & _ & _ & Hout & Ho).
    exists db2, es, o. rewrite Hrun, Hperm, Hcache. repeat split; try done.
    destruct Ho as [(-> & Hlog & Hall)|[-> Hlog]]; [left|right]; repeat split; try done.
    by rewrite Hres.
  - eexists. split; [reflexivity|]. by simpl.
Qed.

(** A [RedisDatabase] reports the number of distinct keys of the batch: a
    batch in which a key comes twice is written and then refused, and one
    that holds no pair is refused by the client. *)
Lemma redis_batch_commit_NoDup `{Runtime} (pairs : list (string * pyobj))
    (db : Database RedisDatabase.client) :
  (batch_commit pairs db).2 = Return () → NoDup pairs.*1 ∧ pairs ≠ [].
Proof.
  pose proof (batch_commit_by_count pairs db redis_cache_frame) as Hcount.
  change (batch_commit_impl pairs db)
    with (RedisDatabase.batch_commit_impl pairs db) in Hcount.
  rewrite redis_batch_commit_impl_eq in Hcount.
  destruct pairs as [|p pairs]; [by intros; rewrite Hcount in *|].
  lazy beta iota in Hcount.
  destruct (Z.of_nat (size (RedisDatabase.dict_of (p :: pairs))) =? Z.of_nat (length (p :: pairs)))
    eqn:Hn.
  - apply Z.eqb_eq in Hn. apply Nat2Z.inj in Hn. intros _. split; [|done].
    by apply dict_of_size_NoDup.
  - destruct Hcount as (db2 & -> & _). done.
Qed.

(** C5, amended: on a count of [batch_commit_impl] other than the number
    of pairs, [batch_commit] logs an error and raises [RuntimeError] with
    the best cache as it was; on that number it puts the [Result] objects
    of the batch in the best cache and returns, unless a put raised, which
    makes it raise [RuntimeError]; an exception of [batch_commit_impl] goes
    through.  A batch that a [RedisDatabase] has committed had pairwise
    distinct keys: every one of its pairs is stored, and their number was
    reported.  A [PickleDatabase] reports the number of pairs of every
    batch and stores, for each key, its last pair, which is every pair when
    the keys are pairwise distinct. *)
Theorem batch_commit_exact_or_fatal `{Runtime} :
  (∀ B (backend : Backend B) (pairs : list (string * pyobj)) (db : Database B),
     cache_frame B →
     match batch_commit_impl pairs db with
     | (db1, Return n) =>
         if n =? Z.of_nat (length pairs) then
           ∃ db2 es o,
             batch_commit pairs db = (db2, o) ∧
             (o = Return () ∨ o = Raise RuntimeError) ∧
             best_cache db2 ≡ₚ es ++ best_cache db ∧
             (o = Return () →
              map PriorityQueue.entry_result es = omap isinstance_Result pairs.*2)
         else
           ∃ db2,
             batch_commit pairs db = (db2, Raise RuntimeError) ∧
             best_cache db2 = best_cache db
     | (db1, Raise e) => batch_commit pairs db = (db1, Raise e)
     end) ∧
  (∀ (pairs : list (string * pyobj)) (db db2 : Database RedisDatabase.client),
     batch_commit pairs db = (db2, Return ()) →
     (RedisDatabase.batch_commit_impl pairs db).2 = Return (Z.of_nat (length pairs)) ∧
     NoDup pairs.*1 ∧
     ∀ k v, (k, v) ∈ pairs →
            RedisDatabase.hget (env db2) (db_id db2) k = Some (pickle_dumps v)) ∧
  (∀ (pairs : list (string * pyobj)) (db : Database PickleDatabase.handle),
     ∃ db2 o,
       batch_commit pairs db = (db2, o) ∧
       (o = Return () ∨ o = Raise RuntimeError) ∧
       (PickleDatabase.batch_commit_impl pairs db).2 = Return (Z.of_nat (length pairs)) ∧
       (∀ k v, last_for k pairs = Some v → database db2 !! k = Some v) ∧
       (NoDup pairs.*1 → ∀ k v, (k, v) ∈ pairs → database db2 !! k = Some v)).
Proof.
  split; [|split].
  - intros B backend pairs db Hframe.
    pose proof (batch_commit_by_count pairs db Hframe) as Hcount.
    destruct (batch_commit_impl pairs db) as [db1 [n|e]]; [|done].
    destruct (n =? Z.of_nat (length pairs)).
    + destruct Hcount as (db2 & es & o & ? & ? & ? & _ & Ho). exists db2, es, o.
      repeat split; try done.
      * destruct Ho as [(-> & _)|(-> & _)]; auto.
      * intros ->. by destruct Ho as [(_ & _ & ?)|(? & _)].
    + destruct Hcount as (db2 & ? & ? & _). by exists db2.
  - intros pairs db db2 Hrun.
    destruct (redis_batch_commit_NoDup pairs db) as [Hnd Hne]; [by rewrite Hrun|].
    pose proof (batch_commit_by_count pairs db redis_cache_frame) as Hcount.
    change (batch_commit_impl pairs db)
      with (RedisDatabase.batch_commit_impl pairs db) in Hcount.
    rewrite redis_batch_commit_impl_eq in *.
    destruct pairs as [|p pairs]; [done|]. lazy beta iota in Hcount. cbn [snd].
    rewrite (dict_of_NoDup_size _ Hnd) in *. rewrite Z.eqb_refl in Hcount.
    destruct Hcount as (db2' & es & o & Hrun' & _ & _ & Hout & _).
    rewrite Hrun in Hrun'. injection Hrun' as <- <-.
    split; [done|]. split; [done|].
    intros k v Hin. unfold RedisDatabase.hget, RedisDatabase.hash_of.
    apply outside_cache_log_eq in Hout as (-> & _ & _ & _ & _ & _ & -> & _).
    simpl. rewrite lookup_insert_eq. simpl.
    apply lookup_union_Some_l. rewrite lookup_fmap.
    by rewrite (dict_of_NoDup_lookup _ k v Hnd Hin).
  - intros pairs db.
    pose proof (batch_commit_by_count pairs db pickle_cache_frame) as Hcount.
    change (batch_commit_impl pairs db)
      with (PickleDatabase.batch_commit_impl pairs db) in Hcount.
    unfold PickleDatabase.batch_commit_impl in Hcount. lazy beta iota in Hcount.
    rewrite Z.eqb_refl in Hcount.
    destruct Hcount as (db2 & es & o & Hrun & _ & _ & Hout & Ho).
    exists db2, o. split; [done|].
    split; [destruct Ho as [(-> & _)|(-> & _)]; auto|]. split; [done|].
    apply outside_cache_log_eq in Hout as (_ & _ & _ & _ & -> & _).
    unfold set_database. cbn [database]. unfold PickleDatabase.set. rewrite foldl_insert_union.
    split.
    + intros k v Hlast. by apply lookup_union_Some_l.
    + intros Hnd k v Hin. apply lookup_union_Some_l. by apply dict_of_NoDup_lookup.
Qed.

(** The three parts at a batch of two: the variant whose writes fail reports
    one pair, and the batch is fatal; the two variants of the code store
    both pairs. *)
Lemma batch_commit_exact_or_fatal_witness :
  let pairs := [("a", PyResult (result_of HLSResult_cls "ptA" 10 true None));
                ("b", PyBool true)] in
  let db := @Database__init__ test_runtime unit "proj" 1 (Some "/work/result.db") () empty_world in
  let rdb := @RedisDatabase.__init__ test_runtime "proj" 1 (Some "/work/result.db") empty_world in
  let pdb := (@PickleDatabase.__init__ test_runtime "proj" 1 (Some "/work/result.db") empty_world).1 in
  let rdb2 := (@batch_commit test_runtime _ (@RedisDatabase.backend test_runtime) pairs rdb).1 in
  (∃ db2, @batch_commit test_runtime unit failing_backend pairs db = (db2, Raise RuntimeError) ∧
          best_cache db2 = best_cache db) ∧
  ((@RedisDatabase.batch_commit_impl test_runtime pairs rdb).2 = Return 2 ∧
   NoDup pairs.*1 ∧
   ∀ k v, (k, v) ∈ pairs →
          RedisDatabase.hget (env rdb2) (db_id rdb2) k = Some (@pickle_dumps test_runtime v)) ∧
  (∃ db2 o, @batch_commit test_runtime _ PickleDatabase.backend pairs pdb = (db2, o) ∧
            (o = Return () ∨ o = Raise RuntimeError) ∧
            (PickleDatabase.batch_commit_impl pairs pdb).2 = Return 2 ∧
            (∀ k v, last_for k pairs = Some v → database db2 !! k = Some v) ∧
            (NoDup pairs.*1 → ∀ k v, (k, v) ∈ pairs → database db2 !! k = Some v)).
Proof.
  intros pairs db rdb pdb rdb2.
  destruct (@batch_commit_exact_or_fatal test_runtime) as (Hgen & Hredis & Hpickle).
  split; [|split].
  - exact (Hgen unit failing_backend pairs db failing_cache_frame).
  - apply (Hredis pairs rdb rdb2). vm_compute. reflexivity.
  - exact (Hpickle pairs pdb).
Defined.

(** C5, as stated, fails in a [PickleDatabase]: it commits a batch of two
    pairs with one key, reports two pairs and holds one; the first pair is
    not stored. *)
Lemma pickle_batch_commit_keeps_last_of_key :
  let rA := result_of HLSResult_cls "ptA" 10 true None in
  let rB := result_of HLSResult_cls "ptB" 20 true None in
  let pairs := [("a", PyResult rA); ("a", PyResult rB)] in
  let pdb := (@PickleDatabase.__init__ test_runtime "proj" 1 (Some "/work/result.db") empty_world).1 in
  let db2 := (@batch_commit test_runtime _ PickleDatabase.backend pairs pdb).1 in
  (@batch_commit test_runtime _ PickleDatabase.backend pairs pdb).2 = Return () ∧
  (PickleDatabase.batch_commit_impl pairs pdb).2 = Return (Z.of_nat (length pairs)) ∧
  ("a", PyResult rA) ∈ pairs ∧
  database db2 !! "a" ≠ Some (PyResult rA) ∧
  size (database db2) = 1%nat.
Proof.
  intros rA rB pairs pdb db2. split_and!.
  - by vm_compute.
  - by vm_compute.
  - by left.
  - by vm_compute.
  - by vm_compute.
Qed.

(* ===================================================================== *)
(** * Trimming the best cache *)
(* ===================================================================== *)

Section TrimFacts.
Import PriorityQueue.










End TrimFacts.

(* ===================================================================== *)
(** * The best cache while the exploration runs *)
(* ===================================================================== *)

Section LaunchFacts.
Context `{Runtime} {B : Type} `{Backend B}.
Import PriorityQueue.

(** A call of an explorer thread puts the tuples of the results that it
    hands to the best cache, and it keeps the bound. *)
Lemma run_worker_call_cache (c : Main.worker_call) (db : Database B) :
  cache_frame B →
  ∃ es,
    best_cache (Main.run_worker_call c db).1 ≡ₚ es ++ best_cache db ∧
    (StronglySorted entry_le (best_cache db) →
     StronglySorted entry_le (best_cache (Main.run_worker_call c db).1)) ∧
    best_cache_size (Main.run_worker_call c db).1 = best_cache_size db ∧
    map entry_result es = results_cached c db ∧
    Forall (λ e, entry_quality e = quality (entry_result e)) es.
Proof.
  intros [Hc Hb]. destruct c as [key result|pairs|h]; cbn [Main.run_worker_call results_cached].
  - specialize (Hc key result db) as [Hcache Hsize].
    unfold commit, bind.
    destruct (commit_impl key result db) as [db1 [[|]|e]]; simpl in *.
    + destruct (isinstance_Result result) as [r|].
      * rewrite update_best_cache, Hcache.
        pose proof (update_best_outside r db1) as (_ & _ & -> & _)%outside_cache_log_eq.
        exists [entry_of (time_at (clock_reads (env db1))) r]. split_and!.
        -- apply insert_perm.
        -- apply insert_sorted.
        -- done.
        -- done.
        -- by repeat constructor.
      * exists []. simpl. rewrite Hcache. split_and!; auto.
    + exists []. simpl. rewrite Hcache. split_and!; auto.
    + exists []. simpl. rewrite Hcache. split_and!; auto.
  - specialize (Hb pairs db) as [Hcache Hsize].
    unfold batch_commit, bind.
    destruct (batch_commit_impl pairs db) as [db1 [n|e]]; simpl in *.
    + destruct (n =? Z.of_nat (length pairs)); simpl.
      * destruct (update_best_loop pairs db1)
          as (db2 & es & o & Hrun & Hperm & Hres & Hq & Hsort & Hout & _).
        rewrite Hrun. simpl. exists es.
        apply outside_cache_log_eq in Hout as (_ & _ & Hsz & _).
        rewrite Hsz. rewrite Hcache in Hperm, Hsort. split_and!; auto.
      * exists []. simpl. rewrite Hcache. repeat split; auto.
    + exists []. simpl. rewrite Hcache. repeat split; auto.
  - exists []. unfold add_code_hash, bind.
    destruct (decide (h ∈ code_hash_set db)); simpl; repeat split; auto.
Qed.



End LaunchFacts.

Section InvalidResultKept.
#[local] Existing Instance test_runtime.


(** Among tuples of the same quality the queue is ordered by timestamp, so
    that trimming evicts the earliest first: with a bound of two and three
    results of quality 30, the one committed first is the one that goes. *)
Lemma trim_evicts_earliest_of_equal_qualities :
  let r1 := result_of HLSResult_cls "pt1" 30 true None in
  let r2 := result_of HLSResult_cls "pt2" 30 true None in
  let r3 := result_of HLSResult_cls "pt3" 30 true None in
  let db0 := RedisDatabase.__init__ "proj" 2 (Some "/work/result.db") empty_world in
  let schedule := [Main.Worker (Main.Commit "a" (PyResult r1));
                   Main.Worker (Main.Commit "b" (PyResult r2));
                   Main.Worker (Main.Commit "c" (PyResult r3));
                   Main.TrimTest; Main.TrimTest] in
  map PriorityQueue.entry_result (best_cache (Main.launch_exploration schedule db0).1)
    = [r2; r3] ∧
  spec_best_cache 2 (committed_results schedule db0) = [r1; r2].
Proof. vm_compute. split; reflexivity. Qed.

End InvalidResultKept.



(* ===================================================================== *)
(** * Creating the outputs *)
(* ===================================================================== *)

Section OutputFacts.
Import PriorityQueue.





End OutputFacts.




(* ===================================================================== *)
(** * The backup of the database at the end of main *)
(* ===================================================================== *)

Section MainFacts.
Context `{Runtime}.

Lemma hasattr_commit_best : Main.hasattr "commit_best" = false.
Proof. vm_compute. reflexivity. Qed.

Lemma hasattr_persist : Main.hasattr "persist" = true.
Proof. vm_compute. reflexivity. Qed.

(** No call of an explorer thread writes a file. *)
Lemma redis_worker_call_files (c : Main.worker_call) (db : Database RedisDatabase.client) :
  files (env (Main.run_worker_call c db).1) = files (env db).
Proof.
  destruct c as [key result|pairs|h]; simpl.
  - unfold commit, bind. simpl. destruct (isinstance_Result result) as [r|]; [|reflexivity].
    by pose proof (update_best_outside r
         (set_env (RedisDatabase.hset (db_id db) key (pickle_dumps result) (env db)) db))
      as (_ & _ & _ & _ & _ & -> & _)%outside_cache_log_eq.
  - unfold batch_commit, bind.
    change (batch_commit_impl pairs db) with (RedisDatabase.batch_commit_impl pairs db).
    rewrite redis_batch_commit_impl_eq.
    destruct pairs as [|p pairs]; [reflexivity|].
    destruct (negb _); [reflexivity|].
    match goal with |- context [for_each ?ps ?f ?d] =>
      destruct (update_best_loop ps d) as (db2 & es & o & Hrun & _ & _ & _ & _ & Hout & _)
    end.
    rewrite Hrun. simpl.
    by apply outside_cache_log_eq in Hout as (_ & _ & _ & _ & _ & -> & _).
  - unfold add_code_hash, bind. by destruct (decide (h ∈ code_hash_set db)).
Qed.

Lemma redis_run_workers_files (schedule : list Main.event)
    (db : Database RedisDatabase.client) :
  files (env (Main.run_workers schedule db).1) = files (env db) ∧
  (Main.run_workers schedule db).2 = Return ().
Proof.
  revert db. induction schedule as [|[c| |] rest IH]; intros db; simpl; auto.
  unfold bind, Main.worker_step. simpl.
  destruct (IH (Main.run_worker_call c db).1) as [Hfiles Hout].
  by rewrite Hfiles, redis_worker_call_files.
Qed.

(** The exploration writes no file, and it ends by returning, by a
    [KeyboardInterrupt], or never (a [get()] on an empty queue, which takes a
    negative bound). *)
Lemma redis_launch_exploration_files (schedule : list Main.event)
    (db : Database RedisDatabase.client) :
  files (env (Main.launch_exploration schedule db).1) = files (env db) ∧
  ((Main.launch_exploration schedule db).2 = Return () ∨
   (Main.launch_exploration schedule db).2 = Raise KeyboardInterrupt ∨
   (Main.launch_exploration schedule db).2 = Raise Blocks).
Proof.
  revert db. induction schedule as [|[c| |] rest IH]; intros db; simpl.
  - auto.
  - unfold bind, Main.worker_step. simpl.
    destruct (IH (Main.run_worker_call c db).1) as [Hfiles Hout].
    by rewrite Hfiles, redis_worker_call_files.
  - unfold bind, Main.trim_test.
    destruct (best_cache_size db <? PriorityQueue.qsize (best_cache db)).
    + destruct (best_cache db) as [|m q]; simpl; [auto|].
      destruct (IH (set_best_cache q db)) as [Hfiles Hout]. by rewrite Hfiles.
    + apply IH.
  - unfold bind. destruct (redis_run_workers_files rest db) as [Hfiles Hout].
    destruct (Main.run_workers rest db) as [db1 r]. simpl in *. subst r. auto.
Qed.

End MainFacts.

(** C3: the code does not get to [persist].  After the exploration has
    returned or has been interrupted, [main] calls [db.commit_best()]; no
    class of the object defines [commit_best], so the call raises
    [AttributeError] and [db.persist()] is not run: no file is written.
    (With a negative bound the main thread does not leave the trimming loop
    at all.) *)
Theorem main_backup_raises_before_persist `{Runtime} (schedule : list Main.event)
    (db : Database RedisDatabase.client) :
  files (env (Main.main_explore_and_backup schedule db).1) = files (env db) ∧
  ((Main.main_explore_and_backup schedule db).2 = Raise (AttributeError "commit_best") ∨
   (Main.main_explore_and_backup schedule db).2 = Raise Blocks).
Proof.
  destruct (redis_launch_exploration_files schedule db) as [Hfiles Hout].
  unfold Main.main_explore_and_backup, bind, Main.try_launch_exploration.
  destruct (Main.launch_exploration schedule db) as [db1 r].
  cbn [fst snd] in Hfiles, Hout.
  unfold Main.call0 at 1. rewrite hasattr_commit_best.
  destruct Hout as [->|[->| ->]]; cbn [is_KeyboardInterrupt raise fst snd]; auto.
Qed.

Section BackupExample.
#[local] Existing Instance test_runtime.

(** The run in which one explorer commits one result and ends, and the run
    that is interrupted after that commit: the backup raises and leaves no
    file, where [persist] alone would have dumped the database. *)
Lemma main_backup_leaves_no_dump :
  let db := RedisDatabase.__init__ "proj" 1 (Some "/work/result.db") empty_world in
  let r := result_of HLSResult_cls "ptA" 10 true None in
  let finished := [Main.Worker (Main.Commit "a" (PyResult r)); Main.TrimTest] in
  let interrupted := [Main.Worker (Main.Commit "a" (PyResult r)); Main.Interrupt] in
  let explored := (Main.launch_exploration finished db).1 in
  (Main.main_explore_and_backup finished db).2 = Raise (AttributeError "commit_best") ∧
  files (env (Main.main_explore_and_backup finished db).1) !! "/work/result.db" = None ∧
  (Main.launch_exploration interrupted db).2 = Raise KeyboardInterrupt ∧
  (Main.main_explore_and_backup interrupted db).2 = Raise (AttributeError "commit_best") ∧
  files (env (Main.main_explore_and_backup interrupted db).1) !! "/work/result.db" = None ∧
  files (env (RedisDatabase.persist explored).1) !! "/work/result.db" =
    Some (PickleFile {[ "a" := pickle_dumps (PyResult r) ]}).
Proof. vm_compute. repeat split; reflexivity. Qed.

End BackupExample.

(* ===================================================================== *)
(** * What a sequence of commits leaves in the store *)
(* ===================================================================== *)

Lemma foldl_insert_fmap_union {V W} (f : V → W) (l : list (string * V))
    (d : gmap string W) :
  foldl (λ d p, <[p.1 := f p.2]> d) d l = (f <$> RedisDatabase.dict_of l) ∪ d.
Proof.
  rewrite <-dict_of_fmap, <-foldl_insert_union.
  revert d. induction l as [|[k v] l IH]; intros d; simpl; [done|]. apply IH.
Qed.

Lemma commit_end_cases `{Runtime} {B} (v : pyobj) (db : Database B) :
  commit_end v db = Return () ∨ commit_end v db = Raise RuntimeError.
Proof.
  unfold commit_end. destruct (isinstance_Result v); [|by left].
  destruct (PriorityQueue.meets_tie _ _); auto.
Qed.

(** When no two readings of the clock agree and the tuples in the queue
    were stamped before, no put meets a tie: a sequence of commits whose
    writes succeed returns. *)
Lemma commit_all_returns `{Runtime} {B} `{Backend B} (pairs : list (string * pyobj))
    (db : Database B) :
  (∀ key result d,
     (commit_impl key result d).2 = Return true ∧
     best_cache (commit_impl key result d).1 = best_cache d ∧
     clock_reads (env (commit_impl key result d).1) = clock_reads (env d)) →
  Inj (=) (=) time_at →
  stamped_before (clock_reads (env db)) (best_cache db) →
  (commit_all pairs db).2 = Return ().
Proof.
  intros Himpl Hinj. revert db. induction pairs as [|[k v] pairs IH]; intros db Hst; [done|].
  unfold commit_all in *. cbn [for_each fst snd]. unfold bind at 1. unfold commit, bind at 1.
  destruct (Himpl k v db) as (Hret & Hcache & Hclock).
  destruct (commit_impl k v db) as [db1 o]. cbn [fst snd] in *. subst o. cbn [negb].
  rewrite <-Hcache, <-Hclock in Hst.
  destruct (isinstance_Result v) as [r|].
  - rewrite update_best_eq, stamped_before_no_tie by done.
    apply IH. by apply stamped_before_insert.
  - by apply IH.
Qed.

Lemma redis_commit_all_returns `{Runtime} (pairs : list (string * pyobj))
    (db : Database RedisDatabase.client) :
  Inj (=) (=) time_at →
  stamped_before (clock_reads (env db)) (best_cache db) →
  (commit_all pairs db).2 = Return ().
Proof. by apply commit_all_returns. Qed.

Lemma pickle_commit_all_returns `{Runtime} (pairs : list (string * pyobj))
    (db : Database PickleDatabase.handle) :
  Inj (=) (=) time_at →
  stamped_before (clock_reads (env db)) (best_cache db) →
  (commit_all pairs db).2 = Return ().
Proof. by apply commit_all_returns. Qed.

Section RedisCommitAll.
Context `{Runtime}.

Lemma redis_hash_of_hset (w : World) (name key : string) (v : bytes) (name' : string) :
  RedisDatabase.hash_of (RedisDatabase.hset name key v w) name' =
    if decide (name' = name) then <[key := v]> (RedisDatabase.hash_of w name)
    else RedisDatabase.hash_of w name'.
Proof.
  unfold RedisDatabase.hash_of, RedisDatabase.hset. simpl.
  destruct (decide (name' = name)) as [->|Hne].
  - by rewrite lookup_insert_eq.
  - by rewrite lookup_insert_ne.
Qed.

(** One [commit] on a [RedisDatabase]: it stores the pickle of the value
    under the key, and returns unless the put of the tuple raised. *)
Lemma redis_commit_run (key : string) (result : pyobj) (db : Database RedisDatabase.client) :
  ∃ db1,
    commit key result db = (db1, commit_end result db) ∧
    db_id db1 = db_id db ∧ db_file_path db1 = db_file_path db ∧
    files (env db1) = files (env db) ∧
    ∀ name, RedisDatabase.hash_of (env db1) name =
              if decide (name = db_id db)
              then <[key := pickle_dumps result]> (RedisDatabase.hash_of (env db) (db_id db))
              else RedisDatabase.hash_of (env db) name.
Proof.
  unfold commit, commit_end, bind. simpl.
  destruct (isinstance_Result result) as [r|].
  - rewrite update_best_eq. simpl.
    destruct (PriorityQueue.meets_tie _ _); eexists; (split; [reflexivity|]); simpl;
      (split_and!; try done); intros name;
      rewrite <-(redis_hash_of_hset (env db) (db_id db) key (pickle_dumps result) name);
      reflexivity.
  - eexists. split; [reflexivity|]. simpl.
    split_and!; try done. intros name. apply redis_hash_of_hset.
Qed.

(** A sequence of commits stores its pairs up to the one at which a commit
    raised, that one included, and all of them when it returns. *)
Lemma redis_commit_all_run (pairs : list (string * pyobj)) (db : Database RedisDatabase.client) :
  ∃ db' o stored,
    commit_all pairs db = (db', o) ∧
    (o = Return () ∨ o = Raise RuntimeError) ∧
    stored `prefix_of` pairs ∧
    (o = Return () → stored = pairs) ∧
    db_id db' = db_id db ∧ db_file_path db' = db_file_path db ∧
    files (env db') = files (env db) ∧
    ∀ name, RedisDatabase.hash_of (env db') name =
              if decide (name = db_id db)
              then (pickle_dumps <$> RedisDatabase.dict_of stored)
                     ∪ RedisDatabase.hash_of (env db) (db_id db)
              else RedisDatabase.hash_of (env db) name.
Proof.
  assert (∃ db' o stored,
    commit_all pairs db = (db', o) ∧
    (o = Return () ∨ o = Raise RuntimeError) ∧
    stored `prefix_of` pairs ∧
    (o = Return () → stored = pairs) ∧
    db_id db' = db_id db ∧ db_file_path db' = db_file_path db ∧
    files (env db') = files (env db) ∧
    ∀ name, RedisDatabase.hash_of (env db') name =
              if decide (name = db_id db)
              then foldl (λ d p, <[p.1 := pickle_dumps p.2]> d)
                         (RedisDatabase.hash_of (env db) (db_id db)) stored
              else RedisDatabase.hash_of (env db) name) as Hfold.
  { revert db. induction pairs as [|[k v] pairs IH]; intros db.
    - exists db, (Return ()), []. split; [done|]. split_and!; try done; try (by auto).
      intros name. simpl. by destruct (decide (name = db_id db)) as [->|].
    - unfold commit_all. simpl. unfold bind at 1.
      destruct (redis_commit_run k v db) as (db1 & -> & Hid & Hpath & Hfiles & Hhash).
      destruct (commit_end_cases v db) as [-> | ->].
      + destruct (IH db1) as (db' & o & stored & Hrun & Ho & Hpre & Hall & Hid' & Hpath' & Hfiles'
                              & Hhash').
        exists db', o, ((k, v) :: stored). split; [exact Hrun|].
        rewrite Hid', Hpath', Hfiles'. split_and!; try done.
        * by apply prefix_cons.
        * intros Hret. by rewrite Hall.
        * intros name. rewrite Hhash', Hid. cbn [foldl fst snd].
          destruct (decide (name = db_id db)) as [->|Hne].
          -- by rewrite Hhash, decide_True.
          -- by rewrite Hhash, decide_False.
      + exists db1, (Raise RuntimeError), [(k, v)]. split; [done|].
        split_and!; try done; try (by auto); try (by apply prefix_cons, prefix_nil);
          try (intros name; by rewrite Hhash). }
  destruct Hfold as (db' & o & stored & Hrun & Ho & Hpre & Hall & Hid & Hpath & Hfiles & Hhash).
  exists db', o, stored. split_and!; try done.
  intros name. rewrite Hhash. by rewrite foldl_insert_fmap_union.
Qed.

End RedisCommitAll.

Section PickleCommitAll.
Context `{Runtime}.

Lemma pickle_commit_run (key : string) (result : pyobj) (db : Database PickleDatabase.handle) :
  ∃ db1,
    commit key result db = (db1, commit_end result db) ∧
    db_id db1 = db_id db ∧ db_file_path db1 = db_file_path db ∧
    files (env db1) = files (env db) ∧
    database db1 = <[key := result]> (database db).
Proof.
  unfold commit, commit_end, bind. simpl.
  destruct (isinstance_Result result) as [r|].
  - rewrite update_best_eq. simpl.
    destruct (PriorityQueue.meets_tie _ _); eexists; (split; [reflexivity|]); by simpl.
  - eexists. split; [reflexivity|]. by simpl.
Qed.

Lemma pickle_commit_all_run (pairs : list (string * pyobj)) (db : Database PickleDatabase.handle) :
  ∃ db' o stored,
    commit_all pairs db = (db', o) ∧
    (o = Return () ∨ o = Raise RuntimeError) ∧
    stored `prefix_of` pairs ∧
    (o = Return () → stored = pairs) ∧
    db_id db' = db_id db ∧ db_file_path db' = db_file_path db ∧
    files (env db') = files (env db) ∧
    database db' = RedisDatabase.dict_of stored ∪ database db.
Proof.
  revert db. induction pairs as [|[k v] pairs IH]; intros db.
  - exists db, (Return ()), []. split_and!; try done; try (by auto).
    unfold RedisDatabase.dict_of. simpl. by rewrite (left_id_L ∅ (∪)).
  - unfold commit_all. simpl. unfold bind at 1.
    destruct (pickle_commit_run k v db) as (db1 & -> & Hid & Hpath & Hfiles & Hdb).
    destruct (commit_end_cases v db) as [-> | ->].
    + destruct (IH db1) as (db' & o & stored & Hrun & Ho & Hpre & Hall & Hid' & Hpath' & Hfiles'
                            & Hdb').
      exists db', o, ((k, v) :: stored). split; [exact Hrun|].
      rewrite Hid', Hpath', Hfiles', Hdb', Hdb. split_and!; try done.
      * by apply prefix_cons.
      * intros Hret. by rewrite Hall.
      * rewrite <-!foldl_insert_union. done.
    + exists db1, (Raise RuntimeError), [(k, v)]. split; [done|].
      split_and!; try done; try (by auto); try (by apply prefix_cons, prefix_nil).
      rewrite Hdb. rewrite <-foldl_insert_union. done.
Qed.

End PickleCommitAll.

(** The clock of the examples goes on at every reading. *)
Lemma test_clock_inj : Inj (=) (=) (@time_at test_runtime).
Proof. intros m n Hmn. simpl in Hmn. lia. Qed.

(* ===================================================================== *)
(** * query and batch_query *)
(* ===================================================================== *)

Section PickleQueryFacts.

Lemma pickle_query_eq (key : string) (db : Database PickleDatabase.handle) :
  PickleDatabase.query key db = (db, Return (pickle_slot db key)).
Proof. reflexivity. Qed.

Lemma pickle_batch_query_fold (db : Database PickleDatabase.handle) (keys : list string)
    (values : list pyobj) :
  foldl (λ (values : list pyobj) key,
           let value := PickleDatabase.get (database db) key in
           values ++ [if isinstance_bool value then PyNone else value])
        values keys
  = values ++ map (pickle_slot db) keys.
Proof.
  revert values. induction keys as [|k keys IH]; intros values; simpl.
  - by rewrite app_nil_r.
  - rewrite IH. by rewrite <-(assoc_L (++)).
Qed.

Lemma pickle_batch_query_eq (keys : list string) (db : Database PickleDatabase.handle) :
  PickleDatabase.batch_query keys db = (db, Return (map (pickle_slot db) keys)).
Proof.
  destruct keys as [|k keys]; [reflexivity|].
  unfold PickleDatabase.batch_query. by rewrite pickle_batch_query_fold.
Qed.

Lemma pickle_slot_None (db : Database PickleDatabase.handle) (key : string) :
  pickle_slot db key = PyNone ↔
    database db !! key = None ∨
    (∃ b, database db !! key = Some (PyBool b)) ∨
    database db !! key = Some PyNone.
Proof.
  unfold pickle_slot, PickleDatabase.get.
  destruct (database db !! key) as [[|b|s|r]|]; simpl; split; intros Hs;
    try discriminate; eauto;
    destruct Hs as [?|[[? ?]|?]]; congruence.
Qed.

End PickleQueryFacts.

(** C10, as stated, fails: [None] is returned for more than the stored
    booleans.  After [commit("k", None)] the value stored under [k] is
    [None], which is no boolean, and [query] and [batch_query] return [None]
    for [k], as they do for the key [z] under which nothing is stored. *)
Lemma pickle_query_None_without_boolean :
  let db0 := (@PickleDatabase.__init__ test_runtime "proj" 1 (Some "/work/result.db")
                empty_world).1 in
  let db := (@commit test_runtime _ PickleDatabase.backend "k" PyNone db0).1 in
  database db !! "k" = Some PyNone ∧
  database db !! "z" = None ∧
  PickleDatabase.query "k" db = (db, Return PyNone) ∧
  PickleDatabase.query "z" db = (db, Return PyNone) ∧
  PickleDatabase.batch_query ["k"; "z"] db = (db, Return [PyNone; PyNone]) ∧
  ¬ ((PickleDatabase.query "k" db).2 = Return PyNone ↔
     ∃ b, database db !! "k" = Some (PyBool b)).
Proof.
  split_and!; try (vm_compute; reflexivity).
  intros [Hb _]. destruct Hb as [b Hb]; [vm_compute; reflexivity|].
  vm_compute in Hb. discriminate.
Qed.

(** C10, amended: in a [PickleDatabase], [query] returns [None] exactly
    when nothing is stored under the key (the [get] of [pickledb] then gives
    [False]), or the value stored is a boolean, or the value stored is
    [None] itself; [batch_query] returns one slot per key that holds what
    [query] returns for that key; so that after a boolean has been committed
    under a key, [query] returns [None] for it as for a key never
    committed. *)
Theorem pickle_query_None_iff `{Runtime} (db : Database PickleDatabase.handle)
    (key : string) (keys : list string) (b : bool) :
  ((PickleDatabase.query key db).2 = Return PyNone ↔
     database db !! key = None ∨
     (∃ b', database db !! key = Some (PyBool b')) ∨
     database db !! key = Some PyNone) ∧
  (∃ values,
     PickleDatabase.batch_query keys db = (db, Return values) ∧
     length values = length keys ∧
     ∀ i k, keys !! i = Some k →
            values !! i = Some (pickle_slot db k) ∧
            (PickleDatabase.query k db).2 = Return (pickle_slot db k)) ∧
  ((commit key (PyBool b) db).2 = Return () ∧
   (PickleDatabase.query key (commit key (PyBool b) db).1).2 = Return PyNone).
Proof.
  split; [|split].
  - rewrite pickle_query_eq. simpl. rewrite <-pickle_slot_None.
    split; [by intros [= ->] | by intros ->].
  - exists (map (pickle_slot db) keys). rewrite pickle_batch_query_eq.
    split; [done|]. split; [by rewrite length_map|].
    intros i k Hk. split; [|done].
    by rewrite list_lookup_fmap, Hk.
  - split; [done|]. rewrite pickle_query_eq. simpl. f_equal. apply pickle_slot_None.
    right. left. exists b. unfold commit, bind. simpl. unfold PickleDatabase.set.
    by rewrite lookup_insert_eq.
Qed.

(** The amended claim at a store that holds a boolean under [k]. *)
Lemma pickle_query_None_iff_witness :
  let db0 := (@PickleDatabase.__init__ test_runtime "proj" 1 (Some "/work/result.db")
                empty_world).1 in
  let db := (@commit test_runtime _ PickleDatabase.backend "k" (PyBool true) db0).1 in
  (PickleDatabase.query "k" db).2 = Return PyNone ∧
  (PickleDatabase.query "z" db).2 = Return PyNone.
Proof.
  intros db0 db. split.
  - apply (proj1 (@pickle_query_None_iff test_runtime db "k" [] true)).
    right. left. exists true. vm_compute. reflexivity.
  - apply (proj1 (@pickle_query_None_iff test_runtime db "z" [] true)).
    left. vm_compute. reflexivity.
Defined.

Section RedisQueryFacts.
Context `{Runtime}.

Lemma redis_hexists (db : Database RedisDatabase.client) (key : string) :
  RedisDatabase.hexists (env db) (db_id db) key =
    bool_decide (is_Some (RedisDatabase.hget (env db) (db_id db) key)).
Proof. reflexivity. Qed.

(** A key that the hash does not hold. *)
Lemma redis_query_missing (key : string) (db : Database RedisDatabase.client) :
  RedisDatabase.hget (env db) (db_id db) key = None →
  RedisDatabase.query key db = (db, Return PyNone).
Proof.
  intros Hget. unfold RedisDatabase.query. rewrite redis_hexists, Hget.
  rewrite bool_decide_false; [done|]. by intros [? ?].
Qed.

(** Bytes whose unpickling raises [ValueError]. *)
Lemma redis_query_ValueError (key : string) (bs : bytes) (db : Database RedisDatabase.client) :
  RedisDatabase.hget (env db) (db_id db) key = Some bs →
  bs ≠ [] →
  pickle_loads bs = Raise ValueError →
  RedisDatabase.query key db =
    (set_log (log db ++ [mkLog ERROR "Failed to deserialize the result of %s: %s" [key]]) db,
     Return PyNone).
Proof.
  intros Hget Hne Hloads. unfold RedisDatabase.query. rewrite redis_hexists, Hget.
  rewrite bool_decide_true by eauto. simpl.
  destruct bs as [|b bs]; [done|]. by rewrite Hloads.
Qed.

(** Bytes that unpickle. *)
Lemma redis_query_loaded (key : string) (bs : bytes) (v : pyobj)
    (db : Database RedisDatabase.client) :
  RedisDatabase.hget (env db) (db_id db) key = Some bs →
  bs ≠ [] →
  pickle_loads bs = Return v →
  RedisDatabase.query key db = (db, Return v).
Proof.
  intros Hget Hne Hloads. unfold RedisDatabase.query. rewrite redis_hexists, Hget.
  rewrite bool_decide_true by eauto. simpl.
  destruct bs as [|b bs]; [done|]. by rewrite Hloads.
Qed.

(** Bytes whose unpickling raises anything else: the exception leaves
    [query]. *)
Lemma redis_query_raises (key : string) (bs : bytes) (e : exn)
    (db : Database RedisDatabase.client) :
  RedisDatabase.hget (env db) (db_id db) key = Some bs →
  bs ≠ [] →
  pickle_loads bs = Raise e →
  is_ValueError e = false →
  RedisDatabase.query key db = (db, Raise e).
Proof.
  intros Hget Hne Hloads He. unfold RedisDatabase.query. rewrite redis_hexists, Hget.
  rewrite bool_decide_true by eauto. simpl.
  destruct bs as [|b bs]; [done|]. by rewrite Hloads, He.
Qed.

(** When no unpickling raises anything but [ValueError], the loop of
    [batch_query] adds one slot per item and changes the log alone. *)
Lemma redis_batch_query_loop (items : list (string * option bytes)) (data : list pyobj)
    (db : Database RedisDatabase.client) :
  (∀ key bs e, (key, Some bs) ∈ items → pickle_loads bs = Raise e → e = ValueError) →
  ∃ l,
    RedisDatabase.batch_query_loop items data db =
      (set_log (log db ++ l) db, Return (data ++ map item_slot items)).
Proof.
  revert data db. induction items as [|[key o] items IH]; intros data db Hval; simpl.
  - exists []. rewrite !app_nil_r. by destruct db.
  - assert (∀ key bs e, (key, Some bs) ∈ items → pickle_loads bs = Raise e → e = ValueError)
      as Hval' by (intros k' bs' e' Hin; apply (Hval k' bs' e'); by right).
    unfold item_slot at 1. simpl.
    destruct o as [[|b bs]|].
    + destruct (IH (data ++ [PyNone]) db Hval') as [l Hl].
      exists l. by rewrite Hl, <-(assoc_L (++)).
    + destruct (pickle_loads (b :: bs)) as [v|e] eqn:Hloads.
      * destruct (IH (data ++ [v]) db Hval') as [l Hl].
        exists l. by rewrite Hl, <-(assoc_L (++)).
      * rewrite (Hval key (b :: bs) e) by (by left || done). simpl.
        unfold bind, log_call.
        match goal with |- context [RedisDatabase.batch_query_loop items ?d ?s] =>
          destruct (IH d s Hval') as [l Hl] end.
        eexists. rewrite Hl. simpl. rewrite <-!(assoc_L (++)). reflexivity.
    + destruct (IH (data ++ [PyNone]) db Hval') as [l Hl].
      exists l. by rewrite Hl, <-(assoc_L (++)).
Qed.

Lemma redis_zip_hmget (db : Database RedisDatabase.client) (keys : list string) :
  map item_slot (zip keys (RedisDatabase.hmget (env db) (db_id db) keys))
  = map (redis_slot db) keys.
Proof.
  unfold RedisDatabase.hmget. induction keys as [|k keys IH]; [done|].
  simpl. by rewrite IH.
Qed.

Lemma redis_elem_of_zip_hmget (db : Database RedisDatabase.client) (keys : list string)
    (key : string) (o : option bytes) :
  (key, o) ∈ zip keys (RedisDatabase.hmget (env db) (db_id db) keys) →
  key ∈ keys ∧ o = RedisDatabase.hget (env db) (db_id db) key.
Proof.
  unfold RedisDatabase.hmget, RedisDatabase.hget.
  induction keys as [|k keys IH]; simpl; intros Hin; [by apply elem_of_nil in Hin|].
  apply elem_of_cons in Hin as [[= -> ->]|Hin]; [split; [by left|done]|].
  destruct (IH Hin) as [? ?]. split; [by right|done].
Qed.

(** [batch_query], when no unpickling of a record asked for raises anything
    but [ValueError]. *)
Lemma redis_batch_query_run (keys : list string) (db : Database RedisDatabase.client) :
  (∀ key bs e, key ∈ keys → RedisDatabase.hget (env db) (db_id db) key = Some bs →
               pickle_loads bs = Raise e → e = ValueError) →
  ∃ l,
    RedisDatabase.batch_query keys db =
      (set_log (log db ++ l) db, Return (map (redis_slot db) keys)).
Proof.
  intros Hval. destruct keys as [|k keys].
  - exists []. simpl. unfold ret. rewrite app_nil_r. by destruct db.
  - unfold RedisDatabase.batch_query.
    destruct (redis_batch_query_loop
                (zip (k :: keys) (RedisDatabase.hmget (env db) (db_id db) (k :: keys))) [] db)
      as [l Hl].
    { intros key bs e Hin Hloads. apply redis_elem_of_zip_hmget in Hin as [Hin Hget].
      by apply (Hval key bs e). }
    exists l. by rewrite Hl, redis_zip_hmget.
Qed.

End RedisQueryFacts.

Lemma commit_all_keeps_absent {V W} (f : V → W) (pairs : list (string * V))
    (d : gmap string W) (key : string) :
  d !! key = None → key ∉ pairs.*1 →
  ((f <$> RedisDatabase.dict_of pairs) ∪ d) !! key = None.
Proof.
  intros Hd Hkey. apply lookup_union_None. split; [|done].
  rewrite lookup_fmap. apply fmap_None, not_elem_of_dom.
  rewrite dict_of_dom. by rewrite elem_of_list_to_set.
Qed.

Lemma prefix_keeps_absent {V} (stored pairs : list (string * V)) (key : string) :
  stored `prefix_of` pairs → key ∉ pairs.*1 → key ∉ stored.*1.
Proof. intros [rest ->] Hkey Hin. apply Hkey. rewrite fmap_app. apply elem_of_app. by left. Qed.

Section BrokenRecord.
#[local] Existing Instance test_runtime.

(** C8, as stated, fails in the [PickleDatabase]: its [query] unpickles
    nothing and logs nothing.  On a file whose record under [k] is text that
    [jsonpickle] cannot decode, [query] returns that text, not [None], and
    leaves the log as it is; and [load], which does the decoding, raises
    [RuntimeError] on it. *)
Lemma pickle_query_returns_undecodable_record :
  let made := PickleDatabase.__init__ "proj" 1 (Some "/work/result.db") broken_record_world in
  made.2 = Return () ∧
  jsonpickle_decode "{broken" = Raise ValueError ∧
  PickleDatabase.query "k" made.1 = (made.1, Return (PyStr "{broken")) ∧
  (PickleDatabase.query "k" made.1).2 ≠ Return PyNone ∧
  log (PickleDatabase.query "k" made.1).1 = log made.1 ∧
  (PickleDatabase.load made.1).2 = Raise RuntimeError.
Proof. vm_compute. repeat split; try reflexivity. discriminate. Qed.

(** C9, as stated, fails in the same way: the slot of [k] holds the text
    that cannot be decoded, where the claim has [None]. *)
Lemma pickle_batch_query_returns_undecodable_record :
  let made := PickleDatabase.__init__ "proj" 1 (Some "/work/result.db") broken_record_world in
  made.2 = Return () ∧
  jsonpickle_decode "{broken" = Raise ValueError ∧
  PickleDatabase.batch_query ["k"; "z"] made.1 =
    (made.1, Return [PyStr "{broken"; PyNone]) ∧
  (PickleDatabase.batch_query ["k"; "z"] made.1).2 ≠ Return [PyNone; PyNone].
Proof. vm_compute. repeat split; try reflexivity. discriminate. Qed.

(** In the [RedisDatabase], the handler of [query] and [batch_query]
    catches [ValueError] alone: bytes on which [pickle.loads] raises
    [UnpicklingError] make both raise. *)
Lemma redis_query_unpickling_error_escapes :
  let db := RedisDatabase.__init__ "proj" 1 (Some "/work/result.db") corrupt_redis_world in
  db_id db = "proj-0" ∧
  RedisDatabase.query "bad" db =
    (set_log [mkLog ERROR "Failed to deserialize the result of %s: %s" ["bad"]] db,
     Return PyNone) ∧
  RedisDatabase.query "worse" db = (db, Raise UnpicklingError) ∧
  (RedisDatabase.batch_query ["bad"; "worse"] db).2 = Raise UnpicklingError.
Proof. vm_compute. repeat split; reflexivity. Qed.

End BrokenRecord.

(** C8, amended: in both variants, [query] on a key under which nothing is
    stored, and so on a key that no commit has named, returns [None]; the
    commits return when no two readings of the clock agree, and the key is
    as absent when one of them has raised for a put in the best cache.  In
    the [RedisDatabase], [query] on a key whose stored bytes make
    [pickle.loads] raise [ValueError] logs the error and returns [None].
    In the [PickleDatabase], [query] decodes nothing: it returns the stored
    value ([None] for a boolean), logs nothing and raises nothing. *)
Theorem query_absent_or_logged `{Runtime} :
  (∀ (pairs : list (string * pyobj)) (key : string) (db : Database RedisDatabase.client),
     RedisDatabase.hget (env db) (db_id db) key = None →
     key ∉ pairs.*1 →
     ∃ db' o, commit_all pairs db = (db', o) ∧
              (o = Return () ∨ o = Raise RuntimeError) ∧
              (Inj (=) (=) time_at →
               stamped_before (clock_reads (env db)) (best_cache db) → o = Return ()) ∧
              RedisDatabase.query key db' = (db', Return PyNone)) ∧
  (∀ (key : string) (bs : bytes) (db : Database RedisDatabase.client),
     RedisDatabase.hget (env db) (db_id db) key = Some bs →
     bs ≠ [] →
     pickle_loads bs = Raise ValueError →
     RedisDatabase.query key db =
       (set_log (log db ++ [mkLog ERROR "Failed to deserialize the result of %s: %s" [key]]) db,
        Return PyNone)) ∧
  (∀ (pairs : list (string * pyobj)) (key : string) (db : Database PickleDatabase.handle),
     database db !! key = None →
     key ∉ pairs.*1 →
     ∃ db' o, commit_all pairs db = (db', o) ∧
              (o = Return () ∨ o = Raise RuntimeError) ∧
              (Inj (=) (=) time_at →
               stamped_before (clock_reads (env db)) (best_cache db) → o = Return ()) ∧
              PickleDatabase.query key db' = (db', Return PyNone)) ∧
  (∀ (key : string) (v : pyobj) (db : Database PickleDatabase.handle),
     database db !! key = Some v →
     PickleDatabase.query key db = (db, Return (if isinstance_bool v then PyNone else v))).
Proof.
  split_and!.
  - intros pairs key db Hget Hkey.
    destruct (redis_commit_all_run pairs db)
      as (db' & o & stored & Hrun & Ho & Hpre & _ & Hid & _ & _ & Hhash).
    exists db', o. split; [done|]. split; [done|]. split.
    { intros Hinj Hst. pose proof (redis_commit_all_returns pairs db Hinj Hst) as Hret.
      by rewrite Hrun in Hret. }
    apply redis_query_missing.
    unfold RedisDatabase.hget. rewrite Hid, Hhash, decide_True by done.
    apply commit_all_keeps_absent; [done|]. by apply (prefix_keeps_absent stored pairs).
  - intros key bs db. apply redis_query_ValueError.
  - intros pairs key db Hget Hkey.
    destruct (pickle_commit_all_run pairs db)
      as (db' & o & stored & Hrun & Ho & Hpre & _ & _ & _ & _ & Hdb).
    exists db', o. split; [done|]. split; [done|]. split.
    { intros Hinj Hst. pose proof (pickle_commit_all_returns pairs db Hinj Hst) as Hret.
      by rewrite Hrun in Hret. }
    rewrite pickle_query_eq. do 2 f_equal.
    apply pickle_slot_None. left. rewrite Hdb.
    rewrite <-(map_fmap_id (RedisDatabase.dict_of stored)).
    apply commit_all_keeps_absent; [done|]. by apply (prefix_keeps_absent stored pairs).
  - intros key v db Hv. rewrite pickle_query_eq.
    unfold pickle_slot, PickleDatabase.get. by rewrite Hv.
Qed.

(** The four parts of the amended claim at concrete stores. *)
Lemma query_absent_or_logged_witness :
  let pairs := [("a", PyResult (result_of HLSResult_cls "ptA" 10 true None))] in
  let rdb := @RedisDatabase.__init__ test_runtime "proj" 1 (Some "/work/result.db")
               corrupt_redis_world in
  let pdb := (@PickleDatabase.__init__ test_runtime "proj" 1 (Some "/work/result.db")
                broken_record_world).1 in
  (∃ db', @commit_all test_runtime _ (@RedisDatabase.backend test_runtime) pairs rdb
            = (db', Return ()) ∧
          @RedisDatabase.query test_runtime "z" db' = (db', Return PyNone)) ∧
  @RedisDatabase.query test_runtime "bad" rdb =
    (set_log (log rdb ++ [mkLog ERROR "Failed to deserialize the result of %s: %s" ["bad"]]) rdb,
     Return PyNone) ∧
  (∃ db', @commit_all test_runtime _ PickleDatabase.backend pairs pdb = (db', Return ()) ∧
          PickleDatabase.query "z" db' = (db', Return PyNone)) ∧
  PickleDatabase.query "k" pdb = (pdb, Return (PyStr "{broken")).
Proof.
  intros pairs rdb pdb.
  destruct (@query_absent_or_logged test_runtime) as (Hr1 & Hr2 & Hp1 & Hp2).
  split_and!.
  - destruct (Hr1 pairs "z" rdb) as (db' & o & Hrun & _ & Hret & Hq); [vm_compute; reflexivity| |].
    + vm_compute. intros Hin. apply elem_of_cons in Hin as [Hin|Hin]; [discriminate|].
      by apply elem_of_nil in Hin.
    + rewrite (Hret test_clock_inj) in Hrun by constructor. by exists db'.
  - apply (Hr2 "bad" [Byte.x80; Byte.x63] rdb); [vm_compute; reflexivity|done|].
    vm_compute. reflexivity.
  - destruct (Hp1 pairs "z" pdb) as (db' & o & Hrun & _ & Hret & Hq); [vm_compute; reflexivity| |].
    + vm_compute. intros Hin. apply elem_of_cons in Hin as [Hin|Hin]; [discriminate|].
      by apply elem_of_nil in Hin.
    + rewrite (Hret test_clock_inj) in Hrun by constructor. by exists db'.
  - apply (Hp2 "k" (PyStr "{broken") pdb). vm_compute. reflexivity.
Defined.

(** C9, amended: [batch_query] of a [PickleDatabase] returns one slot per
    key, in the order of the keys; the slot of a key holds [None] when
    nothing is stored under it and the stored value otherwise ([None] for a
    boolean).  [batch_query] of a [RedisDatabase] does the same whenever no
    unpickling of a record asked for raises anything but [ValueError]; the
    slot of a key holds [None] when nothing is stored under it or when the
    unpickling of its bytes raises [ValueError], and the unpickled object
    otherwise. *)
Theorem batch_query_one_slot_per_key `{Runtime} :
  (∀ (keys : list string) (db : Database PickleDatabase.handle),
     ∃ values,
       PickleDatabase.batch_query keys db = (db, Return values) ∧
       length values = length keys ∧
       ∀ i k, keys !! i = Some k →
              values !! i = Some (pickle_slot db k) ∧
              (database db !! k = None → pickle_slot db k = PyNone) ∧
              (∀ v, database db !! k = Some v →
                    pickle_slot db k = if isinstance_bool v then PyNone else v)) ∧
  (∀ (keys : list string) (db : Database RedisDatabase.client),
     (∀ key bs e, key ∈ keys →
                  RedisDatabase.hget (env db) (db_id db) key = Some bs →
                  pickle_loads bs = Raise e → e = ValueError) →
     ∃ l values,
       RedisDatabase.batch_query keys db = (set_log (log db ++ l) db, Return values) ∧
       length values = length keys ∧
       ∀ i k, keys !! i = Some k →
              values !! i = Some (redis_slot db k) ∧
              (RedisDatabase.hget (env db) (db_id db) k = None → redis_slot db k = PyNone) ∧
              (∀ bs, RedisDatabase.hget (env db) (db_id db) k = Some bs →
                     pickle_loads bs = Raise ValueError → redis_slot db k = PyNone) ∧
              (∀ bs v, RedisDatabase.hget (env db) (db_id db) k = Some bs → bs ≠ [] →
                       pickle_loads bs = Return v → redis_slot db k = v)).
Proof.
  split.
  - intros keys db. exists (map (pickle_slot db) keys).
    rewrite pickle_batch_query_eq, length_map. split_and!; try done.
    intros i k Hk. split_and!.
    + by rewrite list_lookup_fmap, Hk.
    + intros Hnone. apply pickle_slot_None. by left.
    + intros v Hv. unfold pickle_slot, PickleDatabase.get. by rewrite Hv.
  - intros keys db Hval.
    destruct (redis_batch_query_run keys db Hval) as [l Hl].
    exists l, (map (redis_slot db) keys). rewrite Hl, length_map. split_and!; try done.
    intros i k Hk. split_and!.
    + by rewrite list_lookup_fmap, Hk.
    + intros Hnone. unfold redis_slot. by rewrite Hnone.
    + intros bs Hbs Hloads. unfold redis_slot. rewrite Hbs.
      destruct bs as [|b bs]; [done|]. by rewrite Hloads.
    + intros bs v Hbs Hne Hloads. unfold redis_slot. rewrite Hbs.
      destruct bs as [|b bs]; [done|]. by rewrite Hloads.
Qed.

(** The amended claim at a [RedisDatabase] that holds a record whose
    unpickling raises [ValueError], and at a [PickleDatabase]. *)
Lemma batch_query_one_slot_per_key_witness :
  let rdb := @RedisDatabase.__init__ test_runtime "proj" 1 (Some "/work/result.db")
               corrupt_redis_world in
  let pdb := (@PickleDatabase.__init__ test_runtime "proj" 1 (Some "/work/result.db")
                broken_record_world).1 in
  (∃ values, PickleDatabase.batch_query ["z"; "k"] pdb = (pdb, Return values) ∧
             length values = 2%nat) ∧
  (∃ l values,
     @RedisDatabase.batch_query test_runtime ["z"; "bad"] rdb
       = (set_log (log rdb ++ l) rdb, Return values) ∧
     length values = 2%nat).
Proof.
  intros rdb pdb.
  destruct (@batch_query_one_slot_per_key test_runtime) as [Hp Hr].
  split.
  - destruct (Hp ["z"; "k"] pdb) as (values & Hrun & Hlen & _). by exists values.
  - destruct (Hr ["z"; "bad"] rdb) as (l & values & Hrun & Hlen & _).
    + intros key bs e Hin Hget Hloads.
      apply elem_of_cons in Hin as [->|Hin]; [vm_compute in Hget; discriminate|].
      apply elem_of_cons in Hin as [->|Hin]; [|by apply elem_of_nil in Hin].
      vm_compute in Hget. injection Hget as <-.
      vm_compute in Hloads. by injection Hloads as <-.
    + by exists l, values.
Defined.

(* ===================================================================== *)
(** * persist, then load *)
(* ===================================================================== *)

Lemma same_store_refl {B} (db : Database B) : same_store db db.
Proof. by repeat split. Qed.

Lemma same_store_trans {B} (db1 db2 db3 : Database B) :
  same_store db1 db2 → same_store db2 db3 → same_store db1 db3.
Proof.
  unfold same_store. intros (?&?&?&?&?) (?&?&?&?&?). split_and!; congruence.
Qed.

Lemma same_store_outside {B} (db db' : Database B) :
  outside_cache db' = outside_cache db → same_store db db'.
Proof.
  intros (? & ? & _ & _ & ? & _ & ? & ? & _)%outside_cache_eq. by repeat split.
Qed.

Lemma set_log_nil {B} (db : Database B) : set_log (log db ++ []) db = db.
Proof. destruct db. unfold set_log. simpl. by rewrite app_nil_r. Qed.

Section InitFacts.
Context `{Runtime} {B : Type} `{Backend B}.
Import PriorityQueue.

Lemma put_stamped_eq (r : Result) (db : Database B) :
  (let* now := time in best_cache_put (quality r, now, r)) db =
    (after_put r db,
     if meets_tie (entry_of (time_at (clock_reads (env db))) r) (best_cache db)
     then Raise TypeError else Return ()).
Proof. reflexivity. Qed.

(** The loop of [init_best_cache]: it puts the tuples of the results,
    stamped one after the other, up to the one whose put raises; nothing
    catches that [TypeError].  It raises nothing when no two readings of the
    clock agree and the tuples in the queue were stamped before. *)
Lemma for_each_put_results (rs : list Result) (db : Database B) :
  ∃ db2 cached o,
    for_each rs (λ result,
                   let* now := time in
                   best_cache_put (quality result, now, result)) db = (db2, o) ∧
    ((o = Return () ∧ cached = rs) ∨ (o = Raise TypeError ∧ cached `prefix_of` rs)) ∧
    best_cache db2 = put_each (stamp (clock_reads (env db)) cached) (best_cache db) ∧
    clock_reads (env db2) = (clock_reads (env db) + length cached)%nat ∧
    outside_cache db2 = outside_cache db ∧
    (Inj (=) (=) time_at → stamped_before (clock_reads (env db)) (best_cache db) →
     o = Return ()).
Proof.
  revert db. induction rs as [|r rs IH]; intros db; cbn [for_each].
  - exists db, [], (Return ()). split_and!; auto; simpl; lia.
  - unfold bind at 1. rewrite put_stamped_eq.
    destruct (meets_tie _ _) eqn:Htie.
    + exists (after_put r db), [r], (Raise TypeError). split_and!; try done.
      * right. split; [done|]. apply prefix_cons, prefix_nil.
      * simpl. lia.
      * intros Hinj Hst. by rewrite stamped_before_no_tie in Htie.
    + destruct (IH (after_put r db))
        as (db2 & cached & o & Hrun & Ho & Hcache & Hclock & Hout & Hret).
      exists db2, (r :: cached), o. split_and!; try done.
      * destruct Ho as [[-> ->]|[-> Hpre]]; [by left|right].
        split; [done|]. by apply prefix_cons.
      * rewrite Hclock. simpl. lia.
      * intros Hinj Hst. apply Hret; [done|]. by apply stamped_before_insert.
Qed.

Lemma init_best_cache_empty (db : Database B) :
  count db = (db, Return 0) → init_best_cache db = (db, Return ()).
Proof. intros Hn. unfold init_best_cache, bind. by rewrite Hn. Qed.

Lemma init_best_cache_eq (db db1 : Database B) (n : Z) (values : list pyobj) :
  count db = (db, Return n) →
  n ≠ 0 →
  query_all db = (db1, Return values) →
  init_best_cache db =
    for_each (List.filter valid (omap isinstance_HLSResult values))
      (λ result, let* now := time in best_cache_put (quality result, now, result)) db1.
Proof.
  intros Hn Hne Hq. unfold init_best_cache. unfold bind at 1. rewrite Hn.
  destruct (n =? 0) eqn:Hz; [apply Z.eqb_eq in Hz; done|].
  unfold bind at 1. by rewrite Hq.
Qed.

(** [init_best_cache] keeps the store whenever [count] and [query_all]
    return, and returns or raises the [TypeError] of a put. *)
Lemma init_best_cache_run (db : Database B) :
  (∃ n, count db = (db, Return n)) →
  (∃ l values, query_all db = (set_log (log db ++ l) db, Return values)) →
  ∃ db' o,
    init_best_cache db = (db', o) ∧ same_store db db' ∧
    (o = Return () ∨ o = Raise TypeError) ∧
    (Inj (=) (=) time_at → stamped_before (clock_reads (env db)) (best_cache db) →
     o = Return ()).
Proof.
  intros [n Hn] (l & values & Hq).
  destruct (decide (n = 0)) as [->|Hne].
  - exists db, (Return ()). rewrite init_best_cache_empty by done.
    split_and!; auto using same_store_refl.
  - rewrite (init_best_cache_eq _ _ _ _ Hn Hne Hq).
    destruct (for_each_put_results (List.filter valid (omap isinstance_HLSResult values))
                (set_log (log db ++ l) db))
      as (db2 & cached & o & Hrun & Ho & _ & _ & Hout & Hret).
    exists db2, o. split; [exact Hrun|]. split_and!.
    + apply same_store_outside in Hout. eapply same_store_trans; [|exact Hout]. by repeat split.
    + destruct Ho as [[-> _]|[-> _]]; auto.
    + exact Hret.
Qed.

(** The loop of [init_code_hash_set]: the hashes of the results that have
    one. *)
Lemma for_each_add_hashes (rs : list Result) (db : Database B) :
  for_each rs (λ result,
                 match code_hash result with
                 | Some h => λ db, (set_code_hash_set ({[h]} ∪ code_hash_set db) db, Return ())
                 | None => ret ()
                 end) db
  = (set_code_hash_set (list_to_set (omap code_hash rs) ∪ code_hash_set db) db, Return ()).
Proof.
  revert db. induction rs as [|r rs IH]; intros db; cbn [for_each].
  - unfold ret. f_equal. destruct db. unfold set_code_hash_set. simpl. f_equal.
    by rewrite (left_id_L ∅ (∪)).
  - unfold bind at 1. destruct (code_hash r) as [h|] eqn:Hh.
    + rewrite IH. f_equal. unfold set_code_hash_set. simpl. f_equal.
      rewrite Hh. simpl. apply set_eq. intros x.
      rewrite !elem_of_union, elem_of_singleton. tauto.
    + unfold ret at 1. rewrite IH. simpl. by rewrite Hh.
Qed.

Lemma init_code_hash_set_empty (db : Database B) :
  count db = (db, Return 0) → init_code_hash_set db = (db, Return ()).
Proof. intros Hn. unfold init_code_hash_set, bind. by rewrite Hn. Qed.

Lemma init_code_hash_set_content (db db1 : Database B) (n : Z) (values : list pyobj) :
  count db = (db, Return n) →
  n ≠ 0 →
  query_all db = (db1, Return values) →
  init_code_hash_set db =
    (set_code_hash_set
       (list_to_set (omap code_hash (omap isinstance_MerlinResult values))
          ∪ code_hash_set db1) db1,
     Return ()).
Proof.
  intros Hn Hne Hq. unfold init_code_hash_set, bind. rewrite Hn.
  destruct (n =? 0) eqn:Hz; [apply Z.eqb_eq in Hz; done|]. rewrite Hq.
  apply for_each_add_hashes.
Qed.

(** [init_code_hash_set] returns and keeps the store whenever [count] and
    [query_all] return. *)
Lemma init_code_hash_set_run (db : Database B) :
  (∃ n, count db = (db, Return n)) →
  (∃ l values, query_all db = (set_log (log db ++ l) db, Return values)) →
  ∃ db', init_code_hash_set db = (db', Return ()) ∧ same_store db db'.
Proof.
  intros [n Hn] (l & values & Hq).
  destruct (decide (n = 0)) as [->|Hne].
  - exists db. rewrite init_code_hash_set_empty by done. split; [done|apply same_store_refl].
  - rewrite (init_code_hash_set_content _ _ _ _ Hn Hne Hq).
    eexists. split; [reflexivity|]. by repeat split.
Qed.

End InitFacts.

Section RedisRoundTrip.
Context `{Runtime}.

Lemma redis_count_run (db : Database RedisDatabase.client) :
  ∃ n, count db = (db, Return n).
Proof. eexists. reflexivity. Qed.

Lemma redis_query_all_run (db : Database RedisDatabase.client) :
  (∀ key bs e, RedisDatabase.hget (env db) (db_id db) key = Some bs →
               pickle_loads bs = Raise e → e = ValueError) →
  ∃ l values, query_all db = (set_log (log db ++ l) db, Return values).
Proof.
  intros Hval. unfold query_all, bind.
  change (query_keys db) with (RedisDatabase.query_keys db).
  unfold RedisDatabase.query_keys.
  change (batch_query (RedisDatabase.hkeys (env db) (db_id db)) db)
    with (RedisDatabase.batch_query (RedisDatabase.hkeys (env db) (db_id db)) db).
  destruct (redis_batch_query_run (RedisDatabase.hkeys (env db) (db_id db)) db) as [l ->].
  { intros key bs e _. apply Hval. }
  eexists _, _. reflexivity.
Qed.

Lemma redis_hash_of_merged (w : World) (name : string) (data : gmap string bytes)
    (name' : string) :
  RedisDatabase.hash_of (RedisDatabase.merged name data w) name' =
    if decide (name' = name) then data ∪ RedisDatabase.hash_of w name
    else RedisDatabase.hash_of w name'.
Proof.
  unfold RedisDatabase.hash_of, RedisDatabase.merged. simpl.
  destruct (decide (name' = name)) as [->|Hne].
  - by rewrite lookup_insert_eq.
  - by rewrite lookup_insert_ne.
Qed.

(** The first half of [load] on a dump: a dump that holds nothing makes
    [hmset] raise. *)
Lemma redis_load_file_eq (db : Database RedisDatabase.client) (data : gmap string bytes) :
  files (env db) !! db_file_path db = Some (PickleFile data) →
  RedisDatabase.load_file db =
    let db1 := set_log (log db ++ [mkLog INFO "Load %d data from an existing database"
                                     [pretty (size data)]]) db in
    if decide (data = ∅) then (db1, Raise DataError)
    else (set_env (RedisDatabase.merged (db_id db) data (env db)) db1, Return ()).
Proof.
  intros Hfile. unfold RedisDatabase.load_file. rewrite Hfile.
  unfold bind, log_call, RedisDatabase.hmset. simpl. by destruct (decide (data = ∅)).
Qed.

Lemma redis_load_empty_dump (db : Database RedisDatabase.client) :
  files (env db) !! db_file_path db = Some (PickleFile ∅) →
  RedisDatabase.load db =
    (set_log (log db ++ [mkLog INFO "Load %d data from an existing database" ["0"]]) db,
     Raise DataError).
Proof.
  intros Hfile. unfold RedisDatabase.load. unfold bind at 1.
  rewrite (redis_load_file_eq db ∅ Hfile). cbn zeta. rewrite decide_True by done.
  by rewrite map_size_empty.
Qed.

Lemma redis_load_run (db : Database RedisDatabase.client) (data : gmap string bytes) :
  files (env db) !! db_file_path db = Some (PickleFile data) →
  data ≠ ∅ →
  (∀ key bs, (data ∪ RedisDatabase.hash_of (env db) (db_id db)) !! key = Some bs →
             ∃ v, pickle_loads bs = Return v) →
  ∃ db' o,
    RedisDatabase.load db = (db', o) ∧
    (o = Return () ∨ o = Raise TypeError) ∧
    (Inj (=) (=) time_at → stamped_before (clock_reads (env db)) (best_cache db) →
     o = Return ()) ∧
    db_id db' = db_id db ∧
    RedisDatabase.hash_of (env db') (db_id db) = data ∪ RedisDatabase.hash_of (env db) (db_id db).
Proof.
  intros Hfile Hdata Hsafe.
  unfold RedisDatabase.load. unfold bind at 1.
  rewrite (redis_load_file_eq db data Hfile). cbn zeta. rewrite decide_False by done.
  set (db1 := set_env _ _).
  assert (db_id db1 = db_id db) as Hid by reflexivity.
  assert (RedisDatabase.hash_of (env db1) (db_id db)
          = data ∪ RedisDatabase.hash_of (env db) (db_id db)) as Hhash.
  { unfold db1. cbn [env set_env set_log]. by rewrite redis_hash_of_merged, decide_True. }
  assert (∀ d : Database RedisDatabase.client, same_store db1 d →
            ∀ key bs e, RedisDatabase.hget (env d) (db_id d) key = Some bs →
                        pickle_loads bs = Raise e → e = ValueError) as Hval.
  { intros d (Hd1 & _ & _ & _ & Hd2) key bs e Hget Hloads.
    unfold RedisDatabase.hget, RedisDatabase.hash_of in Hget.
    rewrite Hd1, Hd2, Hid in Hget.
    change (default ∅ (redis (env db1) !! db_id db))
      with (RedisDatabase.hash_of (env db1) (db_id db)) in Hget.
    rewrite Hhash in Hget. destruct (Hsafe key bs Hget) as [v Hv]. congruence. }
  unfold bind.
  destruct (init_best_cache_run db1) as (db2 & o & -> & Hs2 & Ho & Hret).
  { apply redis_count_run. }
  { apply redis_query_all_run, Hval, same_store_refl. }
  assert (db_id db2 = db_id db ∧
          RedisDatabase.hash_of (env db2) (db_id db)
          = data ∪ RedisDatabase.hash_of (env db) (db_id db)) as [Hid2 Hhash2].
  { destruct Hs2 as (Hd1 & _ & _ & _ & Hd2). split; [congruence|].
    unfold RedisDatabase.hash_of in *. by rewrite Hd2. }
  destruct Ho as [-> | ->].
  - destruct (init_code_hash_set_run db2) as (db3 & -> & Hs3).
    { apply redis_count_run. }
    { apply redis_query_all_run, Hval, Hs2. }
    exists db3, (Return ()). split; [done|]. split; [by left|]. split; [done|].
    destruct Hs3 as (Hd1 & _ & _ & _ & Hd2).
    split; [congruence|].
    unfold RedisDatabase.hash_of in *. by rewrite Hd2.
  - exists db2, (Raise TypeError). split; [done|]. split; [by right|]. done.
Qed.

End RedisRoundTrip.

Section PickleRoundTrip.
Context `{Runtime}.

Lemma elem_of_getall (d : gmap string pyobj) (k : string) :
  k ∈ PickleDatabase.getall d ↔ is_Some (d !! k).
Proof.
  unfold PickleDatabase.getall. rewrite list_elem_of_fmap. split.
  - intros ([k' v] & -> & Hin). apply elem_of_map_to_list in Hin. by eexists.
  - intros [v Hv]. exists (k, v). split; [done|]. by apply elem_of_map_to_list.
Qed.

Lemma NoDup_getall (d : gmap string pyobj) : NoDup (PickleDatabase.getall d).
Proof. apply NoDup_fst_map_to_list. Qed.

(** A loop that replaces the value of each key by a function of it. *)
Lemma foldl_update_keys (g : pyobj → pyobj) (ks : list string) (m : gmap string pyobj) :
  NoDup ks →
  (∀ k, k ∈ ks → is_Some (m !! k)) →
  ∀ j, foldl (λ d k, PickleDatabase.set k (g (PickleDatabase.get d k)) d) m ks !! j
       = if decide (j ∈ ks) then g <$> m !! j else m !! j.
Proof.
  revert m. induction ks as [|k ks IH]; intros m Hnd Hin j; cbn [foldl].
  - rewrite decide_False; [done|]. apply not_elem_of_nil.
  - apply NoDup_cons in Hnd as [Hk Hnd].
    rewrite IH; [|done|].
    + unfold PickleDatabase.set, PickleDatabase.get.
      destruct (decide (j = k)) as [->|Hne].
      * rewrite decide_False by done. rewrite decide_True by (by left).
        rewrite lookup_insert_eq. destruct (Hin k) as [v ->]; [by left|]. done.
      * rewrite lookup_insert_ne by done.
        destruct (decide (j ∈ ks)) as [Hj|Hj].
        -- rewrite decide_True by (by right). done.
        -- rewrite decide_False; [done|]. intros Hj'. apply elem_of_cons in Hj' as [?|?]; done.
    + intros k' Hk'. unfold PickleDatabase.set.
      destruct (decide (k' = k)) as [->|Hne]; [by rewrite lookup_insert_eq|].
      rewrite lookup_insert_ne by done. apply Hin. by right.
Qed.

Lemma pickle_persist_loop_eq (d : gmap string pyobj) :
  PickleDatabase.persist_loop (PickleDatabase.getall d) d
  = (λ v, PyStr (jsonpickle_encode v)) <$> d.
Proof.
  apply map_eq. intros j. unfold PickleDatabase.persist_loop.
  rewrite (foldl_update_keys (λ v, PyStr (jsonpickle_encode v))).
  - rewrite lookup_fmap. destruct (decide (j ∈ PickleDatabase.getall d)) as [Hj|Hj]; [done|].
    rewrite elem_of_getall in Hj. apply eq_None_not_Some in Hj. by rewrite Hj.
  - apply NoDup_getall.
  - intros k. apply elem_of_getall.
Qed.

Lemma pickle_dump_strings (location : string) (data : gmap string string) (w : World) :
  files w !! location ≠ Some MissingDirectory →
  PickleDatabase.dump location (PyStr <$> data) w =
    (set_files (<[location := JsonFile data]> (files w)) w, Return true).
Proof.
  intros Hdir.
  assert (PickleDatabase.dump location (PyStr <$> data) w =
            match mapM PickleDatabase.as_str (map_to_list (PyStr <$> data)).*2 with
            | Some _ =>
                (set_files (<[location := JsonFile (omap PickleDatabase.as_str (PyStr <$> data))]>
                              (files w)) w, Return true)
            | None => (w, Raise TypeError)
            end) as ->.
  { unfold PickleDatabase.dump. by destruct (files w !! location) as [[| | |]|]. }
  assert (omap PickleDatabase.as_str (PyStr <$> data) = data) as ->.
  { apply map_eq. intros j. rewrite lookup_omap, lookup_fmap. by destruct (data !! j). }
  destruct (mapM PickleDatabase.as_str (map_to_list (PyStr <$> data)).*2) eqn:Hm; [done|].
  exfalso. apply eq_None_not_Some in Hm. apply Hm. apply mapM_is_Some.
  apply Forall_forall. intros v Hv. apply list_elem_of_fmap in Hv as ([k v'] & -> & Hin).
  apply elem_of_map_to_list in Hin. rewrite lookup_fmap in Hin.
  destruct (data !! k); [|done]. injection Hin as <-. by eexists.
Qed.

(** [persist] where the file can be written. *)
Lemma pickle_persist_run (db : Database PickleDatabase.handle) :
  files (env db) !! db_file_path db ≠ Some MissingDirectory →
  PickleDatabase.persist db =
    (set_env (set_files (<[db_file_path db := JsonFile (jsonpickle_encode <$> database db)]>
                           (files (env db))) (env db))
       (set_database ((λ v, PyStr (jsonpickle_encode v)) <$> database db) db),
     Return true).
Proof.
  intros Hdir. unfold PickleDatabase.persist. rewrite pickle_persist_loop_eq.
  assert ((λ v, PyStr (jsonpickle_encode v)) <$> database db
          = PyStr <$> (jsonpickle_encode <$> database db)) as ->
    by (by rewrite <-map_fmap_compose).
  cbn [db_file_path set_database env]. by rewrite pickle_dump_strings.
Qed.

(** [persist] where the directory of the file is missing: the values are
    replaced by their encodings, and then [dump] raises. *)
Lemma pickle_persist_missing (db : Database PickleDatabase.handle) :
  files (env db) !! db_file_path db = Some MissingDirectory →
  PickleDatabase.persist db =
    (set_database ((λ v, PyStr (jsonpickle_encode v)) <$> database db) db,
     Raise FileNotFoundError).
Proof.
  intros Hdir. unfold PickleDatabase.persist. rewrite pickle_persist_loop_eq.
  cbn [db_file_path set_database env]. unfold PickleDatabase.dump. rewrite Hdir.
  by destruct db.
Qed.

(** The loop of [load] on records that all decode. *)
Lemma pickle_load_loop_run (decoded : gmap string pyobj) (ks : list string)
    (db : Database PickleDatabase.handle) :
  (∀ v, jsonpickle_decode (jsonpickle_encode v) = Return v) →
  NoDup ks →
  (∀ k, k ∈ ks → ∃ v, decoded !! k = Some v ∧
                      database db !! k = Some (PyStr (jsonpickle_encode v))) →
  ∃ m,
    PickleDatabase.load_loop ks db = (set_database m db, Return ()) ∧
    ∀ j, m !! j = if decide (j ∈ ks) then decoded !! j else database db !! j.
Proof.
  intros Hrt. revert db. induction ks as [|k ks IH]; intros db Hnd Hin;
    cbn [PickleDatabase.load_loop].
  - exists (database db). split; [by destruct db|].
    intros j. rewrite decide_False; [done|]. apply not_elem_of_nil.
  - apply NoDup_cons in Hnd as [Hk Hnd].
    destruct (Hin k) as (v & Hv & Hstored); [by left|].
    unfold PickleDatabase.get. rewrite Hstored. simpl. rewrite Hrt.
    destruct (IH (set_database (PickleDatabase.set k v (database db)) db) Hnd)
      as (m & Hrun & Hm).
    { intros k' Hk'. destruct (Hin k') as (v' & Hv' & Hstored'); [by right|].
      exists v'. split; [done|]. simpl. unfold PickleDatabase.set.
      rewrite lookup_insert_ne; [done|]. by intros ->. }
    exists m. split; [by rewrite Hrun|].
    intros j. rewrite Hm. simpl. unfold PickleDatabase.set.
    destruct (decide (j = k)) as [->|Hne].
    + rewrite decide_False by done. rewrite decide_True by (by left).
      by rewrite lookup_insert_eq.
    + rewrite lookup_insert_ne by done.
      destruct (decide (j ∈ ks)) as [Hj|Hj].
      * by rewrite decide_True by (by right).
      * rewrite decide_False; [done|]. intros Hj'. apply elem_of_cons in Hj' as [?|?]; done.
Qed.

Lemma pickle_count_run (db : Database PickleDatabase.handle) :
  ∃ n, count db = (db, Return n).
Proof. eexists. reflexivity. Qed.

Lemma pickle_query_all_run (db : Database PickleDatabase.handle) :
  ∃ l values, query_all db = (set_log (log db ++ l) db, Return values).
Proof.
  unfold query_all, bind.
  change (query_keys db) with (PickleDatabase.query_keys db).
  unfold PickleDatabase.query_keys.
  change (batch_query (PickleDatabase.getall (database db)) db)
    with (PickleDatabase.batch_query (PickleDatabase.getall (database db)) db).
  rewrite pickle_batch_query_eq.
  eexists [], _. rewrite set_log_nil. reflexivity.
Qed.

(** The first half of [load] on a store whose records are the encodings of
    [decoded]. *)
Lemma pickle_load_decoded (decoded : gmap string pyobj) (db : Database PickleDatabase.handle) :
  (∀ v, jsonpickle_decode (jsonpickle_encode v) = Return v) →
  database db = (λ v, PyStr (jsonpickle_encode v)) <$> decoded →
  PickleDatabase.load db =
    (init_best_cache ;; init_code_hash_set)
      (set_log (log db ++ [mkLog INFO "Load %d data from an existing database"
                             [pretty (Z.of_nat (size decoded))]])
         (set_database decoded db)).
Proof.
  intros Hrt Hdb.
  destruct (pickle_load_loop_run decoded (PickleDatabase.getall (database db)) db Hrt)
    as (m & Hrun & Hm).
  { apply NoDup_getall. }
  { intros k Hk. apply elem_of_getall in Hk as [x Hx].
    rewrite Hdb, lookup_fmap in Hx. destruct (decoded !! k) as [v|] eqn:Hv; [|done].
    exists v. split; [done|]. by rewrite Hdb, lookup_fmap, Hv. }
  assert (m = decoded) as ->.
  { apply map_eq. intros j. rewrite Hm.
    destruct (decide (j ∈ PickleDatabase.getall (database db))) as [Hj|Hj]; [done|].
    rewrite elem_of_getall in Hj. apply eq_None_not_Some in Hj.
    rewrite Hdb, lookup_fmap in Hj |- *. by destruct (decoded !! j). }
  unfold PickleDatabase.load. unfold bind at 1. unfold bind at 1. rewrite Hrun.
  unfold bind at 1.
  change (count (set_database decoded db))
    with (PickleDatabase.count (set_database decoded db)).
  unfold PickleDatabase.count, log_call. reflexivity.
Qed.

(** [load] on a store whose records are the encodings of [decoded]. *)
Lemma pickle_load_run (decoded : gmap string pyobj) (db : Database PickleDatabase.handle) :
  (∀ v, jsonpickle_decode (jsonpickle_encode v) = Return v) →
  database db = (λ v, PyStr (jsonpickle_encode v)) <$> decoded →
  ∃ db' o,
    PickleDatabase.load db = (db', o) ∧
    (o = Return () ∨ o = Raise TypeError) ∧
    (Inj (=) (=) time_at → stamped_before (clock_reads (env db)) (best_cache db) →
     o = Return ()) ∧
    database db' = decoded.
Proof.
  intros Hrt Hdb. rewrite (pickle_load_decoded decoded db Hrt Hdb).
  set (db1 := set_log _ _).
  unfold bind.
  destruct (init_best_cache_run db1) as (db2 & o & -> & Hs2 & Ho & Hret).
  { apply pickle_count_run. }
  { apply pickle_query_all_run. }
  destruct Ho as [-> | ->].
  - destruct (init_code_hash_set_run db2) as (db3 & -> & Hs3).
    { apply pickle_count_run. }
    { apply pickle_query_all_run. }
    exists db3, (Return ()). split; [done|]. split; [by left|]. split; [done|].
    pose proof (same_store_trans _ _ _ Hs2 Hs3) as (_ & _ & Hd & _). by rewrite Hd.
  - exists db2, (Raise TypeError). split; [done|]. split; [by right|]. split; [done|].
    destruct Hs2 as (_ & _ & Hd & _). by rewrite Hd.
Qed.

End PickleRoundTrip.

Lemma elem_of_map_keys {V} (d : gmap string V) (k : string) :
  k ∈ (map_to_list d).*1 ↔ is_Some (d !! k).
Proof.
  rewrite list_elem_of_fmap. split.
  - intros ([k' v] & -> & Hin). apply elem_of_map_to_list in Hin. by eexists.
  - intros [v Hv]. exists (k, v). split; [done|]. by apply elem_of_map_to_list.
Qed.

Lemma dict_of_is_Some {V} (pairs : list (string * V)) (k : string) :
  is_Some (RedisDatabase.dict_of pairs !! k) ↔ k ∈ pairs.*1.
Proof. by rewrite <-elem_of_dom, dict_of_dom, elem_of_list_to_set. Qed.

Section RoundTrip.
Context `{Runtime}.

Lemma redis_persist_run (db : Database RedisDatabase.client) :
  files (env db) !! db_file_path db ≠ Some MissingDirectory →
  RedisDatabase.persist db =
    (set_env (set_files (<[db_file_path db :=
                             PickleFile (RedisDatabase.hash_of (env db) (db_id db))]>
                           (files (env db))) (env db)) db,
     Return true).
Proof.
  intros Hdir. unfold RedisDatabase.persist.
  by destruct (files (env db) !! db_file_path db) as [[| | |]|].
Qed.

Lemma redis_persist_missing (db : Database RedisDatabase.client) :
  files (env db) !! db_file_path db = Some MissingDirectory →
  RedisDatabase.persist db = (db, Raise FileNotFoundError).
Proof. intros Hdir. unfold RedisDatabase.persist. by rewrite Hdir. Qed.

(** A [RedisDatabase]: commits into an empty hash, [persist], then [load]
    in a new object on the same file. *)
Lemma redis_round_trip (w0 : World) (name : string) (cache_size : Z) (path : string)
    (name' : string) (cache_size' : Z) (pairs : list (string * pyobj)) :
  (∀ v, pickle_loads (pickle_dumps v) = Return v) →
  (∀ v, pickle_dumps v ≠ []) →
  let old0 := RedisDatabase.__init__ name cache_size (Some path) w0 in
  let old1 := (commit_all pairs old0).1 in
  let old2 := (RedisDatabase.persist old1).1 in
  let new0 := RedisDatabase.__init__ name' cache_size' (Some path) (env old2) in
  let new1 := (RedisDatabase.load new0).1 in
  RedisDatabase.hash_of w0 (db_id old0) = ∅ →
  RedisDatabase.hash_of w0 (db_id new0) = ∅ →
  files w0 !! path ≠ Some MissingDirectory →
  (commit_all pairs old0).2 = Return () →
  (RedisDatabase.persist old1).2 = Return true ∧
  RedisDatabase.hash_of (env old1) (db_id old1) = pickle_dumps <$> RedisDatabase.dict_of pairs ∧
  (pairs = [] → (RedisDatabase.load new0).2 = Raise DataError) ∧
  (pairs ≠ [] →
   ((RedisDatabase.load new0).2 = Return () ∨ (RedisDatabase.load new0).2 = Raise TypeError) ∧
   (Inj (=) (=) time_at → (RedisDatabase.load new0).2 = Return ()) ∧
   RedisDatabase.hash_of (env new1) (db_id new1) = RedisDatabase.hash_of (env old1) (db_id old1)).
Proof.
  intros Hrt Hne old0 old1 old2 new0 new1 Hold Hnew Hdir Hret.
  destruct (redis_commit_all_run pairs old0)
    as (o1 & o & stored & Hrun & _ & _ & Hall & Hid & Hpath & Hfiles & Hhash).
  rewrite Hrun in Hret. cbn [snd] in Hret. subst o. specialize (Hall eq_refl) as ->.
  assert (old1 = o1) as Ho1 by (unfold old1; by rewrite Hrun).
  assert (RedisDatabase.hash_of (env old0) = RedisDatabase.hash_of w0) as Henv0 by reflexivity.
  assert (RedisDatabase.hash_of (env old1) (db_id old1)
          = pickle_dumps <$> RedisDatabase.dict_of pairs) as Hdata.
  { rewrite Ho1, Hid, Hhash, decide_True by done.
    rewrite Henv0, Hold. apply (right_id_L ∅ (∪)). }
  pose proof (redis_persist_run old1) as Hpersist.
  rewrite Ho1, Hfiles, Hpath in Hpersist. rewrite <-Ho1 in Hpersist.
  specialize (Hpersist Hdir). fold old2 in Hpersist.
  assert (∀ id, RedisDatabase.hash_of (env new0) id = RedisDatabase.hash_of (env old1) id)
    as Henv by (intros id; unfold new0, old2; by rewrite Hpersist).
  assert (files (env new0) !! db_file_path new0
          = Some (PickleFile (RedisDatabase.hash_of (env old1) (db_id old1)))) as Hfile.
  { unfold new0, old2. rewrite Hpersist. simpl. by rewrite lookup_insert_eq. }
  assert (RedisDatabase.hash_of (env new0) (db_id new0)
          ⊆ pickle_dumps <$> RedisDatabase.dict_of pairs) as Hsub.
  { rewrite Henv, Ho1, Hhash. destruct (decide (db_id new0 = db_id old0)) as [Heq|Hneq].
    - rewrite Henv0, Hold. by rewrite (right_id_L ∅ (∪)).
    - rewrite Henv0, Hnew. apply map_empty_subseteq. }
  split_and!.
  - by rewrite Hpersist.
  - done.
  - intros ->. rewrite Hdata in Hfile.
    assert (pickle_dumps <$> RedisDatabase.dict_of (@nil (string * pyobj)) = ∅) as Hempty
      by apply fmap_empty.
    rewrite Hempty in Hfile. by rewrite (redis_load_empty_dump new0 Hfile).
  - intros Hpairs.
    destruct (redis_load_run new0 (RedisDatabase.hash_of (env old1) (db_id old1)) Hfile)
      as (n1 & o & Hload & Ho & Hinj & Hid' & Hhash').
    { rewrite Hdata. intros Hempty. apply fmap_empty_inv, dict_of_empty in Hempty. done. }
    { intros key bs Hkey. rewrite Hdata in Hkey.
      assert ((pickle_dumps <$> RedisDatabase.dict_of pairs) !! key = Some bs) as Hbs.
      { apply lookup_union_Some_raw in Hkey as [Hkey|[_ Hkey]]; [done|].
        by eapply lookup_weaken. }
      rewrite lookup_fmap in Hbs. destruct (RedisDatabase.dict_of pairs !! key) as [v|]; [|done].
      injection Hbs as <-. by exists v. }
    assert (new1 = n1) as Hn1 by (unfold new1; by rewrite Hload).
    rewrite Hload. cbn [snd]. split_and!.
    + done.
    + intros Hclock. apply Hinj; [done|]. constructor.
    + rewrite Hn1, Hid', Hhash'. rewrite Hdata.
      apply map_eq. intros key. apply option_eq. intros bs. split.
      * intros Hkey. apply lookup_union_Some_raw in Hkey as [Hkey|[_ Hkey]]; [done|].
        by eapply lookup_weaken.
      * intros Hkey. by apply lookup_union_Some_l.
Qed.

(** A [PickleDatabase]: commits into an object made where there is no file,
    [persist], then a new object on the same file and its [load]. *)
Lemma pickle_round_trip (w0 : World) (name : string) (cache_size : Z) (path : string)
    (name' : string) (cache_size' : Z) (pairs : list (string * pyobj)) :
  (∀ v, jsonpickle_decode (jsonpickle_encode v) = Return v) →
  let made := PickleDatabase.__init__ name cache_size (Some path) w0 in
  let old1 := (commit_all pairs made.1).1 in
  let old2 := (PickleDatabase.persist old1).1 in
  let made' := PickleDatabase.__init__ name' cache_size' (Some path) (env old2) in
  let new1 := (PickleDatabase.load made'.1).1 in
  files w0 !! path = None →
  (commit_all pairs made.1).2 = Return () →
  made.2 = Return () ∧
  (PickleDatabase.persist old1).2 = Return true ∧
  made'.2 = Return () ∧
  ((PickleDatabase.load made'.1).2 = Return () ∨
   (PickleDatabase.load made'.1).2 = Raise TypeError) ∧
  (Inj (=) (=) time_at → (PickleDatabase.load made'.1).2 = Return ()) ∧
  database old1 = RedisDatabase.dict_of pairs ∧
  database new1 = RedisDatabase.dict_of pairs.
Proof.
  intros Hrt made old1 old2 made' new1 Hfile Hret.
  assert (made = (set_database ∅ (Database__init__ name cache_size (Some path) ∅ w0), Return ()))
    as Hmade.
  { unfold made, PickleDatabase.__init__, PickleDatabase.pickledb_load. simpl. by rewrite Hfile. }
  destruct (pickle_commit_all_run pairs made.1)
    as (o1 & o & stored & Hrun & _ & _ & Hall & Hid & Hpath & Hfiles & Hdb).
  rewrite Hrun in Hret. cbn [snd] in Hret. subst o. specialize (Hall eq_refl) as ->.
  assert (old1 = o1) as Ho1 by (unfold old1; by rewrite Hrun).
  assert (database old1 = RedisDatabase.dict_of pairs) as Hold.
  { rewrite Ho1, Hdb, Hmade. simpl. apply (right_id_L ∅ (∪)). }
  assert (db_file_path old1 = path) as Hp by (by rewrite Ho1, Hpath, Hmade).
  pose proof (pickle_persist_run old1) as Hpersist. fold old2 in Hpersist.
  rewrite Hp in Hpersist. rewrite Ho1, Hfiles, Hmade in Hpersist. rewrite <-Ho1 in Hpersist.
  cbn [fst env Database__init__ set_database files] in Hpersist.
  rewrite Hfile in Hpersist. specialize (Hpersist ltac:(done)).
  assert (files (env old2) !! path = Some (JsonFile (jsonpickle_encode <$> database old1)))
    as Hdump.
  { unfold old2. rewrite Hpersist. simpl. by rewrite lookup_insert_eq. }
  assert (made' = (set_database (PyStr <$> (jsonpickle_encode <$> database old1))
                     (Database__init__ name' cache_size' (Some path) ∅ (env old2)),
                   Return ())) as Hmade'.
  { unfold made', PickleDatabase.__init__, PickleDatabase.pickledb_load. simpl.
    by rewrite Hdump. }
  destruct (pickle_load_run (database old1) made'.1 Hrt) as (n1 & o & Hload & Ho & Hinj & Hn1).
  { rewrite Hmade'. simpl. by rewrite <-map_fmap_compose. }
  split_and!.
  - by rewrite Hmade.
  - by rewrite Hpersist.
  - by rewrite Hmade'.
  - by rewrite Hload.
  - intros Hclock. rewrite Hload. apply Hinj; [done|]. rewrite Hmade'. constructor.
  - done.
  - unfold new1. rewrite Hload. cbn [fst]. by rewrite Hn1.
Qed.

End RoundTrip.

Lemma pos_of_bytes_of_pos (p : positive) : pos_of_bytes (bytes_of_pos p) = Some p.
Proof. induction p as [p IH|p IH|]; simpl; [by rewrite IH ..|done]. Qed.

Lemma pos_of_text_of_pos (p : positive) : pos_of_text (text_of_pos p) = Some p.
Proof. induction p as [p IH|p IH|]; simpl; [by rewrite IH ..|done]. Qed.

Lemma test_pickle_round_trip (v : pyobj) :
  @pickle_loads test_runtime (@pickle_dumps test_runtime v) = Return v.
Proof. simpl. rewrite pos_of_bytes_of_pos. simpl. by rewrite decode_encode. Qed.

Lemma test_pickle_not_empty (v : pyobj) : @pickle_dumps test_runtime v ≠ [].
Proof. simpl. by destruct (encode v). Qed.

Lemma test_jsonpickle_round_trip (v : pyobj) :
  @jsonpickle_decode test_runtime (@jsonpickle_encode test_runtime v) = Return v.
Proof. simpl. rewrite pos_of_text_of_pos. simpl. by rewrite decode_encode. Qed.

(** C6: when the serializers give back what they were given, and pairs
    are committed into a new store whose file can be written (the commits
    return when no two readings of the clock agree), [persist] returns; in
    a [PickleDatabase], and in a [RedisDatabase] that holds at least one
    pair, [load] in a new object of the same variant on the same file
    leaves the new object with the keys of the old one, which are the keys
    committed, and under each key [query] returns in the new object, as in
    the old one, the value last committed under it (in a [PickleDatabase],
    whose [query] hides booleans, the [Result] last committed under it);
    that [load] returns when no two readings of the clock agree, and
    otherwise returns or raises the [TypeError] of a put of
    [init_best_cache], the store being loaded by then.  In a
    [RedisDatabase] that holds no pair the round trip fails: [persist]
    dumps an empty dictionary, which [load] hands to [hmset], and [load]
    raises [DataError]. *)
Theorem persist_load_round_trip `{Runtime} (w0 : World) (name : string) (cache_size : Z)
    (path : string) (name' : string) (cache_size' : Z) (pairs : list (string * pyobj)) :
  (∀ v, pickle_loads (pickle_dumps v) = Return v) →
  (∀ v, pickle_dumps v ≠ []) →
  (∀ v, jsonpickle_decode (jsonpickle_encode v) = Return v) →
  (let old0 := RedisDatabase.__init__ name cache_size (Some path) w0 in
   let old1 := (commit_all pairs old0).1 in
   let old2 := (RedisDatabase.persist old1).1 in
   let new0 := RedisDatabase.__init__ name' cache_size' (Some path) (env old2) in
   let new1 := (RedisDatabase.load new0).1 in
   RedisDatabase.hash_of w0 (db_id old0) = ∅ →
   RedisDatabase.hash_of w0 (db_id new0) = ∅ →
   files w0 !! path ≠ Some MissingDirectory →
   (Inj (=) (=) time_at → (commit_all pairs old0).2 = Return ()) ∧
   ((commit_all pairs old0).2 = Return () →
    (RedisDatabase.persist old1).2 = Return true ∧
    (pairs = [] → (RedisDatabase.load new0).2 = Raise DataError) ∧
    (pairs ≠ [] →
     ((RedisDatabase.load new0).2 = Return () ∨
      (RedisDatabase.load new0).2 = Raise TypeError) ∧
     (Inj (=) (=) time_at → (RedisDatabase.load new0).2 = Return ()) ∧
     (∃ keys keys',
        RedisDatabase.query_keys new1 = (new1, Return keys) ∧
        RedisDatabase.query_keys old1 = (old1, Return keys') ∧
        (∀ k, k ∈ keys ↔ k ∈ keys') ∧
        (∀ k, k ∈ keys ↔ k ∈ pairs.*1)) ∧
     (∀ k v, last_for k pairs = Some v →
             RedisDatabase.query k new1 = (new1, Return v) ∧
             RedisDatabase.query k old1 = (old1, Return v))))) ∧
  (let made := PickleDatabase.__init__ name cache_size (Some path) w0 in
   let old1 := (commit_all pairs made.1).1 in
   let old2 := (PickleDatabase.persist old1).1 in
   let made' := PickleDatabase.__init__ name' cache_size' (Some path) (env old2) in
   let new1 := (PickleDatabase.load made'.1).1 in
   files w0 !! path = None →
   made.2 = Return () ∧
   (Inj (=) (=) time_at → (commit_all pairs made.1).2 = Return ()) ∧
   ((commit_all pairs made.1).2 = Return () →
    (PickleDatabase.persist old1).2 = Return true ∧
    made'.2 = Return () ∧
    ((PickleDatabase.load made'.1).2 = Return () ∨
     (PickleDatabase.load made'.1).2 = Raise TypeError) ∧
    (Inj (=) (=) time_at → (PickleDatabase.load made'.1).2 = Return ()) ∧
    (∃ keys keys',
       PickleDatabase.query_keys new1 = (new1, Return keys) ∧
       PickleDatabase.query_keys old1 = (old1, Return keys') ∧
       (∀ k, k ∈ keys ↔ k ∈ keys') ∧
       (∀ k, k ∈ keys ↔ k ∈ pairs.*1)) ∧
    (∀ k r, last_for k pairs = Some (PyResult r) →
            PickleDatabase.query k new1 = (new1, Return (PyResult r)) ∧
            PickleDatabase.query k old1 = (old1, Return (PyResult r))))).
Proof.
  intros Hpickle Hne Hjson. split.
  - intros old0 old1 old2 new0 new1 Hold Hnew Hdir. split.
    { intros Hinj. apply redis_commit_all_returns; [done|]. constructor. }
    intros Hret.
    destruct (redis_round_trip w0 name cache_size path name' cache_size' pairs Hpickle Hne
                Hold Hnew Hdir Hret) as (Hp & Hdata & Hempty & Hfull).
    fold old0 old1 old2 new0 new1 in Hp, Hdata, Hempty, Hfull.
    split; [done|]. split; [done|]. intros Hpairs.
    destruct (Hfull Hpairs) as (Hl & Hinj & Hsame).
    assert (∀ k, k ∈ RedisDatabase.hkeys (env new1) (db_id new1) ↔ k ∈ pairs.*1) as Hkeys.
    { intros k. unfold RedisDatabase.hkeys. rewrite elem_of_map_keys, Hsame, Hdata.
      rewrite lookup_fmap, fmap_is_Some. apply dict_of_is_Some. }
    split_and!; try done.
    + eexists _, _. split; [reflexivity|]. split; [reflexivity|]. split; [|done].
      intros k. unfold RedisDatabase.hkeys. by rewrite Hsame.
    + intros k v Hlast. unfold last_for in Hlast. split.
      * apply redis_query_loaded with (pickle_dumps v); [|done|done].
        unfold RedisDatabase.hget. by rewrite Hsame, Hdata, lookup_fmap, Hlast.
      * apply redis_query_loaded with (pickle_dumps v); [|done|done].
        unfold RedisDatabase.hget. by rewrite Hdata, lookup_fmap, Hlast.
  - intros made old1 old2 made' new1 Hfile.
    assert (made = (set_database ∅ (Database__init__ name cache_size (Some path) ∅ w0),
                    Return ())) as Hmade.
    { unfold made, PickleDatabase.__init__, PickleDatabase.pickledb_load. simpl.
      by rewrite Hfile. }
    split; [by rewrite Hmade|]. split.
    { intros Hinj. apply pickle_commit_all_returns; [done|]. rewrite Hmade. constructor. }
    intros Hret.
    destruct (pickle_round_trip w0 name cache_size path name' cache_size' pairs Hjson Hfile Hret)
      as (Hm & Hp & Hm' & Hl & Hinj & Hold & Hnew).
    fold made old1 old2 made' new1 in Hm, Hp, Hm', Hl, Hinj, Hold, Hnew.
    split_and!; try done.
    + eexists _, _. split; [reflexivity|]. split; [reflexivity|]. split.
      * intros k. by rewrite Hold, Hnew.
      * intros k. rewrite elem_of_getall, Hnew. apply dict_of_is_Some.
    + intros k r Hlast. unfold last_for in Hlast. rewrite !pickle_query_eq.
      unfold pickle_slot, PickleDatabase.get. by rewrite Hold, Hnew, Hlast.
Qed.

(** The round trip at three commits, two of them under the same key, and
    at no commit at all. *)
Lemma persist_load_round_trip_witness :
  let rA := result_of HLSResult_cls "ptA" 10 true None in
  let rB := result_of MerlinResult_cls "ptB" 30 true (Some "h1") in
  let rC := result_of HLSResult_cls "ptC" 20 false None in
  let pairs := [("a", PyResult rA); ("b", PyResult rB); ("a", PyResult rC)] in
  let rload := λ pairs,
    @RedisDatabase.load test_runtime
      (@RedisDatabase.__init__ test_runtime "proj" 2 (Some "/work/result.db")
         (env (RedisDatabase.persist
                 (@commit_all test_runtime _ (@RedisDatabase.backend test_runtime) pairs
                    (@RedisDatabase.__init__ test_runtime "proj" 2
                       (Some "/work/result.db") empty_world)).1).1)) in
  let rnew := (rload pairs).1 in
  let pnew := (@PickleDatabase.load test_runtime
                 (@PickleDatabase.__init__ test_runtime "proj" 2 (Some "/work/result.db")
                    (env (@PickleDatabase.persist test_runtime
                            (@commit_all test_runtime _ PickleDatabase.backend pairs
                               (@PickleDatabase.__init__ test_runtime "proj" 2
                                  (Some "/work/result.db") empty_world).1).1).1)).1).1 in
  (@RedisDatabase.query test_runtime "a" rnew = (rnew, Return (PyResult rC)) ∧
   @RedisDatabase.query test_runtime "b" rnew = (rnew, Return (PyResult rB))) ∧
  (PickleDatabase.query "a" pnew = (pnew, Return (PyResult rC)) ∧
   PickleDatabase.query "b" pnew = (pnew, Return (PyResult rB))) ∧
  (rload []).2 = Raise DataError.
Proof.
  intros rA rB rC pairs rload rnew pnew.
  destruct (@persist_load_round_trip test_runtime empty_world "proj" 2 "/work/result.db"
              "proj" 2 pairs test_pickle_round_trip test_pickle_not_empty
              test_jsonpickle_round_trip) as [Hredis Hpickle].
  destruct (@persist_load_round_trip test_runtime empty_world "proj" 2 "/work/result.db"
              "proj" 2 [] test_pickle_round_trip test_pickle_not_empty
              test_jsonpickle_round_trip) as [Hempty _].
  split_and!.
  - destruct Hredis as (Hret & Hfull); [vm_compute; reflexivity ..|done|].
    destruct (Hfull (Hret test_clock_inj)) as (_ & _ & Hkeys).
    destruct Hkeys as (_ & _ & _ & Hq); [done|].
    apply (Hq "a" (PyResult rC)). vm_compute. reflexivity.
  - destruct Hredis as (Hret & Hfull); [vm_compute; reflexivity ..|done|].
    destruct (Hfull (Hret test_clock_inj)) as (_ & _ & Hkeys).
    destruct Hkeys as (_ & _ & _ & Hq); [done|].
    apply (Hq "b" (PyResult rB)). vm_compute. reflexivity.
  - destruct Hpickle as (_ & Hret & Hfull); [vm_compute; reflexivity|].
    destruct (Hfull (Hret test_clock_inj)) as (_ & _ & _ & _ & _ & Hq).
    apply (Hq "a" rC). vm_compute. reflexivity.
  - destruct Hpickle as (_ & Hret & Hfull); [vm_compute; reflexivity|].
    destruct (Hfull (Hret test_clock_inj)) as (_ & _ & _ & _ & _ & Hq).
    apply (Hq "b" rB). vm_compute. reflexivity.
  - destruct Hempty as (Hret & Hfull); [vm_compute; reflexivity ..|done|].
    destruct (Hfull (Hret test_clock_inj)) as (_ & Hraise & _).
    by apply Hraise.
Defined.

Section LoadFailures.
#[local] Existing Instance test_runtime.

(** The failing run: a [RedisDatabase] to which nothing was committed is
    persisted, which writes the pickle of an empty dictionary; the [load] of
    the next run finds the file and raises [DataError]. *)
Lemma redis_load_of_empty_dump_raises :
  let old := RedisDatabase.__init__ "proj" 2 (Some "/work/result.db") empty_world in
  let dumped := RedisDatabase.persist old in
  let new := RedisDatabase.__init__ "proj" 2 (Some "/work/result.db") (env dumped.1) in
  dumped.2 = Return true ∧
  files (env dumped.1) !! "/work/result.db" = Some (PickleFile ∅) ∧
  (RedisDatabase.load new).2 = Raise DataError.
Proof. vm_compute. repeat split; reflexivity. Qed.

End LoadFailures.

(** With a clock that gives two readings alike, the [load] of a dump that
    holds two valid results of one quality raises the [TypeError] of the
    second put: [init_best_cache], unlike [update_best], does not catch
    it. *)
Lemma redis_load_raises_on_tied_results :
  let r1 := result_of HLSResult_cls "p1" 5 true None in
  let r2 := result_of HLSResult_cls "p2" 5 true None in
  let w := mkWorld {[ "/work/result.db" :=
                        PickleFile {[ "k1" := @pickle_dumps coarse_runtime (PyResult r1);
                                      "k2" := @pickle_dumps coarse_runtime (PyResult r2) ]} ]}
                   ∅ "/work" 0 in
  let db := @RedisDatabase.__init__ coarse_runtime "proj" 2 (Some "/work/result.db") w in
  (@RedisDatabase.load coarse_runtime db).2 = Raise TypeError ∧
  length (best_cache (@RedisDatabase.load coarse_runtime db).1) = 2%nat.
Proof. vm_compute. split; reflexivity. Qed.

(* ===================================================================== *)
(** * The start of main: the path tests *)
(* ===================================================================== *)

Section PathFacts.




End PathFacts.


(* ===================================================================== *)
(** * The trimming loop and the set of code hashes *)
(* ===================================================================== *)

Section TrimLoopFacts.
Import PriorityQueue.



End TrimLoopFacts.





Section HashSetFacts.
Context `{Runtime} {B : Type} `{Backend B}.

(** A call of an explorer thread changes the set of code hashes only when
    it is [add_code_hash], which adds its argument. *)
Lemma run_worker_call_hashes (c : Main.worker_call) (db : Database B) :
  hash_frame B →
  code_hash_set (Main.run_worker_call c db).1 =
    match c with
    | Main.AddCodeHash h => {[h]} ∪ code_hash_set db
    | _ => code_hash_set db
    end.
Proof.
  intros [Hc Hb]. destruct c as [key result|pairs|h]; simpl.
  - specialize (Hc key result db). unfold commit, bind.
    destruct (commit_impl key result db) as [db1 [[|]|e]]; simpl in *; [|done|done].
    destruct (isinstance_Result result) as [r|]; [|done].
    pose proof (update_best_outside r db1) as (_ & _ & _ & -> & _)%outside_cache_log_eq.
    done.
  - specialize (Hb pairs db). unfold batch_commit, bind.
    destruct (batch_commit_impl pairs db) as [db1 [n|e]]; simpl in *; [|done].
    destruct (n =? Z.of_nat (length pairs)); simpl; [|done].
    destruct (update_best_loop pairs db1) as (db2 & es & o & Hrun & _ & _ & _ & _ & Hout & _).
    rewrite Hrun. simpl. apply outside_cache_log_eq in Hout as (_ & _ & _ & Hset & _).
    by rewrite Hset.
  - unfold add_code_hash, bind.
    destruct (decide (h ∈ code_hash_set db)) as [Hin|Hin]; simpl; [|done].
    apply set_eq. intros x. rewrite elem_of_union, elem_of_singleton.
    split; [by right|]. by intros [->|?].
Qed.

Lemma run_workers_hashes (schedule : list Main.event) (db : Database B) :
  hash_frame B →
  code_hash_set (Main.run_workers schedule db).1 =
    code_hash_set db ∪ list_to_set (hashes_added schedule).
Proof.
  intros Hframe. revert db.
  induction schedule as [|[c| |] rest IH]; intros db; simpl.
  - by rewrite (right_id_L ∅ (∪)).
  - unfold bind, Main.worker_step. simpl. rewrite IH.
    rewrite (run_worker_call_hashes c db Hframe).
    destruct c as [key result|pairs|h]; simpl; [done|done|].
    apply set_eq. intros x. rewrite !elem_of_union, elem_of_singleton. tauto.
  - apply IH.
  - apply IH.
Qed.

End HashSetFacts.

Lemma redis_hash_frame `{Runtime} : hash_frame RedisDatabase.client.
Proof.
  split; intros; [reflexivity|].
  change (batch_commit_impl pairs db) with (RedisDatabase.batch_commit_impl pairs db).
  rewrite redis_batch_commit_impl_eq. by destruct pairs.
Qed.

Lemma pickle_hash_frame : hash_frame PickleDatabase.handle.
Proof. split; intros; reflexivity. Qed.

(** X4: While the exploration runs, with a bound that is not negative, only
    [add_code_hash] changes the set of code hashes, and it only adds: when
    [launch_exploration] ends, the set holds the hashes it held at the
    start and every hash that an explorer handed to [add_code_hash], and no
    other; commits, the trimming and an interrupt leave it alone. *)
Theorem launch_exploration_collects_hashes `{Runtime} {B} `{Backend B}
    (schedule : list Main.event) (db : Database B) :
  cache_frame B →
  hash_frame B →
  0 ≤ best_cache_size db →
  code_hash_set (Main.launch_exploration schedule db).1 =
    code_hash_set db ∪ list_to_set (hashes_added schedule).
Proof.
  intros Hcache Hframe. revert db.
  induction schedule as [|[c| |] rest IH]; intros db Hsize.
  - simpl. by rewrite (right_id_L ∅ (∪)).
  - cbn [Main.launch_exploration]. unfold bind, Main.worker_step. cbn [fst snd].
    destruct (run_worker_call_cache c db Hcache) as (_ & _ & _ & Hsz & _).
    rewrite IH by (by rewrite Hsz).
    rewrite (run_worker_call_hashes c db Hframe).
    destruct c as [key result|pairs|h]; simpl; [done|done|].
    apply set_eq. intros x. rewrite !elem_of_union, elem_of_singleton. tauto.
  - cbn [Main.launch_exploration]. unfold bind, Main.trim_test.
    destruct (best_cache_size db <? PriorityQueue.qsize (best_cache db)) eqn:Hlt.
    + apply Z.ltb_lt in Hlt.
      destruct (best_cache db) as [|m q] eqn:Hq;
        [unfold PriorityQueue.qsize in Hlt; simpl in Hlt; lia|].
      cbn [PriorityQueue.get]. by rewrite IH.
    + by rewrite IH.
  - cbn [Main.launch_exploration]. unfold bind.
    pose proof (run_workers_hashes rest db Hframe) as Hrun.
    destruct (Main.run_workers rest db) as [db1 [[]|e]]; exact Hrun.
Qed.

Lemma launch_exploration_collects_hashes_witness :
  let r := result_of HLSResult_cls "pt" 3 true None in
  let db := @RedisDatabase.__init__ test_runtime "proj" 1 (Some "/work/result.db")
              empty_world in
  let schedule :=
    [Main.Worker (Main.AddCodeHash "h1"); Main.Worker (Main.Commit "k" (PyResult r));
     Main.Worker (Main.Commit "k2" (PyResult r)); Main.TrimTest;
     Main.Worker (Main.AddCodeHash "h2"); Main.Worker (Main.AddCodeHash "h1");
     Main.Interrupt; Main.Worker (Main.AddCodeHash "h3")] in
  0 ≤ best_cache_size db ∧
  code_hash_set (@Main.launch_exploration test_runtime _ (@RedisDatabase.backend test_runtime)
                   schedule db).1 = {["h1"; "h2"; "h3"]}.
Proof.
  split; [by vm_compute|].
  rewrite (@launch_exploration_collects_hashes test_runtime _
             (@RedisDatabase.backend test_runtime));
    [by vm_compute|apply redis_cache_frame|apply redis_hash_frame|by vm_compute].
Defined.

(* ===================================================================== *)
(** * The loop of the outputs, when a job fails *)
(* ===================================================================== *)

Section OutputFailure.
Import PriorityQueue.


End OutputFailure.



(* ===================================================================== *)
(** * commit, then query and count *)
(* ===================================================================== *)

Section RedisCommitQuery.
Context `{Runtime}.

(** What [query] returns depends on the bytes stored under the key alone. *)
Lemma redis_query_outcome (key : string) (db : Database RedisDatabase.client) :
  (RedisDatabase.query key db).2 =
    match RedisDatabase.hget (env db) (db_id db) key with
    | Some (b :: bs) =>
        match pickle_loads (b :: bs) with
        | Return v => Return v
        | Raise e => if is_ValueError e then Return PyNone else Raise e
        end
    | _ => Return PyNone
    end.
Proof.
  unfold RedisDatabase.query. rewrite redis_hexists.
  destruct (RedisDatabase.hget (env db) (db_id db) key) as [[|b bs]|] eqn:Hget.
  - by rewrite bool_decide_true by eauto.
  - rewrite bool_decide_true by eauto. simpl.
    destruct (pickle_loads (b :: bs)) as [v|e]; [done|]. by destruct (is_ValueError e).
  - rewrite bool_decide_false; [done|]. by intros [? ?].
Qed.

Lemma redis_commit_hget (key : string) (v : pyobj) (db : Database RedisDatabase.client) :
  ∃ db1,
    commit key v db = (db1, commit_end v db) ∧
    db_id db1 = db_id db ∧
    ∀ key', RedisDatabase.hget (env db1) (db_id db1) key' =
              if decide (key' = key) then Some (pickle_dumps v)
              else RedisDatabase.hget (env db) (db_id db) key'.
Proof.
  destruct (redis_commit_run key v db) as (db1 & Hrun & Hid & _ & _ & Hhash).
  exists db1. split_and!; [done|done|].
  intros key'. unfold RedisDatabase.hget. rewrite Hid, Hhash, decide_True by done.
  destruct (decide (key' = key)) as [->|Hne].
  - by rewrite lookup_insert_eq.
  - by rewrite lookup_insert_ne.
Qed.

End RedisCommitQuery.

(** X6: A value committed to a [RedisDatabase] whose pickle loads back is what
    [query] returns for its key right after, whatever the key held before,
    and what [query] gives for any other key is as before the commit.  In
    a [PickleDatabase] the same holds with no condition, but for a boolean,
    which [query] gives back as [None].  The commit returns, unless the
    value is a [Result] and the put of its tuple in the best cache raises:
    [commit] then raises [RuntimeError], with the value stored. *)
Theorem commit_then_query `{Runtime} (key : string) (v : pyobj) :
  (∀ db : Database RedisDatabase.client,
     pickle_loads (pickle_dumps v) = Return v →
     pickle_dumps v ≠ [] →
     ∃ db1,
       commit key v db = (db1, commit_end v db) ∧
       RedisDatabase.query key db1 = (db1, Return v) ∧
       ∀ key', key' ≠ key →
               (RedisDatabase.query key' db1).2 = (RedisDatabase.query key' db).2) ∧
  (∀ db : Database PickleDatabase.handle,
     ∃ db1,
       commit key v db = (db1, commit_end v db) ∧
       PickleDatabase.query key db1 =
         (db1, Return (if isinstance_bool v then PyNone else v)) ∧
       ∀ key', key' ≠ key →
               (PickleDatabase.query key' db1).2 = (PickleDatabase.query key' db).2).
Proof.
  split.
  - intros db Hrt Hne.
    destruct (redis_commit_hget key v db) as (db1 & Hrun & Hid & Hget).
    exists db1. split_and!; [done| |].
    + apply redis_query_loaded with (pickle_dumps v); [|done|done].
      by rewrite Hget, decide_True.
    + intros key' Hkey. rewrite !redis_query_outcome. by rewrite Hget, decide_False.
  - intros db.
    destruct (pickle_commit_run key v db) as (db1 & Hrun & _ & _ & _ & Hdb).
    exists db1. split_and!; [done| |].
    + rewrite pickle_query_eq. unfold pickle_slot, PickleDatabase.get.
      by rewrite Hdb, lookup_insert_eq.
    + intros key' Hkey. rewrite !pickle_query_eq. unfold pickle_slot, PickleDatabase.get.
      cbn [snd]. by rewrite Hdb, lookup_insert_ne.
Qed.

Lemma commit_then_query_witness :
  let r := result_of MerlinResult_cls "pt" 3 true (Some "h") in
  let rdb := @RedisDatabase.__init__ test_runtime "proj" 1 (Some "/work/result.db")
               empty_world in
  let pdb := (@PickleDatabase.__init__ test_runtime "proj" 1 (Some "/work/result.db")
                empty_world).1 in
  (∃ db1,
     @commit test_runtime _ (@RedisDatabase.backend test_runtime) "k" (PyResult r) rdb
       = (db1, Return ()) ∧
     @RedisDatabase.query test_runtime "k" db1 = (db1, Return (PyResult r)) ∧
     ∀ key', key' ≠ "k" →
             (@RedisDatabase.query test_runtime key' db1).2
             = (@RedisDatabase.query test_runtime key' rdb).2) ∧
  (∃ db1,
     @commit test_runtime _ PickleDatabase.backend "k" (PyBool true) pdb = (db1, Return ()) ∧
     PickleDatabase.query "k" db1 = (db1, Return PyNone) ∧
     ∀ key', key' ≠ "k" →
             (PickleDatabase.query key' db1).2 = (PickleDatabase.query key' pdb).2).
Proof.
  intros r rdb pdb. split.
  - apply (proj1 (@commit_then_query test_runtime "k" (PyResult r)) rdb).
    + apply test_pickle_round_trip.
    + apply test_pickle_not_empty.
  - apply (proj2 (@commit_then_query test_runtime "k" (PyBool true)) pdb).
Defined.

(* ===================================================================== *)
(** * count, overwritten keys, and batch_commit as a sequence of commits *)
(* ===================================================================== *)

(** The keys of a dictionary after one more assignment. *)
Lemma keys_insert {V} (m : gmap string V) (k : string) (v : V) :
  let keys := (map_to_list m).*1 in
  let keys' := (map_to_list (<[k := v]> m)).*1 in
  NoDup keys' ∧
  (∀ x, x ∈ keys' ↔ x = k ∨ x ∈ keys) ∧
  length keys' = if decide (k ∈ keys) then length keys else S (length keys).
Proof.
  intros keys keys'. split_and!.
  - apply NoDup_fst_map_to_list.
  - intros x. unfold keys, keys'. rewrite !elem_of_map_keys, lookup_insert_is_Some.
    split.
    + intros [->|[_ Hx]]; [by left|by right].
    + intros [->|Hx]; [by left|].
      destruct (decide (k = x)) as [->|Hne]; [by left|by right].
  - unfold keys, keys'. rewrite !length_fmap, !length_map_to_list.
    destruct (decide (k ∈ (map_to_list m).*1)) as [Hin|Hin].
    + apply elem_of_map_keys in Hin as [x Hx]. by rewrite map_size_insert_Some.
    + rewrite elem_of_map_keys in Hin. apply eq_None_not_Some in Hin.
      by rewrite map_size_insert_None.
Qed.

(** X7: [count] is the number of keys, not of commits: a [commit] under a key
    that the store does not hold adds that key and makes [count] one
    higher; a [commit] under a key that it holds leaves the keys and
    [count] as they are.  The keys that [query_keys] gives are pairwise
    distinct, and [count] is their number.  The commit returns, unless the
    value is a [Result] and the put of its tuple in the best cache raises:
    [commit] then raises [RuntimeError], with the keys as said. *)
Theorem count_is_number_of_keys `{Runtime} (key : string) (v : pyobj) :
  (∀ db : Database RedisDatabase.client,
     ∃ keys keys' db1,
       commit key v db = (db1, commit_end v db) ∧
       RedisDatabase.query_keys db = (db, Return keys) ∧
       RedisDatabase.query_keys db1 = (db1, Return keys') ∧
       RedisDatabase.count db = (db, Return (Z.of_nat (length keys))) ∧
       RedisDatabase.count db1 = (db1, Return (Z.of_nat (length keys'))) ∧
       NoDup keys' ∧
       (∀ k, k ∈ keys' ↔ k = key ∨ k ∈ keys) ∧
       length keys' = if decide (key ∈ keys) then length keys else S (length keys)) ∧
  (∀ db : Database PickleDatabase.handle,
     ∃ keys keys' db1,
       commit key v db = (db1, commit_end v db) ∧
       PickleDatabase.query_keys db = (db, Return keys) ∧
       PickleDatabase.query_keys db1 = (db1, Return keys') ∧
       PickleDatabase.count db = (db, Return (Z.of_nat (length keys))) ∧
       PickleDatabase.count db1 = (db1, Return (Z.of_nat (length keys'))) ∧
       NoDup keys' ∧
       (∀ k, k ∈ keys' ↔ k = key ∨ k ∈ keys) ∧
       length keys' = if decide (key ∈ keys) then length keys else S (length keys)).
Proof.
  split.
  - intros db.
    destruct (redis_commit_run key v db) as (db1 & Hrun & Hid & _ & _ & Hhash).
    pose proof (keys_insert (RedisDatabase.hash_of (env db) (db_id db)) key (pickle_dumps v))
      as (Hnd & Hin & Hlen).
    eexists _, _, db1. split; [exact Hrun|].
    split; [reflexivity|]. split; [reflexivity|]. split; [reflexivity|].
    split; [reflexivity|].
    unfold RedisDatabase.hkeys. rewrite Hid, Hhash, decide_True by done. done.
  - intros db.
    destruct (pickle_commit_run key v db) as (db1 & Hrun & _ & _ & _ & Hdb).
    pose proof (keys_insert (database db) key v) as (Hnd & Hin & Hlen).
    eexists _, _, db1. split; [exact Hrun|].
    split; [reflexivity|]. split; [reflexivity|].
    unfold PickleDatabase.count, PickleDatabase.totalkeys, PickleDatabase.getall.
    rewrite !length_fmap, !length_map_to_list.
    split; [reflexivity|]. split; [reflexivity|].
    rewrite Hdb. rewrite !length_fmap, !length_map_to_list in Hlen. done.
Qed.

Section Overwrite.
Context `{Runtime}.

Lemma redis_commit_result_run (key : string) (r : Result) (db : Database RedisDatabase.client) :
  let e := entry_of (time_at (clock_reads (env db))) r in
  ∃ db1,
    commit key (PyResult r) db =
      (db1, if PriorityQueue.meets_tie e (best_cache db)
            then Raise RuntimeError else Return ()) ∧
    db_id db1 = db_id db ∧
    (∀ name, RedisDatabase.hash_of (env db1) name =
               if decide (name = db_id db)
               then <[key := pickle_dumps (PyResult r)]>
                      (RedisDatabase.hash_of (env db) (db_id db))
               else RedisDatabase.hash_of (env db) name) ∧
    best_cache db1 = PriorityQueue.insert e (best_cache db) ∧
    clock_reads (env db1) = S (clock_reads (env db)).
Proof.
  intros e. subst e. unfold commit, bind. simpl. rewrite update_best_eq. simpl.
  destruct (PriorityQueue.meets_tie _ _);
    (eexists; split; [reflexivity|]; simpl; split_and!; try done; intros name;
     rewrite <-(redis_hash_of_hset (env db) (db_id db) key (pickle_dumps (PyResult r)) name);
     reflexivity).
Qed.

Lemma pickle_commit_result_run (key : string) (r : Result) (db : Database PickleDatabase.handle) :
  let e := entry_of (time_at (clock_reads (env db))) r in
  ∃ db1,
    commit key (PyResult r) db =
      (db1, if PriorityQueue.meets_tie e (best_cache db)
            then Raise RuntimeError else Return ()) ∧
    database db1 = <[key := PyResult r]> (database db) ∧
    best_cache db1 = PriorityQueue.insert e (best_cache db) ∧
    clock_reads (env db1) = S (clock_reads (env db)).
Proof.
  intros e. subst e. unfold commit, bind. simpl. rewrite update_best_eq. simpl.
  destruct (PriorityQueue.meets_tie _ _); eexists; (split; [reflexivity|]);
    by simpl.
Qed.

End Overwrite.

(** X8: The store keeps one value per key, the best cache one tuple per commit:
    after two results have been committed under the same key, the store
    holds the second alone under that key and [count] is what it was after
    the first commit, while the best cache holds the tuples of both, each
    with the quality of its result and the reading of the clock at its
    commit, so that it holds a result that the store has lost.  Each of the
    two commits returns, unless the put of its tuple raised: then it raises
    [RuntimeError], store and cache being as said. *)
Theorem overwritten_result_stays_in_best_cache `{Runtime} (key : string) (r1 r2 : Result) :
  (∀ db : Database RedisDatabase.client,
     let e1 := entry_of (time_at (clock_reads (env db))) r1 in
     let e2 := entry_of (time_at (S (clock_reads (env db)))) r2 in
     ∃ db1 db2,
       commit key (PyResult r1) db =
         (db1, if PriorityQueue.meets_tie e1 (best_cache db)
               then Raise RuntimeError else Return ()) ∧
       commit key (PyResult r2) db1 =
         (db2, if PriorityQueue.meets_tie e2 (best_cache db1)
               then Raise RuntimeError else Return ()) ∧
       RedisDatabase.hget (env db2) (db_id db2) key = Some (pickle_dumps (PyResult r2)) ∧
       (RedisDatabase.count db2).2 = (RedisDatabase.count db1).2 ∧
       best_cache db2 = PriorityQueue.insert e2 (PriorityQueue.insert e1 (best_cache db)) ∧
       e1 ∈ best_cache db2 ∧
       length (best_cache db2) = S (S (length (best_cache db)))) ∧
  (∀ db : Database PickleDatabase.handle,
     let e1 := entry_of (time_at (clock_reads (env db))) r1 in
     let e2 := entry_of (time_at (S (clock_reads (env db)))) r2 in
     ∃ db1 db2,
       commit key (PyResult r1) db =
         (db1, if PriorityQueue.meets_tie e1 (best_cache db)
               then Raise RuntimeError else Return ()) ∧
       commit key (PyResult r2) db1 =
         (db2, if PriorityQueue.meets_tie e2 (best_cache db1)
               then Raise RuntimeError else Return ()) ∧
       database db2 !! key = Some (PyResult r2) ∧
       (PickleDatabase.count db2).2 = (PickleDatabase.count db1).2 ∧
       best_cache db2 = PriorityQueue.insert e2 (PriorityQueue.insert e1 (best_cache db)) ∧
       e1 ∈ best_cache db2 ∧
       length (best_cache db2) = S (S (length (best_cache db)))).
Proof.
  split.
  - intros db e1 e2.
    destruct (redis_commit_result_run key r1 db)
      as (db1 & Hrun1 & Hid1 & Hhash1 & Hcache1 & Hclock1).
    destruct (redis_commit_result_run key r2 db1)
      as (db2 & Hrun2 & Hid2 & Hhash2 & Hcache2 & Hclock2).
    rewrite Hclock1 in Hrun2, Hcache2. fold e1 in Hrun1, Hcache1. fold e2 in Hrun2, Hcache2.
    exists db1, db2. split; [exact Hrun1|]. split; [exact Hrun2|].
    rewrite Hcache2, Hcache1. split_and!.
    + unfold RedisDatabase.hget. rewrite Hid2, Hhash2, decide_True by done.
      by rewrite lookup_insert_eq.
    + unfold RedisDatabase.count. cbn [snd]. do 2 f_equal.
      unfold RedisDatabase.hkeys. rewrite !length_fmap, !length_map_to_list.
      rewrite Hid2, Hhash2, decide_True by done.
      apply map_size_insert_Some.
      rewrite Hid1, Hhash1, decide_True by done. by rewrite lookup_insert_eq.
    + reflexivity.
    + rewrite !insert_elem_of. right. by left.
    + by rewrite !insert_length.
  - intros db e1 e2.
    destruct (pickle_commit_result_run key r1 db) as (db1 & Hrun1 & Hdb1 & Hcache1 & Hclock1).
    destruct (pickle_commit_result_run key r2 db1) as (db2 & Hrun2 & Hdb2 & Hcache2 & Hclock2).
    rewrite Hclock1 in Hrun2, Hcache2. fold e1 in Hrun1, Hcache1. fold e2 in Hrun2, Hcache2.
    exists db1, db2. split; [exact Hrun1|]. split; [exact Hrun2|].
    rewrite Hcache2, Hcache1. split_and!.
    + by rewrite Hdb2, lookup_insert_eq.
    + unfold PickleDatabase.count, PickleDatabase.totalkeys. cbn [snd]. do 2 f_equal.
      rewrite Hdb2. apply map_size_insert_Some. by rewrite Hdb1, lookup_insert_eq.
    + reflexivity.
    + rewrite !insert_elem_of. right. by left.
    + by rewrite !insert_length.
Qed.

(** Two results under one key at a clock that goes on, and two results of
    one quality under one key within one reading of a coarse clock: the
    second commit then raises, and the cache holds both all the same. *)
Lemma overwritten_result_stays_in_best_cache_witness :
  let r1 := result_of HLSResult_cls "p1" 9 true None in
  let r2 := result_of HLSResult_cls "p2" 4 true None in
  let r3 := result_of HLSResult_cls "p3" 9 true None in
  let pdb := (@PickleDatabase.__init__ test_runtime "proj" 1 (Some "/work/result.db")
                empty_world).1 in
  let cdb := (@PickleDatabase.__init__ coarse_runtime "proj" 1 (Some "/work/result.db")
                empty_world).1 in
  (∃ db1 db2,
     @commit test_runtime _ PickleDatabase.backend "k" (PyResult r1) pdb = (db1, Return ()) ∧
     @commit test_runtime _ PickleDatabase.backend "k" (PyResult r2) db1 = (db2, Return ()) ∧
     database db2 !! "k" = Some (PyResult r2) ∧
     (PickleDatabase.count db2).2 = (PickleDatabase.count db1).2 ∧
     best_cache db2 = [entry_of 2 r2; entry_of 1 r1] ∧
     entry_of 1 r1 ∈ best_cache db2 ∧
     length (best_cache db2) = 2%nat) ∧
  (∃ db1 db2,
     @commit coarse_runtime _ PickleDatabase.backend "k" (PyResult r1) cdb = (db1, Return ()) ∧
     @commit coarse_runtime _ PickleDatabase.backend "k" (PyResult r3) db1
       = (db2, Raise RuntimeError) ∧
     database db2 !! "k" = Some (PyResult r3) ∧
     (PickleDatabase.count db2).2 = (PickleDatabase.count db1).2 ∧
     best_cache db2 = [entry_of 0 r1; entry_of 0 r3] ∧
     entry_of 0 r1 ∈ best_cache db2 ∧
     length (best_cache db2) = 2%nat).
Proof.
  intros r1 r2 r3 pdb cdb. split.
  - destruct (proj2 (@overwritten_result_stays_in_best_cache test_runtime "k" r1 r2) pdb)
      as (db1 & db2 & H1 & H2 & Hk & Hc & Hcache & Hin & Hlen).
    pose proof (f_equal fst H1) as Hdb1. cbn [fst] in Hdb1. subst db1.
    eexists _, db2. split; [exact H1|]. split; [exact H2|]. split_and!; done.
  - destruct (proj2 (@overwritten_result_stays_in_best_cache coarse_runtime "k" r1 r3) cdb)
      as (db1 & db2 & H1 & H2 & Hk & Hc & Hcache & Hin & Hlen).
    pose proof (f_equal fst H1) as Hdb1. cbn [fst] in Hdb1. subst db1.
    eexists _, db2. split; [exact H1|]. split; [exact H2|]. split_and!; done.
Defined.

Section BatchAsCommits.
Context `{Runtime}.

(** The loop of [batch_commit] and the [commit]s of a [PickleDatabase] put
    the same tuples and end alike, whatever the store holds. *)
Lemma pickle_commit_all_vs_loop (pairs : list (string * pyobj))
    (a : Database PickleDatabase.handle) (d : PickleDatabase.handle) :
  ∃ a' o stored,
    commit_all pairs a = (a', o) ∧
    for_each pairs put_result (set_database d a) = (set_database d a', o) ∧
    (o = Return () ∨ o = Raise RuntimeError) ∧
    stored `prefix_of` pairs ∧
    (o = Return () → stored = pairs) ∧
    database a' = foldl (λ d p, PickleDatabase.set p.1 p.2 d) (database a) stored.
Proof.
  revert a. induction pairs as [|[k v] pairs IH]; intros a.
  - exists a, (Return ()), []. split_and!; auto.
  - unfold commit_all in *. cbn [for_each fst snd]. unfold bind.
    assert (∃ a1 o1,
              commit k v a = (a1, o1) ∧ put_result (k, v) (set_database d a)
                                        = (set_database d a1, o1) ∧
              (o1 = Return () ∨ o1 = Raise RuntimeError) ∧
              database a1 = PickleDatabase.set k v (database a))
      as (a1 & o1 & -> & -> & Ho1 & Hdb1).
    { unfold commit, put_result, bind. simpl.
      destruct (isinstance_Result v) as [r|].
      - rewrite !update_best_eq. simpl.
        destruct (PriorityQueue.meets_tie _ _); eexists _, _;
          (split; [reflexivity|]); (split; [reflexivity|]); simpl; auto.
      - eexists _, _. split; [reflexivity|]. split; [reflexivity|]. simpl. auto. }
    destruct Ho1 as [-> | ->].
    + destruct (IH a1) as (a' & o & stored & Hrun & Hloop & Ho & Hpre & Hall & Hdb).
      exists a', o, ((k, v) :: stored). split_and!; try done.
      * by apply prefix_cons.
      * intros Hret. by rewrite Hall.
      * rewrite Hdb, Hdb1. reflexivity.
    + exists a1, (Raise RuntimeError), [(k, v)]. split_and!; try done; auto.
      apply prefix_cons, prefix_nil.
Qed.

(** The same for a [RedisDatabase], as far as the best cache goes. *)
Lemma redis_commit_all_cache (pairs : list (string * pyobj))
    (a b : Database RedisDatabase.client) :
  best_cache a = best_cache b →
  clock_reads (env a) = clock_reads (env b) →
  ∃ a' b' o,
    commit_all pairs a = (a', o) ∧
    for_each pairs put_result b = (b', o) ∧
    best_cache a' = best_cache b' ∧
    clock_reads (env a') = clock_reads (env b').
Proof.
  revert a b. induction pairs as [|[k v] pairs IH]; intros a b Hcache Hclock.
  - by exists a, b, (Return ()).
  - unfold commit_all in *. cbn [for_each fst snd]. unfold bind.
    assert (∃ a1 b1 o1, commit k v a = (a1, o1) ∧ put_result (k, v) b = (b1, o1) ∧
                        (o1 = Return () ∨ o1 = Raise RuntimeError) ∧
                        best_cache a1 = best_cache b1 ∧
                        clock_reads (env a1) = clock_reads (env b1))
      as (a1 & b1 & o1 & -> & -> & Ho1 & Hcache1 & Hclock1).
    { unfold commit, put_result, bind. simpl.
      destruct (isinstance_Result v) as [r|].
      - rewrite !update_best_eq. simpl. rewrite Hcache, Hclock.
        destruct (PriorityQueue.meets_tie _ _); eexists _, _, _;
          (split; [reflexivity|]); (split; [reflexivity|]); simpl;
          rewrite ?Hcache, ?Hclock; auto.
      - eexists _, _, _. split; [reflexivity|]. split; [reflexivity|]. simpl. auto. }
    destruct Ho1 as [-> | ->].
    + exact (IH a1 b1 Hcache1 Hclock1).
    + by exists a1, b1, (Raise RuntimeError).
Qed.

End BatchAsCommits.

(** X9: On a [PickleDatabase], [batch_commit] and the sequence of the [commit]s
    of its pairs end alike, both returning or both raising [RuntimeError]
    at the put of the same pair, and they leave the same best cache with
    its timestamps, the same log and the same clock.  The batch has stored
    all its pairs by then, the commits those up to the one that raised:
    when they return, the two leave the object in the same state. *)
Theorem pickle_batch_commit_is_commits `{Runtime} (pairs : list (string * pyobj))
    (db : Database PickleDatabase.handle) :
  ∃ dbc o stored,
    commit_all pairs db = (dbc, o) ∧
    batch_commit pairs db
      = (set_database (RedisDatabase.dict_of pairs ∪ database db) dbc, o) ∧
    (o = Return () ∨ o = Raise RuntimeError) ∧
    stored `prefix_of` pairs ∧
    database dbc = RedisDatabase.dict_of stored ∪ database db ∧
    (o = Return () → batch_commit pairs db = commit_all pairs db).
Proof.
  destruct (pickle_commit_all_vs_loop pairs db
              (foldl (λ d p, PickleDatabase.set p.1 p.2 d) (database db) pairs))
    as (dbc & o & stored & Hrun & Hloop & Ho & Hpre & Hall & Hdb).
  assert (batch_commit pairs db
          = (set_database (RedisDatabase.dict_of pairs ∪ database db) dbc, o)) as Hbatch.
  { unfold batch_commit, bind. simpl. rewrite Z.eqb_refl. cbn [negb].
    unfold PickleDatabase.set in *. rewrite <-foldl_insert_union. exact Hloop. }
  exists dbc, o, stored. split_and!; try done.
  - rewrite Hdb. unfold PickleDatabase.set. apply foldl_insert_union.
  - intros Hret. rewrite Hbatch, Hrun. f_equal. specialize (Hall Hret) as ->.
    unfold PickleDatabase.set in Hdb. rewrite foldl_insert_union in Hdb.
    rewrite <-Hdb. by destruct dbc.
Qed.

(** X10: On a [RedisDatabase], the sequence of the [commit]s of the pairs of a
    batch stores them up to the one at which a commit raised, and all of
    them when it returns.  [batch_commit] of no pair raises the [DataError]
    of [hmset] and changes nothing; of one pair or more, it stores them all
    in the hash.  When their keys are pairwise distinct it then ends as the
    commits do, with the same best cache; when a key occurs twice it raises
    [RuntimeError] with the values stored and the best cache as it was. *)
Theorem redis_batch_commit_vs_commits `{Runtime} (pairs : list (string * pyobj))
    (db : Database RedisDatabase.client) :
  ∃ dbc dbb o stored,
    commit_all pairs db = (dbc, o) ∧
    (batch_commit pairs db).1 = dbb ∧
    (o = Return () ∨ o = Raise RuntimeError) ∧
    stored `prefix_of` pairs ∧
    (o = Return () → stored = pairs) ∧
    (∀ name, RedisDatabase.hash_of (env dbc) name =
               if decide (name = db_id db)
               then (pickle_dumps <$> RedisDatabase.dict_of stored)
                      ∪ RedisDatabase.hash_of (env db) (db_id db)
               else RedisDatabase.hash_of (env db) name) ∧
    (pairs = [] → batch_commit pairs db = (db, Raise DataError)) ∧
    (pairs ≠ [] →
       ∀ name, RedisDatabase.hash_of (env dbb) name =
                 if decide (name = db_id db)
                 then (pickle_dumps <$> RedisDatabase.dict_of pairs)
                        ∪ RedisDatabase.hash_of (env db) (db_id db)
                 else RedisDatabase.hash_of (env db) name) ∧
    (pairs ≠ [] → NoDup pairs.*1 →
       (batch_commit pairs db).2 = o ∧ best_cache dbb = best_cache dbc) ∧
    (¬ NoDup pairs.*1 →
       (batch_commit pairs db).2 = Raise RuntimeError ∧ best_cache dbb = best_cache db).
Proof.
  destruct (redis_commit_all_run pairs db)
    as (dbc & o & stored & Hrun & Ho & Hpre & Hall & Hid & _ & _ & Hhash).
  exists dbc. eexists. exists o, stored.
  split; [exact Hrun|]. split; [reflexivity|]. split; [exact Ho|]. split; [exact Hpre|].
  split; [exact Hall|]. split; [exact Hhash|].
  unfold batch_commit, bind.
  change (batch_commit_impl pairs db) with (RedisDatabase.batch_commit_impl pairs db).
  rewrite redis_batch_commit_impl_eq.
  destruct pairs as [|p pairs].
  { split_and!; try done. intros Hnd. exfalso. apply Hnd. constructor. }
  set (ps := p :: pairs) in *.
  set (db1 := set_env _ db).
  assert (∀ name, RedisDatabase.hash_of (env db1) name =
                    if decide (name = db_id db)
                    then (pickle_dumps <$> RedisDatabase.dict_of ps)
                           ∪ RedisDatabase.hash_of (env db) (db_id db)
                    else RedisDatabase.hash_of (env db) name) as Hsame.
  { intros name. unfold db1. cbn [env set_env]. apply redis_hash_of_merged. }
  destruct (redis_commit_all_cache ps db db1) as (dbc' & db2 & o' & Hrun' & Hloop & Hcache & _);
    [done|done|].
  rewrite Hrun in Hrun'. injection Hrun' as <- <-.
  destruct (update_best_loop ps db1) as (db2' & es & o' & Hloop' & _ & _ & _ & _ & Hout & _).
  assert (for_each ps put_result db1 = (db2', o')) as Hloop'' by exact Hloop'.
  rewrite Hloop in Hloop''. injection Hloop'' as <- <-.
  apply outside_cache_log_eq in Hout as (_ & _ & _ & _ & _ & _ & Hredis & _).
  destruct (decide (size (RedisDatabase.dict_of ps) = length ps)) as [Hsize|Hsize].
  - rewrite Hsize, Z.eqb_refl. cbn [negb].
    change (for_each ps _ db1) with (for_each ps put_result db1). rewrite Hloop.
    cbn [fst snd]. split_and!.
    + done.
    + intros _ name. rewrite <-Hsame. unfold RedisDatabase.hash_of. by rewrite Hredis.
    + done.
    + intros Hnd. exfalso. apply Hnd. by apply dict_of_size_NoDup.
  - assert ((Z.of_nat (size (RedisDatabase.dict_of ps)) =? Z.of_nat (length ps)) = false)
      as -> by (apply Z.eqb_neq; lia).
    cbn [negb]. unfold log_call, raise. cbn [fst snd]. split_and!.
    + done.
    + intros _ name. by rewrite <-Hsame.
    + intros _ Hnd. exfalso. apply Hsize. by apply dict_of_NoDup_size.
    + done.
Qed.

(** A batch in which a key comes twice, and a batch of no pair. *)
Lemma redis_batch_commit_vs_commits_witness :
  let r := result_of HLSResult_cls "pt" 3 true None in
  let pairs := [("a", PyResult r); ("a", PyBool true)] in
  let db := @RedisDatabase.__init__ test_runtime "proj" 1 (Some "/work/result.db")
              empty_world in
  ¬ NoDup pairs.*1 ∧
  (∃ dbc dbb,
     @commit_all test_runtime _ (@RedisDatabase.backend test_runtime) pairs db
       = (dbc, Return ()) ∧
     (@batch_commit test_runtime _ (@RedisDatabase.backend test_runtime) pairs db).1 = dbb ∧
     (∀ name, RedisDatabase.hash_of (env dbb) name = RedisDatabase.hash_of (env dbc) name) ∧
     (@batch_commit test_runtime _ (@RedisDatabase.backend test_runtime) pairs db).2
       = Raise RuntimeError ∧
     best_cache dbb = best_cache db ∧
     best_cache dbc = [entry_of 1 r]) ∧
  @batch_commit test_runtime _ (@RedisDatabase.backend test_runtime) [] db
    = (db, Raise DataError).
Proof.
  intros r pairs db.
  assert (¬ NoDup pairs.*1) as Hdup.
  { intros Hnd. apply NoDup_cons in Hnd as [Hin _]. apply Hin. by left. }
  split; [exact Hdup|]. split.
  - destruct (@redis_batch_commit_vs_commits test_runtime pairs db)
      as (dbc & dbb & o & stored & Hrun & Hb & _ & _ & Hall & Hc & _ & Hhash & _ & Hraise).
    exists dbc, dbb. destruct (Hraise Hdup) as [Hr Hcache].
    assert (o = Return ()) as -> by (vm_compute in Hrun; by injection Hrun as _ <-).
    split_and!; try done.
    + intros name. rewrite Hhash by done. rewrite Hc. by rewrite Hall.
    + vm_compute in Hrun. injection Hrun as <-. reflexivity.
  - destruct (@redis_batch_commit_vs_commits test_runtime [] db)
      as (_ & _ & _ & _ & _ & _ & _ & _ & _ & _ & Hempty & _).
    by apply Hempty.
Defined.

(* ===================================================================== *)
(** * query_all and count_ret_code *)
(* ===================================================================== *)

(** Looking the keys of a dictionary up in it gives its values. *)
Lemma map_keys_lookup {V W} (m : gmap string V) (g : string → option V → W) :
  map (λ k, g k (m !! k)) (map_to_list m).*1 = map (λ kv, g kv.1 (Some kv.2)) (map_to_list m).
Proof.
  rewrite <-list_fmap_compose. apply list_eq. intros i. rewrite !list_lookup_fmap.
  destruct (map_to_list m !! i) as [[k v]|] eqn:Hi; [|done]. simpl.
  apply list_elem_of_lookup_2, elem_of_map_to_list in Hi. by rewrite Hi.
Qed.

Lemma sum_counts (code : RetCode) (values : list pyobj) :
  length (List.filter (λ r, bool_decide (ret_code r = code))
            (omap isinstance_Result (List.filter is_not_None values)))
  = sum_list_with (counts code) values.
Proof.
  induction values as [|v values IH]; [done|].
  destruct v as [|b|s|r]; simpl; try exact IH.
  change (sum_list_with (counts code) (PyResult r :: values))
    with (counts code (PyResult r) + sum_list_with (counts code) values)%nat.
  rewrite <-IH. unfold counts. simpl.
  by destruct (bool_decide (ret_code r = code)).
Qed.

Lemma sum_list_with_insert {V} (f : string * V → nat) (m : gmap string V) (k : string) (x : V) :
  sum_list_with f (map_to_list (<[k := x]> m))
  = (f (k, x) + sum_list_with f (map_to_list (delete k m)))%nat.
Proof.
  rewrite <-insert_delete_eq.
  rewrite map_to_list_insert by apply lookup_delete_eq. done.
Qed.

Lemma sum_list_with_lookup {V} (f : string * V → nat) (m : gmap string V) (k : string) :
  sum_list_with f (map_to_list m)
  = (match m !! k with Some x => f (k, x) | None => 0 end
     + sum_list_with f (map_to_list (delete k m)))%nat.
Proof.
  destruct (m !! k) as [x|] eqn:Hk.
  - by rewrite <-(map_to_list_delete _ _ _ Hk).
  - by rewrite delete_id.
Qed.

Lemma sum_list_with_fmap {A C} (f : C → nat) (g : A → C) (l : list A) :
  sum_list_with f (map g l) = sum_list_with (f ∘ g) l.
Proof. induction l as [|a l IH]; [done|]. simpl. by rewrite IH. Qed.

Lemma filter_length_all {A} (f : A → bool) (l : list A) :
  length (List.filter f l) = length l ↔ Forall (λ x, f x = true) l.
Proof.
  induction l as [|y l IH]; simpl; [by split|].
  pose proof (filter_length_le f l). destruct (f y) eqn:Hy; simpl.
  - rewrite Forall_cons. split.
    + intros Hlen. split; [done|]. apply IH. lia.
    + intros [_ Hall]. f_equal. by apply IH.
  - split; [lia|]. intros Hall. apply Forall_cons in Hall as [Hy' _]. congruence.
Qed.

Section QueryAllFacts.
Context `{Runtime}.

Lemma pickle_query_all_eq (db : Database PickleDatabase.handle) :
  query_all db =
    (db, Return (List.filter is_not_None
                   (map (λ kv, hide_bool kv.2) (map_to_list (database db))))).
Proof.
  unfold query_all, bind.
  change (query_keys db) with (PickleDatabase.query_keys db).
  unfold PickleDatabase.query_keys.
  change (batch_query (PickleDatabase.getall (database db)) db)
    with (PickleDatabase.batch_query (PickleDatabase.getall (database db)) db).
  rewrite pickle_batch_query_eq. unfold ret, PickleDatabase.getall. do 3 f_equal.
  apply (map_keys_lookup (database db) (λ _ o, hide_bool (default (PyBool false) o))).
Qed.

Lemma redis_query_all_eq (db : Database RedisDatabase.client) :
  (∀ key bs e, RedisDatabase.hget (env db) (db_id db) key = Some bs →
               pickle_loads bs = Raise e → e = ValueError) →
  ∃ l,
    query_all db =
      (set_log (log db ++ l) db,
       Return (List.filter is_not_None
                 (map (λ kv, item_slot (kv.1, Some kv.2))
                      (map_to_list (RedisDatabase.hash_of (env db) (db_id db)))))).
Proof.
  intros Hval. unfold query_all, bind.
  change (query_keys db) with (RedisDatabase.query_keys db).
  unfold RedisDatabase.query_keys.
  change (batch_query (RedisDatabase.hkeys (env db) (db_id db)) db)
    with (RedisDatabase.batch_query (RedisDatabase.hkeys (env db) (db_id db)) db).
  destruct (redis_batch_query_run (RedisDatabase.hkeys (env db) (db_id db)) db) as [l ->].
  { intros key bs e _. apply Hval. }
  exists l. unfold ret, RedisDatabase.hkeys. do 3 f_equal.
  apply (map_keys_lookup (RedisDatabase.hash_of (env db) (db_id db))
           (λ k o, item_slot (k, o))).
Qed.

Lemma pickle_count_ret_code_eq (code : RetCode) (db : Database PickleDatabase.handle) :
  count_ret_code code db =
    (db, Return (Z.of_nat (sum_list_with (λ kv, counts code (hide_bool kv.2))
                             (map_to_list (database db))))).
Proof.
  unfold count_ret_code, bind. rewrite pickle_query_all_eq. unfold ret.
  by rewrite sum_counts, sum_list_with_fmap.
Qed.

Lemma redis_count_ret_code_eq (code : RetCode) (db : Database RedisDatabase.client) :
  (∀ key bs e, RedisDatabase.hget (env db) (db_id db) key = Some bs →
               pickle_loads bs = Raise e → e = ValueError) →
  ∃ l,
    count_ret_code code db =
      (set_log (log db ++ l) db,
       Return (Z.of_nat (sum_list_with (λ kv, counts code (item_slot (kv.1, Some kv.2)))
                           (map_to_list (RedisDatabase.hash_of (env db) (db_id db)))))).
Proof.
  intros Hval. destruct (redis_query_all_eq db Hval) as [l Hl].
  exists l. unfold count_ret_code, bind. rewrite Hl. unfold ret.
  by rewrite sum_counts, sum_list_with_fmap.
Qed.

End QueryAllFacts.

(** X11: [query_all] of a [PickleDatabase] returns the stored values that are
    neither [None] nor booleans, one for each key that holds such a value,
    and nothing else; so it can return fewer values than [count] counts
    keys, and it returns as many exactly when no stored value is [None] or
    a boolean.  Nothing is said of their order. *)
Theorem pickle_query_all_values `{Runtime} (db : Database PickleDatabase.handle) :
  ∃ values,
    query_all db = (db, Return values) ∧
    values ≡ₚ List.filter (λ v, is_not_None v && negb (isinstance_bool v))
                          (map_to_list (database db)).*2 ∧
    (∀ v, v ∈ values ↔
          v ≠ PyNone ∧ isinstance_bool v = false ∧ ∃ key, database db !! key = Some v) ∧
    Z.of_nat (length values) ≤ PickleDatabase.totalkeys (database db) ∧
    (Z.of_nat (length values) = PickleDatabase.totalkeys (database db) ↔
     ∀ key v, database db !! key = Some v → v ≠ PyNone ∧ isinstance_bool v = false).
Proof.
  eexists. split; [apply pickle_query_all_eq|].
  set (keep := λ v, is_not_None v && negb (isinstance_bool v)).
  assert (∀ l : list (string * pyobj),
            List.filter is_not_None (map (λ kv, hide_bool kv.2) l)
            = List.filter keep l.*2) as Hfilter.
  { induction l as [|[k v] l IH]; [done|].
    change (((k, v) :: l).*2) with (v :: l.*2).
    change (map (λ kv : string * pyobj, hide_bool kv.2) ((k, v) :: l))
      with (hide_bool v :: map (λ kv : string * pyobj, hide_bool kv.2) l).
    cbn [List.filter]. rewrite IH. by destruct v as [|b|s|r]. }
  rewrite Hfilter.
  assert (∀ v, keep v = true ↔ v ≠ PyNone ∧ isinstance_bool v = false) as Hkeep.
  { intros [|b|s|r]; unfold keep; simpl; split; try done; intros [? ?]; done. }
  assert (∀ v, v ∈ (map_to_list (database db)).*2 ↔ ∃ key, database db !! key = Some v)
    as Hvalues.
  { intros v. rewrite list_elem_of_fmap. split.
    - intros ([k v'] & -> & Hin). apply elem_of_map_to_list in Hin. by exists k.
    - intros [k Hk]. exists (k, v). split; [done|]. by apply elem_of_map_to_list. }
  unfold PickleDatabase.totalkeys.
  rewrite <-(length_map_to_list (database db)), <-(length_fmap snd (map_to_list (database db))).
  split_and!.
  - done.
  - intros v. rewrite list_elem_of_In, filter_In, <-list_elem_of_In, Hvalues, Hkeep. tauto.
  - apply inj_le, filter_length_le.
  - rewrite Nat2Z.inj_iff, filter_length_all, Forall_forall. split.
    + intros Hall key v Hv. apply Hkeep, Hall, Hvalues. by exists key.
    + intros Hall v Hv. apply Hvalues in Hv as [key Hkey]. apply Hkeep. by eapply Hall.
Qed.

Lemma counts_hide_bool (code : RetCode) (v : pyobj) :
  counts code (hide_bool v) = counts code v.
Proof. by destruct v. Qed.

(** X12: [count_ret_code] counts the keys under which a [Result] with the given
    return code is stored: a [commit] takes off what the value that the key
    held counted for, if it held one, and adds what the committed value
    counts for, one when it is a [Result] with that code and nothing
    otherwise.  In a [RedisDatabase] this holds when the pickle of the value
    loads back and no stored record raises anything but [ValueError].  The
    commit returns, unless the value is a [Result] and the put of its tuple
    in the best cache raises: [commit] then raises [RuntimeError], with the
    counts as said. *)
Theorem count_ret_code_after_commit `{Runtime} (key : string) (v : pyobj) (code : RetCode) :
  (∀ db : Database PickleDatabase.handle,
     ∃ n n1 db1,
       count_ret_code code db = (db, Return (Z.of_nat n)) ∧
       commit key v db = (db1, commit_end v db) ∧
       count_ret_code code db1 = (db1, Return (Z.of_nat n1)) ∧
       (n1 + match database db !! key with
             | Some v0 => counts code v0
             | None => 0
             end
        = n + counts code v)%nat) ∧
  (∀ db : Database RedisDatabase.client,
     (∀ k bs e, RedisDatabase.hget (env db) (db_id db) k = Some bs →
                pickle_loads bs = Raise e → e = ValueError) →
     pickle_loads (pickle_dumps v) = Return v →
     pickle_dumps v ≠ [] →
     ∃ n n1 db0 db1 db2,
       count_ret_code code db = (db0, Return (Z.of_nat n)) ∧
       commit key v db = (db1, commit_end v db) ∧
       count_ret_code code db1 = (db2, Return (Z.of_nat n1)) ∧
       (n1 + match RedisDatabase.hget (env db) (db_id db) key with
             | Some bs => counts code (item_slot (key, Some bs))
             | None => 0
             end
        = n + counts code v)%nat).
Proof.
  split.
  - intros db.
    destruct (pickle_commit_run key v db) as (db1 & Hrun & _ & _ & _ & Hdb).
    eexists _, _, db1. split; [apply pickle_count_ret_code_eq|].
    split; [exact Hrun|]. split; [apply pickle_count_ret_code_eq|].
    rewrite Hdb, sum_list_with_insert.
    rewrite (sum_list_with_lookup _ (database db) key). cbn [snd].
    rewrite counts_hide_bool.
    destruct (database db !! key) as [v0|]; [rewrite counts_hide_bool|]; lia.
  - intros db Hval Hrt Hne.
    destruct (redis_commit_hget key v db) as (db1 & Hrun & Hid & Hget).
    destruct (redis_count_ret_code_eq code db Hval) as [l Hl].
    destruct (redis_count_ret_code_eq code db1) as [l1 Hl1].
    { intros k bs e Hk Hloads. rewrite Hget in Hk.
      destruct (decide (k = key)) as [->|Hk']; [|by eapply Hval].
      injection Hk as <-. congruence. }
    eexists _, _, _, db1, _. split; [exact Hl|]. split; [exact Hrun|]. split; [exact Hl1|].
    assert (RedisDatabase.hash_of (env db1) (db_id db1)
            = <[key := pickle_dumps v]> (RedisDatabase.hash_of (env db) (db_id db))) as ->.
    { apply map_eq. intros k. specialize (Hget k). unfold RedisDatabase.hget in Hget.
      rewrite Hget. destruct (decide (k = key)) as [->|Hk'].
      - by rewrite lookup_insert_eq.
      - by rewrite lookup_insert_ne. }
    rewrite sum_list_with_insert.
    rewrite (sum_list_with_lookup _ (RedisDatabase.hash_of (env db) (db_id db)) key).
    cbn [fst snd]. unfold RedisDatabase.hget.
    assert (item_slot (key, Some (pickle_dumps v)) = v) as ->.
    { unfold item_slot. cbn [snd]. destruct (pickle_dumps v) as [|b bs] eqn:Hd; [done|].
      by rewrite Hrt. }
    destruct (RedisDatabase.hash_of (env db) (db_id db) !! key); lia.
Qed.

Lemma count_ret_code_after_commit_witness :
  let r := mkResult HLSResult_cls (Some "pt") 3 true Timeout None None in
  let rdb := @RedisDatabase.__init__ test_runtime "proj" 1 (Some "/work/result.db")
               empty_world in
  ∃ n1 db0 db1 db2,
    @count_ret_code _ (@RedisDatabase.backend test_runtime) Timeout rdb
      = (db0, Return 0) ∧
    @commit test_runtime _ (@RedisDatabase.backend test_runtime) "k" (PyResult r) rdb
      = (db1, Return ()) ∧
    @count_ret_code _ (@RedisDatabase.backend test_runtime) Timeout db1
      = (db2, Return (Z.of_nat n1)) ∧
    n1 = 1%nat.
Proof.
  intros r rdb.
  destruct (proj2 (@count_ret_code_after_commit test_runtime "k" (PyResult r) Timeout) rdb)
    as (n & n1 & db0 & db1 & db2 & Hn & Hrun & Hn1 & Hsum).
  - intros k bs e Hk Hloads. exfalso. revert Hk.
    unfold RedisDatabase.hget, RedisDatabase.hash_of. simpl. by rewrite lookup_empty.
  - apply test_pickle_round_trip.
  - apply test_pickle_not_empty.
  - exists n1, db0, db1, db2.
    assert (n = 0%nat) as ->.
    { vm_compute in Hn. injection Hn as _ Hn. by destruct n. }
    split_and!; try done. change (n1 + 0 = 0 + 1)%nat in Hsum. lia.
Defined.

(* ===================================================================== *)
(** * What load puts in the best cache and in the set of code hashes *)
(* ===================================================================== *)

Section InitContent.
Context `{Runtime} {B : Type} `{Backend B}.
Import PriorityQueue.

(** What [init_best_cache] leaves in the best cache. *)
Lemma init_best_cache_content (db db1 : Database B) (n : Z) (values : list pyobj) :
  count db = (db, Return n) →
  n ≠ 0 →
  query_all db = (db1, Return values) →
  let rs := List.filter valid (omap isinstance_HLSResult values) in
  ∃ db' cached o,
    init_best_cache db = (db', o) ∧
    ((o = Return () ∧ cached = rs) ∨ (o = Raise TypeError ∧ cached `prefix_of` rs)) ∧
    best_cache db' = put_each (stamp (clock_reads (env db1)) cached) (best_cache db1) ∧
    outside_cache db' = outside_cache db1 ∧
    (Inj (=) (=) time_at → stamped_before (clock_reads (env db1)) (best_cache db1) →
     o = Return ()).
Proof.
  intros Hn Hne Hq rs. rewrite (init_best_cache_eq _ _ _ _ Hn Hne Hq).
  destruct (for_each_put_results rs db1)
    as (db2 & cached & o & Hrun & Ho & Hcache & _ & Hout & Hret).
  by exists db2, cached, o.
Qed.

End InitContent.

(** [None] and the booleans are instances of none of the result classes. *)
Lemma omap_readable (f : pyobj → option Result) (l : list (string * pyobj)) :
  f PyNone = None →
  (∀ b, f (PyBool b) = None) →
  omap f (List.filter is_not_None (map (λ kv, hide_bool kv.2) l)) = omap f l.*2.
Proof.
  intros Hnone Hbool. induction l as [|[k v] l IH]; [done|].
  change (((k, v) :: l).*2) with (v :: l.*2).
  change (map (λ kv : string * pyobj, hide_bool kv.2) ((k, v) :: l))
    with (hide_bool v :: map (λ kv : string * pyobj, hide_bool kv.2) l).
  cbn [List.filter].
  destruct v as [|b|s|r]; cbn [hide_bool isinstance_bool is_not_None].
  - change (omap f (PyNone :: l.*2)) with (from_option (λ y, y :: omap f l.*2) (omap f l.*2) (f PyNone)).
    by rewrite Hnone.
  - change (omap f (PyBool b :: l.*2))
      with (from_option (λ y, y :: omap f l.*2) (omap f l.*2) (f (PyBool b))).
    by rewrite Hbool.
  - change (omap f (PyStr s :: ?t)) with (from_option (λ y, y :: omap f t) (omap f t) (f (PyStr s))).
    by rewrite IH.
  - change (omap f (PyResult r :: ?t))
      with (from_option (λ y, y :: omap f t) (omap f t) (f (PyResult r))).
    by rewrite IH.
Qed.

Section PickleLoad.
Context `{Runtime}.
Import PriorityQueue.

(** The two initializations on a [PickleDatabase]. *)
Lemma pickle_init_caches (db : Database PickleDatabase.handle) :
  let rs := List.filter valid (omap isinstance_HLSResult (map_to_list (database db)).*2) in
  ∃ db' cached o,
    (init_best_cache ;; init_code_hash_set) db = (db', o) ∧
    database db' = database db ∧
    log db' = log db ∧
    best_cache db' = put_each (stamp (clock_reads (env db)) cached) (best_cache db) ∧
    ((o = Return () ∧ cached = rs ∧
      code_hash_set db' =
        list_to_set (omap code_hash (omap isinstance_MerlinResult
                                       (map_to_list (database db)).*2))
          ∪ code_hash_set db) ∨
     (o = Raise TypeError ∧ cached `prefix_of` rs ∧ code_hash_set db' = code_hash_set db)) ∧
    (Inj (=) (=) time_at → stamped_before (clock_reads (env db)) (best_cache db) →
     o = Return ()).
Proof.
  intros rs.
  assert (∀ d : Database PickleDatabase.handle,
            count d = (d, Return (Z.of_nat (size (database d))))) as Hcount by reflexivity.
  destruct (decide (size (database db) = 0%nat)) as [Hz|Hnz].
  - exists db, [], (Return ()). unfold bind.
    rewrite init_best_cache_empty by (by rewrite Hcount, Hz).
    rewrite init_code_hash_set_empty by (by rewrite Hcount, Hz).
    apply map_size_empty_iff in Hz. unfold rs. rewrite Hz, map_to_list_empty. simpl.
    split_and!; try done. left. split_and!; try done. by rewrite (left_id_L ∅ (∪)).
  - destruct (init_best_cache_content db db (Z.of_nat (size (database db)))
                (List.filter is_not_None
                   (map (λ kv, hide_bool kv.2) (map_to_list (database db)))))
      as (db1 & cached & o & Hrun & Ho & Hcache & Hout & Hret);
      [apply Hcount|lia|apply pickle_query_all_eq|].
    rewrite omap_readable in Ho by done. fold rs in Ho.
    apply outside_cache_eq in Hout as (_ & _ & _ & Hset & Hdb & Hlog & _).
    unfold bind. rewrite Hrun. destruct Ho as [[-> ->]|[-> Hpre]].
    + exists (set_code_hash_set
                (list_to_set (omap code_hash (omap isinstance_MerlinResult
                                                (map_to_list (database db)).*2))
                   ∪ code_hash_set db) db1), rs, (Return ()).
      rewrite (init_code_hash_set_content db1 db1 (Z.of_nat (size (database db1)))
                 (List.filter is_not_None
                    (map (λ kv, hide_bool kv.2) (map_to_list (database db1)))));
        [|apply Hcount|rewrite Hdb; lia|apply pickle_query_all_eq].
      rewrite Hdb, Hset. rewrite omap_readable by done.
      split_and!; try done. by left.
    + exists db1, cached, (Raise TypeError). split_and!; try done. by right.
Qed.

Lemma pickle_load_content (db : Database PickleDatabase.handle) (stored : gmap string pyobj) :
  (∀ v, jsonpickle_decode (jsonpickle_encode v) = Return v) →
  database db = (λ v, PyStr (jsonpickle_encode v)) <$> stored →
  let rs := List.filter valid (omap isinstance_HLSResult (map_to_list stored).*2) in
  ∃ db' cached o,
    PickleDatabase.load db = (db', o) ∧
    database db' = stored ∧
    best_cache db' = put_each (stamp (clock_reads (env db)) cached) (best_cache db) ∧
    ((o = Return () ∧ cached = rs ∧
      code_hash_set db' =
        list_to_set (omap code_hash (omap isinstance_MerlinResult (map_to_list stored).*2))
          ∪ code_hash_set db) ∨
     (o = Raise TypeError ∧ cached `prefix_of` rs ∧ code_hash_set db' = code_hash_set db)) ∧
    (Inj (=) (=) time_at → stamped_before (clock_reads (env db)) (best_cache db) →
     o = Return ()).
Proof.
  intros Hrt Hdb rs. rewrite (pickle_load_decoded stored db Hrt Hdb).
  set (db1 := set_log _ _).
  destruct (pickle_init_caches db1) as (db' & cached & o & Hinit & Hd & _ & Hcache & Ho & Hret).
  exists db', cached, o. split; [exact Hinit|]. split_and!; done.
Qed.

End PickleLoad.

Section RedisLoad.
Context `{Runtime}.
Import PriorityQueue.

Lemma redis_query_all_stored (db : Database RedisDatabase.client)
    (stored : gmap string pyobj) :
  (∀ v, pickle_loads (pickle_dumps v) = Return v) →
  (∀ v, pickle_dumps v ≠ []) →
  RedisDatabase.hash_of (env db) (db_id db) = pickle_dumps <$> stored →
  ∃ l,
    query_all db =
      (set_log (log db ++ l) db,
       Return (List.filter is_not_None (map_to_list stored).*2)).
Proof.
  intros Hrt Hne Hhash.
  destruct (redis_query_all_eq db) as [l Hl].
  { intros key bs e Hget Hloads. unfold RedisDatabase.hget in Hget.
    rewrite Hhash, lookup_fmap in Hget. destruct (stored !! key) as [v|]; [|done].
    injection Hget as <-. congruence. }
  exists l. rewrite Hl, Hhash, map_to_list_fmap. do 3 f_equal.
  rewrite <-list_fmap_compose. apply list_fmap_ext. intros i [k v] _. simpl.
  unfold item_slot. simpl. specialize (Hne v).
  destruct (pickle_dumps v) as [|b bs] eqn:Hd; [done|]. by rewrite <-Hd, Hrt.
Qed.

Lemma omap_not_None (f : pyobj → option Result) (values : list pyobj) :
  f PyNone = None →
  omap f (List.filter is_not_None values) = omap f values.
Proof.
  intros Hnone. induction values as [|v values IH]; [done|].
  cbn [List.filter].
  change (omap f (v :: values))
    with (from_option (λ y, y :: omap f values) (omap f values) (f v)).
  destruct v as [|b|s|r]; cbn [is_not_None].
  - by rewrite Hnone.
  - change (omap f (PyBool b :: ?t))
      with (from_option (λ y, y :: omap f t) (omap f t) (f (PyBool b))). by rewrite IH.
  - change (omap f (PyStr s :: ?t))
      with (from_option (λ y, y :: omap f t) (omap f t) (f (PyStr s))). by rewrite IH.
  - change (omap f (PyResult r :: ?t))
      with (from_option (λ y, y :: omap f t) (omap f t) (f (PyResult r))). by rewrite IH.
Qed.

(** The two initializations on a [RedisDatabase] whose records load. *)
Lemma redis_init_caches (db : Database RedisDatabase.client) (stored : gmap string pyobj) :
  (∀ v, pickle_loads (pickle_dumps v) = Return v) →
  (∀ v, pickle_dumps v ≠ []) →
  RedisDatabase.hash_of (env db) (db_id db) = pickle_dumps <$> stored →
  let rs := List.filter valid (omap isinstance_HLSResult (map_to_list stored).*2) in
  ∃ db' cached o,
    (init_best_cache ;; init_code_hash_set) db = (db', o) ∧
    db_id db' = db_id db ∧
    redis (env db') = redis (env db) ∧
    best_cache db' = put_each (stamp (clock_reads (env db)) cached) (best_cache db) ∧
    ((o = Return () ∧ cached = rs ∧
      code_hash_set db' =
        list_to_set (omap code_hash (omap isinstance_MerlinResult (map_to_list stored).*2))
          ∪ code_hash_set db) ∨
     (o = Raise TypeError ∧ cached `prefix_of` rs ∧ code_hash_set db' = code_hash_set db)) ∧
    (Inj (=) (=) time_at → stamped_before (clock_reads (env db)) (best_cache db) →
     o = Return ()).
Proof.
  intros Hrt Hne Hhash rs.
  assert (∀ d : Database RedisDatabase.client,
            RedisDatabase.hash_of (env d) (db_id d) = pickle_dumps <$> stored →
            count d = (d, Return (Z.of_nat (size stored)))) as Hcount.
  { intros d Hd. change (count d) with (RedisDatabase.count d).
    unfold RedisDatabase.count, RedisDatabase.hkeys.
    by rewrite Hd, length_fmap, length_map_to_list, map_size_fmap. }
  destruct (decide (size stored = 0%nat)) as [Hz|Hnz].
  - exists db, [], (Return ()). unfold bind.
    rewrite init_best_cache_empty by (by rewrite Hcount, Hz).
    rewrite init_code_hash_set_empty by (by rewrite Hcount, Hz).
    apply map_size_empty_iff in Hz. unfold rs. rewrite Hz, map_to_list_empty. simpl.
    split_and!; try done. left. split_and!; try done. by rewrite (left_id_L ∅ (∪)).
  - destruct (redis_query_all_stored db stored Hrt Hne Hhash) as [l Hl].
    destruct (init_best_cache_content db _ _ _ (Hcount db Hhash) ltac:(lia) Hl)
      as (db1 & cached & o & Hrun & Ho & Hcache & Hout & Hret).
    rewrite omap_not_None in Ho by done. fold rs in Ho.
    apply outside_cache_eq in Hout as (Hid & _ & _ & Hset & _ & _ & _ & Hredis & _).
    cbn [db_id set_log code_hash_set env best_cache] in *.
    assert (RedisDatabase.hash_of (env db1) (db_id db1) = pickle_dumps <$> stored) as Hhash1.
    { unfold RedisDatabase.hash_of in *. by rewrite Hredis, Hid. }
    unfold bind. rewrite Hrun. destruct Ho as [[-> ->]|[-> Hpre]].
    + destruct (redis_query_all_stored db1 stored Hrt Hne Hhash1) as [l1 Hl1].
      eexists _, rs, (Return ()).
      rewrite (init_code_hash_set_content db1 _ _ _ (Hcount db1 Hhash1) ltac:(lia) Hl1).
      cbn [db_id set_log set_code_hash_set code_hash_set env best_cache].
      rewrite Hset. rewrite omap_not_None by done.
      split_and!; try done. by left.
    + exists db1, cached, (Raise TypeError). split_and!; try done. by right.
Qed.

Lemma redis_load_content (db : Database RedisDatabase.client) (data : gmap string bytes)
    (stored : gmap string pyobj) :
  (∀ v, pickle_loads (pickle_dumps v) = Return v) →
  (∀ v, pickle_dumps v ≠ []) →
  files (env db) !! db_file_path db = Some (PickleFile data) →
  data ≠ ∅ →
  data ∪ RedisDatabase.hash_of (env db) (db_id db) = pickle_dumps <$> stored →
  let rs := List.filter valid (omap isinstance_HLSResult (map_to_list stored).*2) in
  ∃ db' cached o,
    RedisDatabase.load db = (db', o) ∧
    RedisDatabase.hash_of (env db') (db_id db') = pickle_dumps <$> stored ∧
    best_cache db' = put_each (stamp (clock_reads (env db)) cached) (best_cache db) ∧
    ((o = Return () ∧ cached = rs ∧
      code_hash_set db' =
        list_to_set (omap code_hash (omap isinstance_MerlinResult (map_to_list stored).*2))
          ∪ code_hash_set db) ∨
     (o = Raise TypeError ∧ cached `prefix_of` rs ∧ code_hash_set db' = code_hash_set db)) ∧
    (Inj (=) (=) time_at → stamped_before (clock_reads (env db)) (best_cache db) →
     o = Return ()).
Proof.
  intros Hrt Hne Hfile Hdata Hmerged rs.
  unfold RedisDatabase.load. unfold bind at 1.
  rewrite (redis_load_file_eq db data Hfile). cbn zeta. rewrite decide_False by done.
  set (db1 := set_env _ _).
  assert (RedisDatabase.hash_of (env db1) (db_id db1) = pickle_dumps <$> stored) as Hhash.
  { unfold db1. cbn [env db_id set_env set_log].
    rewrite redis_hash_of_merged, decide_True by done. exact Hmerged. }
  destruct (redis_init_caches db1 stored Hrt Hne Hhash)
    as (db' & cached & o & Hinit & Hid & Hredis & Hcache & Ho & Hret).
  exists db', cached, o. split; [exact Hinit|]. split_and!; try done.
  unfold RedisDatabase.hash_of in *. by rewrite Hredis, Hid.
Qed.

End RedisLoad.

(** X13: What [load] restores.  When the serializers give back what they were
    given and the records at hand are the serialized values of [stored],
    [load] leaves [stored] in the store and puts in the best cache one
    tuple for every stored value that is a valid instance of [HLSResult],
    and for no other, however many the bound allows: in some order of
    these results, each tuple has the quality of its result and, as its
    timestamp, the next reading of the clock.  [load] returns when no two
    readings of the clock agree and the queue was stamped before; the set
    of code hashes has then gained the hash of every stored instance of
    [MerlinResult] that has one.  Otherwise a put can raise [TypeError],
    which ends [load] with the tuples put so far in the cache and the set
    of code hashes as it was.  A [commit] caches any [Result]; a [load] does
    not cache the ones that are no [HLSResult]. *)
Theorem load_restores_caches `{Runtime} (stored : gmap string pyobj) :
  (∀ (db : Database RedisDatabase.client) (data : gmap string bytes),
     (∀ v, pickle_loads (pickle_dumps v) = Return v) →
     (∀ v, pickle_dumps v ≠ []) →
     files (env db) !! db_file_path db = Some (PickleFile data) →
     data ≠ ∅ →
     data ∪ RedisDatabase.hash_of (env db) (db_id db) = pickle_dumps <$> stored →
     ∃ db' o rs cached,
       RedisDatabase.load db = (db', o) ∧
       RedisDatabase.hash_of (env db') (db_id db') = pickle_dumps <$> stored ∧
       rs ≡ₚ List.filter valid (omap isinstance_HLSResult (map_to_list stored).*2) ∧
       best_cache db' = put_each (stamp (clock_reads (env db)) cached) (best_cache db) ∧
       ((o = Return () ∧ cached = rs ∧
         code_hash_set db' =
           list_to_set (omap code_hash
                          (omap isinstance_MerlinResult (map_to_list stored).*2))
             ∪ code_hash_set db) ∨
        (o = Raise TypeError ∧ cached `prefix_of` rs ∧
         code_hash_set db' = code_hash_set db)) ∧
       (Inj (=) (=) time_at → stamped_before (clock_reads (env db)) (best_cache db) →
        o = Return ())) ∧
  (∀ db : Database PickleDatabase.handle,
     (∀ v, jsonpickle_decode (jsonpickle_encode v) = Return v) →
     database db = (λ v, PyStr (jsonpickle_encode v)) <$> stored →
     ∃ db' o rs cached,
       PickleDatabase.load db = (db', o) ∧
       database db' = stored ∧
       rs ≡ₚ List.filter valid (omap isinstance_HLSResult (map_to_list stored).*2) ∧
       best_cache db' = put_each (stamp (clock_reads (env db)) cached) (best_cache db) ∧
       ((o = Return () ∧ cached = rs ∧
         code_hash_set db' =
           list_to_set (omap code_hash
                          (omap isinstance_MerlinResult (map_to_list stored).*2))
             ∪ code_hash_set db) ∨
        (o = Raise TypeError ∧ cached `prefix_of` rs ∧
         code_hash_set db' = code_hash_set db)) ∧
       (Inj (=) (=) time_at → stamped_before (clock_reads (env db)) (best_cache db) →
        o = Return ())).
Proof.
  split.
  - intros db data Hrt Hne Hfile Hdata Hmerged.
    destruct (redis_load_content db data stored Hrt Hne Hfile Hdata Hmerged)
      as (db' & cached & o & ? & ? & ? & ? & ?).
    by exists db', o, (List.filter valid (omap isinstance_HLSResult (map_to_list stored).*2)),
         cached.
  - intros db Hrt Hdb.
    destruct (pickle_load_content db stored Hrt Hdb) as (db' & cached & o & ? & ? & ? & ? & ?).
    by exists db', o, (List.filter valid (omap isinstance_HLSResult (map_to_list stored).*2)),
         cached.
Qed.

Lemma load_restores_caches_witness :
  let merlin := result_of MerlinResult_cls "p0" 7 true (Some "h1") in
  let hls := result_of HLSResult_cls "p1" 5 true None in
  let bad := result_of HLSResult_cls "p2" 9 false None in
  let stored : gmap string pyobj :=
    {[ "k0" := PyResult merlin; "k1" := PyResult hls; "k2" := PyResult bad ]} in
  let w := mkWorld {[ "/work/result.db" :=
                        PickleFile (@pickle_dumps test_runtime <$> stored) ]} ∅ "/work" 0 in
  let db := @RedisDatabase.__init__ test_runtime "proj" 1 (Some "/work/result.db") w in
  ∃ db',
    @RedisDatabase.load test_runtime db = (db', Return ()) ∧
    best_cache db' = [entry_of 1 hls] ∧
    code_hash_set db' = {["h1"]}.
Proof.
  intros merlin hls bad stored w db.
  destruct (proj1 (@load_restores_caches test_runtime stored) db
              (@pickle_dumps test_runtime <$> stored))
    as (db' & o & rs & cached & Hload & _ & Hperm & Hcache & Ho & Hret).
  - apply test_pickle_round_trip.
  - apply test_pickle_not_empty.
  - reflexivity.
  - by vm_compute.
  - by vm_compute.
  - rewrite (Hret test_clock_inj) in * by constructor.
    destruct Ho as [(_ & -> & Hset)|(? & _)]; [|done].
    exists db'. split; [exact Hload|].
    assert (rs = [hls]) as ->.
    { apply Permutation_singleton_r. rewrite Hperm. by vm_compute. }
    split; [exact Hcache|]. rewrite Hset. by vm_compute.
Defined.

(* ===================================================================== *)
(** * persist, the first run, a broken record, and the teardown *)
(* ===================================================================== *)

Lemma sum_list_with_zero {A} (f : A → nat) (l : list A) :
  Forall (λ x, f x = 0%nat) l → sum_list_with f l = 0%nat.
Proof. induction 1 as [|x l Hx _ IH]; [done|]. simpl. by rewrite Hx, IH. Qed.

(** X14: [persist] of a [PickleDatabase] leaves the object with the encoded
    strings in place of its values, whether or not the file can be written:
    after it, [query] returns for every key the string that encodes the
    value the key held, no stored value is a [Result] any more, so that
    [count_ret_code] is zero for every code, and the best cache is as it
    was.  Where the directory of the file exists, [persist] writes the file
    and returns [True]; where it is missing, [persist] raises
    [FileNotFoundError] and writes nothing. *)
Theorem pickle_persist_leaves_strings `{Runtime} (db : Database PickleDatabase.handle) :
  ∃ db' o,
    PickleDatabase.persist db = (db', o) ∧
    (files (env db) !! db_file_path db ≠ Some MissingDirectory →
     o = Return true ∧
     files (env db') !! db_file_path db'
       = Some (JsonFile (jsonpickle_encode <$> database db))) ∧
    (files (env db) !! db_file_path db = Some MissingDirectory →
     o = Raise FileNotFoundError ∧ env db' = env db) ∧
    (∀ key, PickleDatabase.query key db' =
              (db', Return (match database db !! key with
                            | Some v => PyStr (jsonpickle_encode v)
                            | None => PyNone
                            end))) ∧
    (∀ code, count_ret_code code db' = (db', Return 0)) ∧
    best_cache db' = best_cache db.
Proof.
  assert (∀ db' : Database PickleDatabase.handle,
            database db' = (λ v, PyStr (jsonpickle_encode v)) <$> database db →
            (∀ key, PickleDatabase.query key db' =
                      (db', Return (match database db !! key with
                                    | Some v => PyStr (jsonpickle_encode v)
                                    | None => PyNone
                                    end))) ∧
            (∀ code, count_ret_code code db' = (db', Return 0))) as Hstrings.
  { intros db' Hdb. split.
    - intros key. rewrite pickle_query_eq. unfold pickle_slot, PickleDatabase.get.
      rewrite Hdb, lookup_fmap. by destruct (database db !! key).
    - intros code. rewrite pickle_count_ret_code_eq.
      rewrite Hdb, sum_list_with_zero; [done|].
      apply Forall_forall. intros [k v] Hin. apply elem_of_map_to_list in Hin.
      rewrite lookup_fmap in Hin. destruct (database db !! k); [|done].
      by injection Hin as <-. }
  assert (files (env db) !! db_file_path db = Some MissingDirectory ∨
          files (env db) !! db_file_path db ≠ Some MissingDirectory) as [Hdir|Hdir]
    by (destruct (files (env db) !! db_file_path db) as [[| | |]|]; auto).
  - eexists _, _. split; [by apply pickle_persist_missing|].
    split; [done|]. split; [done|].
    destruct (Hstrings (set_database ((λ v, PyStr (jsonpickle_encode v)) <$> database db) db))
      as [Hq Hc]; done.
  - eexists _, _. split; [by apply pickle_persist_run|].
    split.
    { intros _. split; [done|].
      cbn [env files db_file_path set_env set_files set_database]. by rewrite lookup_insert_eq. }
    split; [done|].
    match goal with |- (∀ key, PickleDatabase.query key ?d = _) ∧ _ =>
      destruct (Hstrings d) as [Hq Hc]; done
    end.
Qed.

(** X15: The first run, with no file at the path of the database: [load] of a
    [RedisDatabase] whose hash holds nothing returns and changes nothing,
    not even the log; the constructor of a [PickleDatabase] makes an empty
    store, and its [load] returns having logged that it loaded no data, and
    changes nothing else. *)
Theorem first_run_load `{Runtime} (name : string) (cache_size : Z) (path : string)
    (w : World) :
  files w !! path = None →
  (let db := RedisDatabase.__init__ name cache_size (Some path) w in
   RedisDatabase.hash_of w (db_id db) = ∅ →
   RedisDatabase.load db = (db, Return ())) ∧
  (∃ db,
     PickleDatabase.__init__ name cache_size (Some path) w = (db, Return ()) ∧
     database db = ∅ ∧
     PickleDatabase.load db =
       (set_log [mkLog INFO "Load %d data from an existing database" ["0"]] db, Return ())).
Proof.
  intros Hfile. split.
  - intros db Hhash.
    assert (count db = (db, Return 0)) as Hcount.
    { change (count db) with (RedisDatabase.count db).
      unfold RedisDatabase.count, RedisDatabase.hkeys.
      change (RedisDatabase.hash_of (env db) (db_id db))
        with (RedisDatabase.hash_of w (db_id db)).
      by rewrite Hhash, map_to_list_empty. }
    unfold RedisDatabase.load, bind, RedisDatabase.load_file.
    change (files (env db) !! db_file_path db) with (files w !! path). rewrite Hfile.
    rewrite init_best_cache_empty by done. by rewrite init_code_hash_set_empty.
  - eexists. split.
    { unfold PickleDatabase.__init__, PickleDatabase.pickledb_load.
      change (files (env (Database__init__ name cache_size (Some path) ∅ w))
                !! db_file_path (Database__init__ name cache_size (Some path) ∅ w))
        with (files w !! path).
      rewrite Hfile. reflexivity. }
    split; [reflexivity|].
    unfold PickleDatabase.load. unfold bind at 1. unfold bind at 1.
    cbn [database set_database]. unfold PickleDatabase.getall.
    rewrite map_to_list_empty. cbn [fmap list_fmap PickleDatabase.load_loop].
    unfold ret at 1. unfold bind at 1.
    change (count ?d) with (PickleDatabase.count d).
    unfold PickleDatabase.count at 1, log_call.
    unfold bind.
    rewrite init_best_cache_empty by reflexivity.
    by rewrite init_code_hash_set_empty by reflexivity.
Qed.

Lemma first_run_load_witness :
  (let db := @RedisDatabase.__init__ test_runtime "proj" 1 (Some "/work/result.db")
               empty_world in
   @RedisDatabase.load test_runtime db = (db, Return ())) ∧
  (∃ db,
     @PickleDatabase.__init__ test_runtime "proj" 1 (Some "/work/result.db") empty_world
       = (db, Return ()) ∧
     database db = ∅ ∧
     @PickleDatabase.load test_runtime db =
       (set_log [mkLog INFO "Load %d data from an existing database" ["0"]] db, Return ())).
Proof.
  destruct (@first_run_load test_runtime "proj" 1 "/work/result.db" empty_world)
    as [Hredis Hpickle]; [reflexivity|].
  split; [|exact Hpickle]. apply Hredis. reflexivity.
Defined.

Section BrokenLoad.
Context `{Runtime}.

(** The loop of [load] on strings of which one does not decode. *)
Lemma pickle_load_loop_fails (ks : list string) (db : Database PickleDatabase.handle)
    (key : string) :
  NoDup ks →
  (∀ k, k ∈ ks → ∃ s, database db !! k = Some (PyStr s) ∧
                      ∀ e, jsonpickle_decode s = Raise e → e = ValueError) →
  key ∈ ks →
  (∀ s, database db !! key = Some (PyStr s) → jsonpickle_decode s = Raise ValueError) →
  ∃ db',
    PickleDatabase.load_loop ks db = (db', Raise ValueError) ∧
    log db' = log db ∧ best_cache db' = best_cache db ∧
    code_hash_set db' = code_hash_set db.
Proof.
  revert db. induction ks as [|k ks IH]; intros db Hnd Hstr Hkey Hbad;
    [by apply elem_of_nil in Hkey|].
  apply NoDup_cons in Hnd as [Hk Hnd].
  cbn [PickleDatabase.load_loop].
  destruct (Hstr k) as (s & Hs & Hval); [by left|].
  unfold PickleDatabase.get. rewrite Hs. simpl.
  destruct (jsonpickle_decode s) as [obj|e] eqn:Hdec.
  - assert (key ≠ k) as Hne.
    { intros ->. specialize (Hbad s Hs). congruence. }
    destruct (IH (set_database (PickleDatabase.set k obj (database db)) db) Hnd)
      as (db' & Hrun & Hlog & Hcache & Hset).
    + intros k' Hk'. destruct (Hstr k') as (s' & Hs' & Hval'); [by right|].
      exists s'. split; [|done]. cbn [database set_database]. unfold PickleDatabase.set.
      rewrite lookup_insert_ne; [done|]. by intros ->.
    + apply elem_of_cons in Hkey as [?|?]; done.
    + intros s'. cbn [database set_database]. unfold PickleDatabase.set.
      rewrite lookup_insert_ne by done. apply Hbad.
    + exists db'. split; [exact Hrun|done].
  - rewrite (Hval e) by done. by exists db.
Qed.

End BrokenLoad.

(** X16: [load] of a [PickleDatabase] is all or nothing: when the store holds
    strings, as it does after the constructor has read a file, and one of
    them makes [jsonpickle.decode] raise [ValueError], [load] logs an error
    and raises [RuntimeError], whatever the other records are, and neither
    the best cache nor the set of code hashes has been initialized. *)
Theorem pickle_load_fails_on_broken_record `{Runtime} (db : Database PickleDatabase.handle)
    (key : string) (s : string) :
  (∀ k v, database db !! k = Some v →
          ∃ s', v = PyStr s' ∧ ∀ e, jsonpickle_decode s' = Raise e → e = ValueError) →
  database db !! key = Some (PyStr s) →
  jsonpickle_decode s = Raise ValueError →
  ∃ db',
    PickleDatabase.load db = (db', Raise RuntimeError) ∧
    log db' = log db ++ [mkLog ERROR "Failed to load the data from the database: %s" []] ∧
    best_cache db' = best_cache db ∧
    code_hash_set db' = code_hash_set db.
Proof.
  intros Hstr Hkey Hbad.
  destruct (pickle_load_loop_fails (PickleDatabase.getall (database db)) db key)
    as (db1 & Hrun & Hlog & Hcache & Hset).
  - apply NoDup_getall.
  - intros k Hk. apply elem_of_getall in Hk as [v Hv].
    destruct (Hstr k v Hv) as (s' & -> & Hval). by exists s'.
  - apply elem_of_getall. by eexists.
  - intros s' Hs'. rewrite Hkey in Hs'. by injection Hs' as <-.
  - unfold PickleDatabase.load. unfold bind at 1. unfold bind at 1. rewrite Hrun.
    cbn [is_ValueError]. unfold bind, log_call, raise.
    eexists. split; [reflexivity|]. cbn [log set_log best_cache code_hash_set].
    by rewrite Hlog, Hcache, Hset.
Qed.

Lemma pickle_load_fails_on_broken_record_witness :
  let w := mkWorld {[ "/work/result.db" :=
                        JsonFile {[ "k" := "{broken";
                                    "ok" := @jsonpickle_encode test_runtime (PyBool true) ]} ]}
             ∅ "/work" 0 in
  let db := (@PickleDatabase.__init__ test_runtime "proj" 1 (Some "/work/result.db") w).1 in
  ∃ db',
    @PickleDatabase.load test_runtime db = (db', Raise RuntimeError) ∧
    log db' = log db ++ [mkLog ERROR "Failed to load the data from the database: %s" []] ∧
    best_cache db' = best_cache db ∧
    code_hash_set db' = code_hash_set db.
Proof.
  intros w db.
  apply (@pickle_load_fails_on_broken_record test_runtime db "k" "{broken").
  - intros k v Hv.
    assert (database db = PyStr <$> ({[ "k" := "{broken";
              "ok" := @jsonpickle_encode test_runtime (PyBool true) ]} : gmap string string))
      as Hdb by reflexivity.
    rewrite Hdb, lookup_fmap in Hv.
    destruct (({[ "k" := "{broken"; "ok" := @jsonpickle_encode test_runtime (PyBool true) ]}
               : gmap string string) !! k) as [s'|] eqn:Hk; [|done].
    injection Hv as <-. exists s'. split; [done|].
    intros e. simpl. destruct (pos_of_text s' ≫= decode); [done|]. by intros [= <-].
  - reflexivity.
  - reflexivity.
Defined.

(* ===================================================================== *)
(** * The hash of an object in the server *)
(* ===================================================================== *)

Section RedisHash.
Context `{Runtime}.

Lemma redis_hash_of_delete (w : World) (name name' : string) :
  RedisDatabase.hash_of (RedisDatabase.delete name w) name' =
    if decide (name' = name) then ∅ else RedisDatabase.hash_of w name'.
Proof.
  unfold RedisDatabase.hash_of, RedisDatabase.delete. simpl.
  destruct (decide (name' = name)) as [->|Hne].
  - by rewrite lookup_delete_eq.
  - by rewrite lookup_delete_ne.
Qed.

Lemma redis_query_empty (key : string) (db : Database RedisDatabase.client) :
  RedisDatabase.hash_of (env db) (db_id db) = ∅ →
  RedisDatabase.query key db = (db, Return PyNone).
Proof.
  intros Hhash. apply redis_query_missing. unfold RedisDatabase.hget. by rewrite Hhash.
Qed.

End RedisHash.

(** X17: The teardown of a [RedisDatabase] deletes the hash of the object and
    no other: after [persist] and [__del__] the object finds no key and
    counts none, and the hashes of other names are as they were.  Where the
    file could be written it still holds the dump: when the hash held a
    record, the [load] of a new object, of the same name and second or of a
    name whose hash is empty, restores the hash that was deleted, provided
    its records load, and returns, or raises the [TypeError] of a put once
    the hash is restored; when the hash held none, that [load] raises
    [DataError].  Where the directory of the file is missing, [persist]
    raises [FileNotFoundError] and writes nothing, so that the teardown
    loses the records. *)
Theorem redis_teardown_after_persist `{Runtime} (db : Database RedisDatabase.client)
    (name' : string) (cache_size' : Z) :
  let old2 := (RedisDatabase.persist db).1 in
  let old3 := (RedisDatabase.__del__ old2).1 in
  let new0 := RedisDatabase.__init__ name' cache_size' (Some (db_file_path db)) (env old3) in
  (∀ key, RedisDatabase.query key old3 = (old3, Return PyNone)) ∧
  RedisDatabase.count old3 = (old3, Return 0) ∧
  (∀ name, name ≠ db_id db →
           RedisDatabase.hash_of (env old3) name = RedisDatabase.hash_of (env db) name) ∧
  (files (env db) !! db_file_path db ≠ Some MissingDirectory →
   (RedisDatabase.persist db).2 = Return true ∧
   (RedisDatabase.hash_of (env db) (db_id db) = ∅ →
    (RedisDatabase.load new0).2 = Raise DataError) ∧
   (RedisDatabase.hash_of (env db) (db_id db) ≠ ∅ →
    (∀ key bs, RedisDatabase.hget (env db) (db_id db) key = Some bs →
               ∃ v, pickle_loads bs = Return v) →
    db_id new0 = db_id db ∨ RedisDatabase.hash_of (env db) (db_id new0) = ∅ →
    ∃ new1 o,
      RedisDatabase.load new0 = (new1, o) ∧
      (o = Return () ∨ o = Raise TypeError) ∧
      (Inj (=) (=) time_at → o = Return ()) ∧
      db_id new1 = db_id new0 ∧
      RedisDatabase.hash_of (env new1) (db_id new1)
      = RedisDatabase.hash_of (env db) (db_id db))) ∧
  (files (env db) !! db_file_path db = Some MissingDirectory →
   RedisDatabase.persist db = (db, Raise FileNotFoundError) ∧
   files (env old3) = files (env db)).
Proof.
  intros old2 old3 new0.
  assert (redis (env old2) = redis (env db) ∧ db_id old2 = db_id db) as [Hredis2 Hid2].
  { unfold old2, RedisDatabase.persist.
    by destruct (files (env db) !! db_file_path db) as [[| | |]|]. }
  assert (∀ name, RedisDatabase.hash_of (env old3) name =
                    if decide (name = db_id db) then ∅
                    else RedisDatabase.hash_of (env db) name) as Hhash.
  { intros name. unfold old3, RedisDatabase.__del__. cbn [fst env set_env].
    rewrite redis_hash_of_delete, Hid2. unfold RedisDatabase.hash_of. by rewrite Hredis2. }
  assert (db_id old3 = db_id db) as Hid by done.
  split_and!.
  - intros key. apply redis_query_empty. by rewrite Hid, Hhash, decide_True.
  - unfold RedisDatabase.count, RedisDatabase.hkeys.
    by rewrite Hid, Hhash, decide_True, map_to_list_empty.
  - intros name Hne. by rewrite Hhash, decide_False.
  - intros Hdir. pose proof (redis_persist_run db Hdir) as Hpersist.
    assert (files (env new0) !! db_file_path new0
            = Some (PickleFile (RedisDatabase.hash_of (env db) (db_id db)))) as Hfile.
    { unfold new0, old3, old2, RedisDatabase.__del__. rewrite Hpersist.
      simpl. by rewrite lookup_insert_eq. }
    split; [by rewrite Hpersist|]. split.
    + intros Hnone. rewrite Hnone in Hfile. by rewrite (redis_load_empty_dump new0 Hfile).
    + intros Hsome Hloads Hnew.
      assert (RedisDatabase.hash_of (env new0) (db_id new0) = ∅) as Hempty.
      { change (RedisDatabase.hash_of (env new0) (db_id new0))
          with (RedisDatabase.hash_of (env old3) (db_id new0)).
        rewrite Hhash. destruct (decide (db_id new0 = db_id db)) as [|Hne]; [done|].
        by destruct Hnew. }
      destruct (redis_load_run new0 (RedisDatabase.hash_of (env db) (db_id db)) Hfile Hsome)
        as (new1 & o & Hload & Ho & Hinj & Hid1 & Hhash1).
      { intros key bs Hkey. rewrite Hempty, (right_id_L ∅ (∪)) in Hkey.
        by apply (Hloads key). }
      exists new1, o. split_and!; try done.
      * intros Hclock. apply Hinj; [done|]. constructor.
      * rewrite Hid1, Hhash1, Hempty. apply (right_id_L ∅ (∪)).
  - intros Hdir. pose proof (redis_persist_missing db Hdir) as Hpersist.
    split; [done|]. unfold old3, old2. by rewrite Hpersist.
Qed.

Lemma redis_teardown_after_persist_witness :
  let r := result_of HLSResult_cls "pt" 3 true None in
  let db := (@commit test_runtime _ (@RedisDatabase.backend test_runtime) "k" (PyResult r)
               (@RedisDatabase.__init__ test_runtime "proj" 1 (Some "/work/result.db")
                  empty_world)).1 in
  let old3 := (RedisDatabase.__del__ (RedisDatabase.persist db).1).1 in
  let new0 := @RedisDatabase.__init__ test_runtime "proj" 1 (Some "/work/result.db")
                (env old3) in
  RedisDatabase.count old3 = (old3, Return 0) ∧
  ∃ new1,
    @RedisDatabase.load test_runtime new0 = (new1, Return ()) ∧
    RedisDatabase.hash_of (env new1) (db_id new1)
    = {[ "k" := @pickle_dumps test_runtime (PyResult r) ]}.
Proof.
  intros r db old3 new0.
  assert (RedisDatabase.hash_of (env db) (db_id db)
          = {[ "k" := @pickle_dumps test_runtime (PyResult r) ]}) as Hdb by (by vm_compute).
  destruct (@redis_teardown_after_persist test_runtime db "proj" 1)
    as (_ & Hcount & _ & Hdump & _).
  split; [exact Hcount|].
  destruct Hdump as (_ & _ & Hload); [by vm_compute|].
  destruct Hload as (new1 & o & Hload & _ & Hret & _ & Hhash).
  - rewrite Hdb. apply insert_non_empty.
  - intros key bs Hget.
    unfold RedisDatabase.hget in Hget. rewrite Hdb in Hget.
    apply lookup_singleton_Some in Hget as [_ <-].
    eexists. apply test_pickle_round_trip.
  - right. by vm_compute.
  - exists new1. rewrite (Hret test_clock_inj) in Hload. split; [exact Hload|].
    rewrite Hhash. exact Hdb.
Defined.

(** X18: Objects find each other's records through [db_id] alone.  The
    constructor builds it from the name and the whole seconds of the time
    it reads, so two objects of the same name have the same [db_id]
    exactly when their constructors read the same second.  Of two objects
    on one server, with the same [db_id], what one commits the other finds
    under the key, and the teardown of one empties the hash of the other;
    with different ones, neither a commit nor the teardown of one changes
    what the other finds under any key. *)
Theorem redis_objects_share_by_db_id `{Runtime} (a b : Database RedisDatabase.client)
    (key : string) (v : pyobj) :
  let a1 := (commit key v a).1 in
  let a2 := (RedisDatabase.__del__ a1).1 in
  (∀ name size size' p p' w w',
     db_id (RedisDatabase.__init__ name size p w)
     = db_id (RedisDatabase.__init__ name size' p' w')
     ↔ int (time_at (clock_reads w)) = int (time_at (clock_reads w'))) ∧
  (db_id b = db_id a →
     RedisDatabase.hget (env a1) (db_id b) key = Some (pickle_dumps v) ∧
     ∀ k, RedisDatabase.hget (env a2) (db_id b) k = None) ∧
  (db_id b ≠ db_id a →
     ∀ k, RedisDatabase.hget (env a1) (db_id b) k = RedisDatabase.hget (env a) (db_id b) k ∧
          RedisDatabase.hget (env a2) (db_id b) k = RedisDatabase.hget (env a) (db_id b) k).
Proof.
  intros a1 a2.
  destruct (redis_commit_run key v a) as (a1' & Hrun & Hid & _ & _ & Hhash).
  assert (a1 = a1') as Ha1 by (unfold a1; by rewrite Hrun).
  assert (∀ name, RedisDatabase.hash_of (env a2) name =
                    if decide (name = db_id a) then ∅
                    else RedisDatabase.hash_of (env a) name) as Hhash2.
  { intros name. unfold a2, RedisDatabase.__del__. cbn [fst env set_env].
    rewrite redis_hash_of_delete, Ha1, Hid.
    destruct (decide (name = db_id a)) as [|Hne]; [done|].
    by rewrite Hhash, decide_False. }
  split_and!.
  - intros name size size' p p' w w'. unfold RedisDatabase.__init__, Database__init__.
    destruct p, p'; cbn [db_id]; (split; [|by intros ->]);
      intros Heq; by apply (inj (String.append name)), (inj (String.append "-")),
                           (inj pretty) in Heq.
  - intros Hb. unfold RedisDatabase.hget. split.
    + rewrite Ha1, Hhash, Hb, decide_True by done. by rewrite lookup_insert_eq.
    + intros k. by rewrite Hhash2, Hb, decide_True.
  - intros Hb k. unfold RedisDatabase.hget.
    rewrite Ha1, Hhash, Hhash2, !decide_False by done. done.
Qed.

(** Three objects made at a clock counted in thousandths of a second: the
    first two at different readings of one second, the third a second
    later. *)
Lemma redis_objects_share_by_db_id_witness :
  let at_reading := λ n, mkWorld ∅ ∅ "/work" n in
  let a := @RedisDatabase.__init__ coarse_runtime "proj" 1 (Some "/work/a.db") (at_reading 0%nat) in
  let b := @RedisDatabase.__init__ coarse_runtime "proj" 2 (Some "/work/b.db") (at_reading 3%nat) in
  let c := @RedisDatabase.__init__ coarse_runtime "proj" 1 (Some "/work/c.db") (at_reading 6%nat) in
  let a1 := (@commit coarse_runtime _ (@RedisDatabase.backend coarse_runtime) "k" (PyBool true)
               a).1 in
  @time_at coarse_runtime 0%nat ≠ @time_at coarse_runtime 3%nat ∧
  db_id b = db_id a ∧ db_id c ≠ db_id a ∧
  RedisDatabase.hget (env a1) (db_id b) "k" = Some (@pickle_dumps coarse_runtime (PyBool true)) ∧
  RedisDatabase.hget (env a1) (db_id c) "k" = None.
Proof.
  intros at_reading a b c a1.
  destruct (@redis_objects_share_by_db_id coarse_runtime a b "k" (PyBool true))
    as (Hiff & Hsame & _).
  assert (db_id b = db_id a) as Hb by (apply Hiff; by vm_compute).
  assert (db_id c ≠ db_id a) as Hc.
  { intros Heq. apply Hiff in Heq. by vm_compute in Heq. }
  split; [by vm_compute|]. split; [exact Hb|]. split; [exact Hc|]. split.
  - exact (proj1 (Hsame Hb)).
  - etransitivity;
      [exact (proj1 (proj2 (proj2 (@redis_objects_share_by_db_id coarse_runtime a c "k"
                                     (PyBool true))) Hc "k"))|].
    reflexivity.
Defined.
